(** * FS25 documentation scraper: a shallow embedding of [src/main.py]

    The scraper object, the file system it writes to, the network it reads
    from and the standard output are threaded explicitly through a small
    state-and-exception monad.  Library code the scraper calls (the Unicode
    character tables behind [re] and [str.strip], [requests], the HTML
    parser, [urllib]'s query parser, [html2text], the clock) is taken as a
    parameter, collected in [env]. *)

From Stdlib Require Import NArith Ascii String List Bool Lia Sorted.
From stdpp Require Import base option list gmap.
Import ListNotations.

Set Warnings "-register-all".
Local Open Scope N_scope.

(** ** Python strings *)

(** A Python [str] is a sequence of Unicode code points. *)
Abbreviation pystr := (list N).

(** ASCII literals. *)
Definition py (s : string) : pystr := map N_of_ascii (list_ascii_of_string s).

Definition pystr_eqb (a b : pystr) : bool := bool_decide (a = b).

(** [needle in hay] *)
Fixpoint startswith (needle hay : pystr) : bool :=
  match needle, hay with
  | [], _ => true
  | _ :: _, [] => false
  | a :: n', b :: h' => (a =? b) && startswith n' h'
  end.

Fixpoint contains (needle hay : pystr) : bool :=
  startswith needle hay ||
  match hay with
  | [] => false
  | _ :: h' => contains needle h'
  end.

(** [sep.join(parts)] *)
Fixpoint join (sep : pystr) (parts : list pystr) : pystr :=
  match parts with
  | [] => []
  | [p] => p
  | p :: ps => p ++ sep ++ join sep ps
  end.

(** ** Character classes

    CPython decides [\w], [\s] and [str.strip] with the same two tables,
    [Py_UNICODE_ISALNUM] and [Py_UNICODE_ISSPACE].  Their ASCII part is
    written out; the rest of the tables is a parameter. *)

Record unicode_db := {
  uni_alnum : N -> bool;   (* code points >= 128 that are alphanumeric *)
  uni_space : N -> bool    (* code points >= 128 that are whitespace *)
}.

Definition ascii_alnum (c : N) : bool :=
  ((48 <=? c) && (c <=? 57)) || ((65 <=? c) && (c <=? 90)) ||
  ((97 <=? c) && (c <=? 122)).

(** TAB, LF, VT, FF, CR, FS, GS, RS, US and SPACE. *)
Definition ascii_space (c : N) : bool :=
  ((9 <=? c) && (c <=? 13)) || ((28 <=? c) && (c <=? 32)).

Section Chars.
Variable U : unicode_db.

Definition isalnum (c : N) : bool :=
  if c <? 128 then ascii_alnum c else uni_alnum U c.

Definition isspace (c : N) : bool :=
  if c <? 128 then ascii_space c else uni_space U c.

(** [\w] *)
Definition is_word (c : N) : bool := isalnum c || (c =? 95).

(** The complement of the class [[^\w\s-]]: the characters that
    [re.sub(r'[^\w\s-]', '', name)] keeps. *)
Definition kept (c : N) : bool := is_word c || isspace c || (c =? 45).

Fixpoint lstrip (s : pystr) : pystr :=
  match s with
  | [] => []
  | c :: s' => if isspace c then lstrip s' else s
  end.

Definition rstrip (s : pystr) : pystr := rev (lstrip (rev s)).

(** [s.strip()] *)
Definition strip (s : pystr) : pystr := rstrip (lstrip s).

(** [s.replace(' ', '_')] *)
Definition space_to_underscore (c : N) : N := if c =? 32 then 95 else c.

Definition replace_space (s : pystr) : pystr := map space_to_underscore s.

(** [re.sub(r'[^\w\s-]', '', name).strip().replace(' ', '_')], the
    expression of [save_content] (lines 202-203) and of [scrape_page]
    (lines 320-321). *)
Definition safe_name (name : pystr) : pystr :=
  replace_space (strip (List.filter kept name)).
End Chars.

(** ** Paths

    A [pathlib.Path] relative to the working directory, as its components.
    [p / s] for a component [s] without separator or dot: an empty [s] leaves
    [p] as it is. *)
Abbreviation path := (list pystr).

Definition path_join (p : path) (s : pystr) : path :=
  match s with
  | [] => p
  | _ => p ++ [s]
  end.

Definition as_posix (p : path) : pystr :=
  match p with
  | [] => py "."
  | _ => join (py "/") p
  end.

(** [p.relative_to(base)]; [None] stands for [ValueError]. *)
Fixpoint relative_to (p base : path) : option path :=
  match base, p with
  | [], _ => Some p
  | b :: base', c :: p' => if pystr_eqb b c then relative_to p' base' else None
  | _ :: _, [] => None
  end.

Definition parent (p : path) : path := removelast p.

(** ** Parsed pages

    The tree [BeautifulSoup(html, 'html.parser')] builds.  The [class]
    attribute is multi-valued and kept as the list of its tokens; the other
    attributes are a dictionary of strings. *)
Inductive node :=
| Tag (tag : pystr) (classes : list pystr) (attrs : list (pystr * pystr))
      (contents : list node)
| NavigableString (s : pystr)
| Comment (s : pystr).

(** Document order: a node, then its descendants. *)
Fixpoint preorder (n : node) : list node :=
  n :: match n with
       | Tag _ _ _ cs => flat_map preorder cs
       | _ => []
       end.

Fixpoint tails {A} (l : list A) : list (list A) :=
  match l with
  | [] => []
  | _ :: t => l :: tails t
  end.

(** An element of a page is handled together with everything that follows it
    in the document, which is what [find_next] walks through. *)
Definition element := list node.

Definition document (root : node) : element := preorder root.

Definition descendants (e : element) : list element :=
  match e with
  | [] => []
  | n :: rest => take (Nat.pred (length (preorder n))) (tails rest)
  end.

Definition next_elements (e : element) : list element :=
  match e with
  | [] => []
  | _ :: rest => tails rest
  end.

Definition matches (p : node -> bool) (e : element) : bool :=
  match e with
  | [] => false
  | n :: _ => p n
  end.

(** [e.find(...)], [e.find_all(...)] and [e.find_next(...)] for a criterion
    [p] on tags. *)
Definition find_all (p : node -> bool) (e : element) : list element :=
  List.filter (matches p) (descendants e).

Definition find (p : node -> bool) (e : element) : option element :=
  head (find_all p e).

Definition find_next (p : node -> bool) (e : element) : option element :=
  head (List.filter (matches p) (next_elements e)).

(** [e.find_all(..., recursive=False)]: direct children only. *)
Definition find_children (p : node -> bool) (n : node) : list node :=
  match n with
  | Tag _ _ _ cs => List.filter p cs
  | _ => []
  end.

Fixpoint dict_get {V} (k : pystr) (d : list (pystr * V)) : option V :=
  match d with
  | [] => None
  | (k', v) :: d' => if pystr_eqb k' k then Some v else dict_get k d'
  end.

Definition is_tag (t : pystr) (n : node) : bool :=
  match n with
  | Tag t' _ _ _ => pystr_eqb t' t
  | _ => false
  end.

Definition get_attr (k : pystr) (n : node) : option pystr :=
  match n with
  | Tag _ _ attrs _ => dict_get k attrs
  | _ => None
  end.

(** [class_=c]: some token of the class attribute is [c], or the whole
    attribute is. *)
Definition has_class (c : pystr) (n : node) : bool :=
  match n with
  | Tag _ cls _ _ =>
      existsb (fun t => pystr_eqb t c) cls ||
      (negb (bool_decide (cls = [])) && pystr_eqb (join (py " ") cls) c)
  | _ => false
  end.

(** [attr=f] for a callable [f] that rejects [None]. *)
Definition attr_such_that (k : pystr) (f : pystr -> bool) (n : node) : bool :=
  match get_attr k n with
  | Some v => f v
  | None => false
  end.

(** [tag.string] *)
Fixpoint tag_string (n : node) : option pystr :=
  match n with
  | Tag _ _ _ [c] => tag_string c
  | Tag _ _ _ _ => None
  | NavigableString s => Some s
  | Comment s => Some s
  end.

Definition string_such_that (f : pystr -> bool) (n : node) : bool :=
  match tag_string n with
  | Some s => f s
  | None => false
  end.

(** [tag.text]: the strings below the tag, comments left out. *)
Fixpoint get_text (n : node) : pystr :=
  match n with
  | Tag _ _ _ cs => flat_map get_text cs
  | NavigableString s => s
  | Comment _ => []
  end.

(** Python truthiness of a string. *)
Definition truthy (s : pystr) : bool := negb (bool_decide (s = [])).

(** [lambda x: x and 'width:200px' in x and 'float:left' in x] *)
Definition sidebar_style (x : pystr) : bool :=
  truthy x && contains (py "width:200px") x && contains (py "float:left") x.

Definition is_sidebar (n : node) : bool :=
  is_tag (py "div") n && attr_such_that (py "style") sidebar_style n.

(** ** The data model *)

Inductive version_t := script | engine.

Definition version_str (v : version_t) : pystr :=
  match v with
  | script => py "script"
  | engine => py "engine"
  end.

(** The [category_info] dictionaries (the specification's CategoryRef and
    SubcategoryRef).  [class_or_function] is the value under
    ['class'] when the version is [script] and under ['function'] when it is
    [engine]; [category_name] is only present on the leaves that
    [get_subcategories] builds. *)
Record CategoryRef := {
  version : version_t;
  category : pystr;
  class_or_function : pystr;
  name : pystr;
  category_name : option pystr
}.

Record item := { item_name : pystr; item_path : pystr }.

(** [self.manifest]: [versions] maps a version to its ['categories'], which
    map a category name to its ['items'].  Python dictionaries keep insertion
    order, so they are association lists here. *)
Record manifest_t := {
  generated_at : option pystr;
  source_url : pystr;
  total_files : N;
  versions : list (pystr * list (pystr * list item))
}.

(** ** The world around the scraper *)

(** One line of [INDEX.md] per [f.write] of [_create_markdown_index], with
    the values it formats. *)
Inductive index_line :=
| IxTitle
| IxGenerated (t : option pystr)
| IxSource (url : pystr)
| IxTotal (n : N)
| IxRule
| IxContents
| IxTocEntry (v : pystr)
| IxVersion (v : pystr)
| IxCategory (c : pystr) (item_count : nat)
| IxItem (nm p : pystr)
| IxBlank.

Inductive file_data :=
| Text (s : pystr)
| JsonDump (m : manifest_t)         (* json.dump(self.manifest, ...) *)
| IndexMd (lines : list index_line).

Inductive fnode := Dir | File (d : file_data).

Inductive exn :=
| FileNotFoundError (p : path)
| NotADirectoryError (p : path)
| IsADirectoryError (p : path)
| FileExistsError (p : path)
| ValueError.

Inductive message :=
| MsgErrorFetching (url err : pystr)
| MsgFetchingMain
| MsgNoSidebar
| MsgFoundCategories (n : nat)
| MsgFetchingSubcategories (nm : pystr)
| MsgManifestSaved (p : path)
| MsgIndexSaved (p : path)
| MsgAlreadyExists (nm : pystr)
| MsgScraping (nm : pystr)
| MsgNoContent (nm : pystr)
| MsgSaved (p : path)
| MsgRule
| MsgTitle
| MsgFailedMain
| MsgProcessing (i n : nat) (nm : pystr)
| MsgNoSubcategories
| MsgGenerating
| MsgComplete
| MsgScraped (n : N)
| MsgFailed (n : N)
| MsgOutputDir (p : path).

Definition params_t := list (pystr * pystr).

Inductive event :=
| EvPrint (m : message)
| EvSleep (milliseconds : N)
| EvGet (url : pystr) (params : option params_t) (timeout_seconds : N)
| EvMkdir (p : path)
| EvWrite (p : path) (d : file_data).

(** What the scraper is configured with and what it calls into. *)
Record env := {
  base_url : pystr;
  output_dir : path;
  unicode : unicode_db;
  (** [session.get(url, params=params, timeout=30)] followed by
      [raise_for_status()], for the n-th request of the run: the body, or the
      exception. *)
  session_get : nat -> pystr -> option params_t -> pystr + pystr;
  BeautifulSoup : pystr -> node;
  (** [parse_qs(urlparse(href).query)]: every key with its first value and
      the remaining ones. *)
  parse_qs_query : pystr -> list (pystr * (pystr * list pystr));
  (** [self.h2t.handle(str(tag))] *)
  h2t_handle : node -> pystr;
  (** [datetime.now().isoformat()] *)
  now_isoformat : pystr
}.

Record world := {
  manifest : manifest_t;
  fs : gmap path fnode;
  sent : nat;                 (* requests made so far *)
  trace : list event          (* oldest first *)
}.

Definition set_manifest (m : manifest_t) (w : world) : world :=
  {| manifest := m; fs := fs w; sent := sent w; trace := trace w |}.

Definition set_fs (f : gmap path fnode) (w : world) : world :=
  {| manifest := manifest w; fs := f; sent := sent w; trace := trace w |}.

Definition log (e : event) (w : world) : world :=
  {| manifest := manifest w; fs := fs w; sent := sent w;
     trace := trace w ++ [e] |}.

Definition count_request (w : world) : world :=
  {| manifest := manifest w; fs := fs w; sent := S (sent w);
     trace := trace w |}.

(** ** State and exceptions *)

Inductive result (A : Type) :=
| Ok (a : A) (w : world)
| Raised (e : exn) (w : world).
Arguments Ok {A} a w.
Arguments Raised {A} e w.

Definition M (A : Type) := world -> result A.

Definition ret {A} (a : A) : M A := fun w => Ok a w.

Definition bind {A B} (m : M A) (k : A -> M B) : M B :=
  fun w => match m w with
           | Ok a w' => k a w'
           | Raised e w' => Raised e w'
           end.

Definition raise {A} (e : exn) : M A := fun w => Raised e w.

Notation "'let*' x ':=' m 'in' k" := (bind m (fun x => k))
  (at level 10, x name, m at level 100, k at level 200).
Notation "'do' m 'then' k" := (bind m (fun _ => k))
  (at level 10, m at level 100, k at level 200).

Definition final {A} (r : result A) : world :=
  match r with
  | Ok _ w => w
  | Raised _ w => w
  end.

Definition print (m : message) : M unit := fun w => Ok tt (log (EvPrint m) w).

(** ** The file system *)

(** Walks [rest] below [acc], every component of which has to be a
    directory. *)
Fixpoint lookup_dirs (f : gmap path fnode) (acc : path) (rest : list pystr)
    (whole : path) : option exn :=
  match rest with
  | [] => None
  | c :: rest' =>
      match f !! (acc ++ [c]) with
      | Some Dir => lookup_dirs f (acc ++ [c]) rest' whole
      | Some (File _) => Some (NotADirectoryError whole)
      | None => Some (FileNotFoundError whole)
      end
  end.

(** [p.exists()] *)
Definition path_exists (f : gmap path fnode) (p : path) : bool :=
  match p with
  | [] => true
  | _ => match lookup_dirs f [] (parent p) p, f !! p with
         | None, Some _ => true
         | _, _ => false
         end
  end.

(** [p.mkdir(parents=True, exist_ok=True)] *)
Fixpoint mkdirs (f : gmap path fnode) (acc : path) (rest : list pystr)
    (whole : path) : exn + gmap path fnode :=
  match rest with
  | [] => inr f
  | c :: rest' =>
      match f !! (acc ++ [c]) with
      | Some Dir => mkdirs f (acc ++ [c]) rest' whole
      | Some (File _) =>
          inl (match rest' with
               | [] => FileExistsError whole
               | _ => NotADirectoryError whole
               end)
      | None => mkdirs (<[acc ++ [c] := Dir]> f) (acc ++ [c]) rest' whole
      end
  end.

Definition mkdir_parents (p : path) : M unit := fun w =>
  match mkdirs (fs w) [] p p with
  | inl e => Raised e w
  | inr f => Ok tt (log (EvMkdir p) (set_fs f w))
  end.

(** [with open(p, 'w', encoding='utf-8') as f: f.write(...)] *)
Definition write_file (p : path) (d : file_data) : M unit := fun w =>
  match lookup_dirs (fs w) [] (parent p) p with
  | Some e => Raised e w
  | None =>
      match fs w !! p with
      | Some Dir => Raised (IsADirectoryError p) w
      | _ => Ok tt (log (EvWrite p d) (set_fs (<[p := File d]> (fs w)) w))
      end
  end.

(** ** Dictionaries in insertion order *)

Definition dict_mem {V} (k : pystr) (d : list (pystr * V)) : bool :=
  match dict_get k d with
  | Some _ => true
  | None => false
  end.

(** [if k not in d: d[k] = v] *)
Definition dict_init {V} (k : pystr) (v : V) (d : list (pystr * V))
    : list (pystr * V) :=
  if dict_mem k d then d else d ++ [(k, v)].

(** [d[k] = f(d[k])] for a key that is present. *)
Fixpoint dict_alter {V} (f : V -> V) (k : pystr) (d : list (pystr * V))
    : list (pystr * V) :=
  match d with
  | [] => []
  | (k', v) :: d' =>
      if pystr_eqb k' k then (k', f v) :: d' else (k', v) :: dict_alter f k d'
  end.

Definition dict_keys {V} (d : list (pystr * V)) : list pystr := map fst d.

(** ** Sorting, for the index *)

(** [a <= b] on strings: by code point, a prefix first. *)
Fixpoint pystr_leb (a b : pystr) : bool :=
  match a, b with
  | [], _ => true
  | _ :: _, [] => false
  | x :: a', y :: b' =>
      if x <? y then true else if y <? x then false else pystr_leb a' b'
  end.

Fixpoint insert_by {A} (key : A -> pystr) (x : A) (l : list A) : list A :=
  match l with
  | [] => [x]
  | y :: l' =>
      if pystr_leb (key x) (key y) then x :: l else y :: insert_by key x l'
  end.

(** [sorted(l, key=key)]; stable, as Python's sort is. *)
Definition sorted_by {A} (key : A -> pystr) (l : list A) : list A :=
  fold_right (insert_by key) [] l.

(** ** Cleaning up the converted text *)

Definition newline : N := 10.

(** What [re.sub(r'\n{3,}', '\n\n', ...)] leaves of a maximal run of [k]
    newlines. *)
Definition squeezed (k : nat) : pystr :=
  repeat newline (if (3 <=? k)%nat then 2%nat else k).

(** [re.sub(r'\n{3,}', '\n\n', s)], with [k] newlines of the current run
    already read. *)
Fixpoint collapse_from (k : nat) (s : pystr) : pystr :=
  match s with
  | [] => squeezed k
  | c :: s' =>
      if c =? newline then collapse_from (S k) s'
      else squeezed k ++ c :: collapse_from 0 s'
  end.

Definition collapse_newlines (s : pystr) : pystr := collapse_from 0 s.

(** ** The scraper *)

Section Scraper.
Variable E : env.

(** Lines 40-49. *)
Definition get_page (url : pystr) (params : option params_t)
    : M (option pystr) := fun w =>
  let w1 := log (EvSleep 500) w in
  let w2 := count_request (log (EvGet url params 30) w1) in
  match session_get E (sent w) url params with
  | inl response_text => Ok (Some response_text) w2
  | inr e => Ok None (log (EvPrint (MsgErrorFetching url e)) w2)
  end.

(** [not html] for what [get_page] returned. *)
Definition not_html (html : option pystr) : bool :=
  match html with
  | None => true
  | Some h => negb (truthy h)
  end.

Definition soup_of (html : option pystr) : element :=
  match html with
  | None => []
  | Some h => document (BeautifulSoup E h)
  end.

(** ['class'] or ['function'], the key that goes with a version. *)
Definition member_key (v : version_t) : pystr :=
  match v with
  | script => py "class"
  | engine => py "function"
  end.

(** [find('h3', class_='version', string=lambda x: x and word in x)] *)
Definition is_version_heading (word : pystr) (n : node) : bool :=
  is_tag (py "h3") n && has_class (py "version") n &&
  string_such_that (fun x => truthy x && contains word x) n.

(** [find_all('a', href=True)] *)
Definition is_link (n : node) : bool :=
  is_tag (py "a") n && bool_decide (is_Some (get_attr (py "href") n)).

Definition section_links (word : pystr) (sidebar : element) : list element :=
  match find (is_version_heading word) sidebar with
  | None => []
  | Some section =>
      match find_next (is_tag (py "ul")) section with
      | None => []
      | Some ul => find_all is_link ul
      end
  end.

(** The body of the two loops of [parse_main_page], lines 72-82 and
    89-99. *)
Definition category_of_link (v : version_t) (link : element)
    : option CategoryRef :=
  match link with
  | [] => None
  | a :: _ =>
      match get_attr (py "href") a with
      | None => None
      | Some href =>
          if contains (match v with
                       | script => py "version=script"
                       | engine => py "version=engine"
                       end) href && contains (py "category=") href
          then
            let parsed := parse_qs_query E href in
            match dict_get (py "category") parsed,
                  dict_get (member_key v) parsed with
            | Some (c, _), Some (m, _) =>
                Some {| version := v; category := c;
                        class_or_function := m;
                        name := strip (unicode E) (get_text a);
                        category_name := None |}
            | _, _ => None
            end
          else None
      end
  end.

(** Lines 51-102. *)
Definition parse_main_page : M (list CategoryRef) :=
  do print MsgFetchingMain then
  let* html := get_page (base_url E) None in
  if not_html html then ret []
  else
    let soup := soup_of html in
    match find is_sidebar soup with
    | None => do print MsgNoSidebar then ret []
    | Some sidebar =>
        let categories :=
          omap (category_of_link script)
               (section_links (py "Script") sidebar) ++
          omap (category_of_link engine)
               (section_links (py "Engine") sidebar) in
        do print (MsgFoundCategories (length categories)) then
        ret categories
    end.

(** The [params] dictionary of [get_subcategories] (lines 108-116) and of
    [scrape_page] (lines 306-314). *)
Definition build_params (category_info : CategoryRef) : params_t :=
  [ (py "version", version_str (version category_info));
    (py "category", category category_info);
    (member_key (version category_info),
     class_or_function category_info) ].

(** The body of the loop of [get_subcategories], lines 137-152. *)
Definition sub_info_of_link (category_info : CategoryRef)
    (link : element) : option CategoryRef :=
  match link with
  | [] => None
  | a :: _ =>
      match get_attr (py "href") a with
      | None => None
      | Some href =>
          let parsed := parse_qs_query E href in
          match dict_get (member_key (version category_info)) parsed with
          | Some (m, _) =>
              Some {| version := version category_info;
                      category := category category_info;
                      class_or_function := m;
                      name := strip (unicode E) (get_text a);
                      category_name := Some (name category_info) |}
          | None => None
          end
      end
  end.

Definition is_selected_li (n : node) : bool :=
  is_tag (py "li") n && has_class (py "selected") n.

(** Lines 122-158, on the parsed page. *)
Definition subcategories_in (category_info : CategoryRef)
    (soup : element) : list CategoryRef :=
  match find is_sidebar soup with
  | None => []
  | Some sidebar =>
      let subcategories :=
        match find is_selected_li sidebar with
        | None => []
        | Some selected_li =>
            match find (is_tag (py "ul")) selected_li with
            | None => []
            | Some nested_ul =>
                omap (sub_info_of_link category_info)
                     (find_all is_link nested_ul)
            end
        end in
      match subcategories with
      | [] => [category_info]
      | _ => subcategories
      end
  end.

(** Lines 104-158. *)
Definition get_subcategories (category_info : CategoryRef)
    : M (list CategoryRef) :=
  do print (MsgFetchingSubcategories (name category_info)) then
  let* html := get_page (base_url E) (Some (build_params category_info)) in
  if not_html html then ret []
  else ret (subcategories_in category_info (soup_of html)).

(** [find('div', id='box5')] *)
Definition is_box5 (n : node) : bool :=
  is_tag (py "div") n && attr_such_that (py "id") (pystr_eqb (py "box5")) n.

(** [find('div', class_='entry')] *)
Definition is_entry (n : node) : bool :=
  is_tag (py "div") n && has_class (py "entry") n.

(** [entry.find_all('div', recursive=False)] *)
Definition content_divs (entry : element) : list node :=
  match entry with
  | [] => []
  | n :: _ => find_children (is_tag (py "div")) n
  end.

(** Lines 160-177.  A tag is truthy whatever it contains, so [not box5]
    and [not entry] only hold for [None]. *)
Definition extract_content (soup : element) : option node :=
  match find is_box5 soup with
  | None => None
  | Some box5 =>
      match find is_entry box5 with
      | None => None
      | Some entry =>
          match content_divs entry with
          | _ :: content_div :: _ => Some content_div
          | _ => None
          end
      end
  end.

(** Lines 191 and 193. *)
Definition clean_markdown (markdown : pystr) : pystr :=
  strip (unicode E) (collapse_newlines markdown).

(** Lines 179-193; [None] is the only falsy content it is called with. *)
Definition html_to_markdown (html_content : option node) : pystr :=
  match html_content with
  | None => []
  | Some tag => clean_markdown (h2t_handle E tag)
  end.
End Scraper.

(** ** Persistence and the run *)

Section Persistence.
Variable E : env.

(** Lines 224-248. *)
Definition _add_to_manifest (version category_name item_name : pystr)
    (file_path : path) : M unit := fun w =>
  let m := manifest w in
  let versions1 := dict_init version [] (versions m) in
  let versions2 :=
    dict_alter (dict_init category_name []) version versions1 in
  match relative_to file_path (output_dir E) with
  | None =>
      Raised ValueError
        (set_manifest {| generated_at := generated_at m;
                         source_url := source_url m;
                         total_files := total_files m;
                         versions := versions2 |} w)
  | Some rel =>
      let relative_path := as_posix rel in
      let entry := {| item_name := item_name; item_path := relative_path |} in
      let versions3 :=
        dict_alter (dict_alter (fun items => items ++ [entry]) category_name)
                   version versions2 in
      Ok tt
        (set_manifest {| generated_at := generated_at m;
                         source_url := source_url m;
                         total_files := total_files m + 1;
                         versions := versions3 |} w)
  end.

(** The path both [save_content] (lines 197-210) and [scrape_page]
    (lines 317-322) compute; each site is spelled out below. *)
Definition display_category (category_info : CategoryRef) : pystr :=
  match category_name category_info with
  | Some c => c
  | None => name category_info
  end.

(** What [save_content] writes, lines 213-217. *)
Definition document_text (item_name category_name version content : pystr)
    : pystr :=
  py "# " ++ item_name ++ [newline; newline] ++
  py "**Category:** " ++ category_name ++ [newline] ++
  py "**Version:** " ++ version ++ [newline; newline] ++
  py "---" ++ [newline; newline] ++
  content.

(** Lines 195-222. *)
Definition save_content (content : pystr) (category_info : CategoryRef)
    : M path :=
  let version := version_str (version category_info) in
  let category_name := display_category category_info in
  let item_name := name category_info in
  let safe_category := safe_name (unicode E) category_name in
  let safe_item := safe_name (unicode E) item_name in
  let output_path := path_join (path_join (output_dir E) version)
                               safe_category in
  do mkdir_parents output_path then
  let file_path := path_join output_path (safe_item ++ py ".md") in
  do write_file file_path
       (Text (document_text item_name category_name version content)) then
  do _add_to_manifest version category_name item_name file_path then
  ret file_path.

(** Lines 276-300. *)
Definition index_lines (m : manifest_t) : list index_line :=
  [IxTitle; IxGenerated (generated_at m); IxSource (source_url m);
   IxTotal (total_files m); IxRule; IxContents] ++
  map IxTocEntry (sorted_by id (dict_keys (versions m))) ++
  [IxRule] ++
  flat_map (fun version =>
    match dict_get version (versions m) with
    | None => []
    | Some categories =>
        [IxVersion version] ++
        flat_map (fun category =>
          match dict_get category categories with
          | None => []
          | Some items =>
              [IxCategory category (length items)] ++
              map (fun i => IxItem (item_name i) (item_path i))
                  (sorted_by item_name items) ++
              [IxBlank]
          end) (sorted_by id (dict_keys categories)) ++
        [IxBlank]
    end) (sorted_by id (dict_keys (versions m))).

(** Lines 265-302. *)
Definition _create_markdown_index : M unit := fun w =>
  let index_path := path_join (output_dir E) (py "INDEX.md") in
  (do write_file index_path (IndexMd (index_lines (manifest w))) then
   print (MsgIndexSaved index_path)) w.

(** Lines 250-263. *)
Definition save_manifest : M unit := fun w =>
  let m := manifest w in
  let stamped := {| generated_at := Some (now_isoformat E);
                    source_url := source_url m;
                    total_files := total_files m;
                    versions := versions m |} in
  let manifest_path := path_join (output_dir E) (py "manifest.json") in
  (do write_file manifest_path (JsonDump stamped) then
   do print (MsgManifestSaved manifest_path) then
   _create_markdown_index) (set_manifest stamped w).

(** Lines 304-345. *)
Definition scrape_page (category_info : CategoryRef) : M bool := fun w =>
  let params := build_params category_info in
  let version := version_str (version category_info) in
  let category_name := display_category category_info in
  let item_name := name category_info in
  let safe_category := safe_name (unicode E) category_name in
  let safe_item := safe_name (unicode E) item_name in
  let file_path :=
    path_join (path_join (path_join (output_dir E) version) safe_category)
              (safe_item ++ py ".md") in
  if path_exists (fs w) file_path then
    (do print (MsgAlreadyExists item_name) then ret true) w
  else
    (do print (MsgScraping item_name) then
     let* html := get_page E (base_url E) (Some params) in
     if not_html html then ret false
     else
       let soup := soup_of E html in
       match extract_content soup with
       | None => do print (MsgNoContent item_name) then ret false
       | Some content_div =>
           let markdown := html_to_markdown E (Some content_div) in
           let* saved_path := save_content markdown category_info in
           do print (MsgSaved saved_path) then
           ret true
       end) w.

(** [total_scraped] and [total_failed]. *)
Definition tally (ok : bool) (totals : N * N) : N * N :=
  if ok then (fst totals + 1, snd totals) else (fst totals, snd totals + 1).

(** Lines 378-382. *)
Fixpoint scrape_each (subcategories : list CategoryRef) (totals : N * N)
    : M (N * N) :=
  match subcategories with
  | [] => ret totals
  | sub :: rest =>
      let* ok := scrape_page sub in
      scrape_each rest (tally ok totals)
  end.

(** Lines 363-382, from the [i]-th of [n] categories on. *)
Fixpoint process_categories (categories : list CategoryRef) (i n : nat)
    (totals : N * N) : M (N * N) :=
  match categories with
  | [] => ret totals
  | category :: rest =>
      do print (MsgProcessing i n (name category)) then
      let* subcategories := get_subcategories E category in
      let* totals' :=
        match subcategories with
        | [] =>
            do print MsgNoSubcategories then
            let* ok := scrape_page category in
            ret (tally ok totals)
        | _ => scrape_each subcategories totals
        end in
      process_categories rest (S i) n totals'
  end.

(** Lines 347-393. *)
Definition scrape_all : M unit :=
  do print MsgRule then
  do print MsgTitle then
  do print MsgRule then
  let* categories := parse_main_page E in
  match categories with
  | [] => print MsgFailedMain
  | _ =>
      let* totals :=
        process_categories categories 1 (length categories) (0, 0) in
      do print MsgGenerating then
      do save_manifest then
      do print MsgRule then
      do print MsgComplete then
      do print (MsgScraped (fst totals)) then
      do print (MsgFailed (snd totals)) then
      do print (MsgOutputDir (output_dir E)) then
      print MsgRule
  end.

(** [FS25DocScraper.__init__], lines 31-38. *)
Definition initial_manifest : manifest_t :=
  {| generated_at := None; source_url := base_url E; total_files := 0;
     versions := [] |}.
End Persistence.

(** ** A small site, for the examples

    [simple_query] agrees with [parse_qs(urlparse(href).query)] on hrefs
    that carry no escapes, no [+] and no blank values, which is all the
    example pages use; [ascii_only] leaves every code point from 128 on
    outside both tables, and the examples are ASCII. *)

Fixpoint split_at (sep : N) (s : pystr) : pystr * option pystr :=
  match s with
  | [] => ([], None)
  | c :: s' =>
      if c =? sep then ([], Some s')
      else let r := split_at sep s' in (c :: fst r, snd r)
  end.

Fixpoint split_on (sep : N) (cur : pystr) (s : pystr) : list pystr :=
  match s with
  | [] => [rev cur]
  | c :: s' =>
      if c =? sep then rev cur :: split_on sep [] s'
      else split_on sep (c :: cur) s'
  end.

Definition add_value (k v : pystr) (d : list (pystr * (pystr * list pystr)))
    : list (pystr * (pystr * list pystr)) :=
  if dict_mem k d then dict_alter (fun fr => (fst fr, snd fr ++ [v])) k d
  else d ++ [(k, (v, []))].

Definition simple_query (href : pystr) : list (pystr * (pystr * list pystr)) :=
  match snd (split_at 63 (fst (split_at 35 href))) with
  | None => []
  | Some query =>
      fold_left (fun d piece =>
                   match split_at 61 piece with
                   | (k, Some (c :: v)) => add_value k (c :: v) d
                   | _ => d
                   end)
                (split_on 38 [] query) []
  end.

Definition ascii_only : unicode_db :=
  {| uni_alnum := fun _ => false; uni_space := fun _ => false |}.

Definition soup_object (contents : list node) : node :=
  Tag (py "[document]") [] [] contents.

Definition sidebar_div (contents : list node) : node :=
  Tag (py "div") [] [(py "style", py "width:200px;float:left")] contents.

Definition link (href text : string) : node :=
  Tag (py "a") [] [(py "href", py href)] [NavigableString (py text)].

Definition li (classes : list pystr) (contents : list node) : node :=
  Tag (py "li") classes [] contents.

Definition ul (contents : list node) : node := Tag (py "ul") [] [] contents.

Definition div (contents : list node) : node := Tag (py "div") [] [] contents.

(** The root page: one script category, Vehicles. *)
Definition root_html : pystr :=
  py "<div style='width:200px;float:left'><h3 class='version'>Script</h3><ul><li><a href='?version=script&category=1&class=10'>Vehicles</a></li></ul></div>".

Definition root_soup : node :=
  soup_object
    [sidebar_div
       [Tag (py "h3") [py "version"] [] [NavigableString (py "Script")];
        ul [li [] [link "?version=script&category=1&class=10" "Vehicles"]]]].

(** The page of Vehicles: its entry is selected and lists Wheels and Motor. *)
Definition vehicles_html : pystr :=
  py "<div style='width:200px;float:left'><ul><li class='selected'><a href='?version=script&category=1&class=10'>Vehicles</a><ul><li><a href='?version=script&category=1&class=11'>Wheels</a></li><li><a href='?version=script&category=1&class=12'>Motor</a></li></ul></li></ul></div>".

Definition vehicles_soup : node :=
  soup_object
    [sidebar_div
       [ul [li [py "selected"]
               [link "?version=script&category=1&class=10" "Vehicles";
                ul [li [] [link "?version=script&category=1&class=11" "Wheels"];
                    li [] [link "?version=script&category=1&class=12" "Motor"]]]]]].

(** A leaf page with its content in the second division of the entry. *)
Definition wheels_html : pystr :=
  py "<div id='box5'><div class='entry'><div>menu</div><div>Hello</div></div></div>".

Definition hello_div : node := div [NavigableString (py "Hello")].

Definition wheels_soup : node :=
  soup_object
    [Tag (py "div") [] [(py "id", py "box5")]
       [Tag (py "div") [py "entry"] []
          [div [NavigableString (py "menu")]; hello_div]]].

(** A leaf page without the content container. *)
Definition motor_html : pystr := py "<p>moved</p>".

Definition motor_soup : node :=
  soup_object [Tag (py "p") [] [] [NavigableString (py "moved")]].

(** The page of Tools: of the two links below its selected entry, the
    second one carries no [class]. *)
Definition tools_html : pystr :=
  py "<div style='width:200px;float:left'><ul><li class='selected'><a href='?version=script&category=2&class=20'>Tools</a><ul><li><a href='?version=script&category=2&class=21'>Hammer</a></li><li><a href='?version=script&category=2'>Overview</a></li></ul></li></ul></div>".

Definition tools_soup : node :=
  soup_object
    [sidebar_div
       [ul [li [py "selected"]
               [link "?version=script&category=2&class=20" "Tools";
                ul [li [] [link "?version=script&category=2&class=21" "Hammer"];
                    li [] [link "?version=script&category=2" "Overview"]]]]]].

Definition site_parser (html : pystr) : node :=
  if pystr_eqb html root_html then root_soup
  else if pystr_eqb html tools_html then tools_soup
  else if pystr_eqb html vehicles_html then vehicles_soup
  else if pystr_eqb html wheels_html then wheels_soup
  else if pystr_eqb html motor_html then motor_soup
  else soup_object [NavigableString html].

(** The server: the root page without parameters, the other pages by their
    [class]. *)
Definition site_server (n : nat) (url : pystr) (params : option params_t)
    : pystr + pystr :=
  match params with
  | None => inl root_html
  | Some ps =>
      match dict_get (py "class") ps with
      | Some c =>
          if pystr_eqb c (py "10") then inl vehicles_html
          else if pystr_eqb c (py "20") then inl tools_html
          else if pystr_eqb c (py "11") then inl wheels_html
          else if pystr_eqb c (py "12") then inl motor_html
          else inr (py "404 Client Error")
      | None => inr (py "404 Client Error")
      end
  end.

Definition site : env :=
  {| base_url := py "https://gdn.giants-software.com/documentation_scripting_fs25.php";
     output_dir := [py "output"];
     unicode := ascii_only;
     session_get := site_server;
     BeautifulSoup := site_parser;
     parse_qs_query := simple_query;
     h2t_handle := fun tag => get_text tag ++ [newline; newline];
     now_isoformat := py "2025-01-01T00:00:00" |}.

(** A fresh scraper in a working directory that holds the files [f]. *)
Definition fresh (E : env) (f : gmap path fnode) : world :=
  {| manifest := initial_manifest E; fs := f; sent := 0; trace := [] |}.

(** The network drops after the root page and the page of Vehicles have
    been served. *)
Definition cut_off : env :=
  {| base_url := base_url site;
     output_dir := output_dir site;
     unicode := unicode site;
     session_get := fun n url params =>
       if (n <? 2)%nat then site_server n url params
       else inr (py "Read timed out.");
     BeautifulSoup := BeautifulSoup site;
     parse_qs_query := parse_qs_query site;
     h2t_handle := h2t_handle site;
     now_isoformat := now_isoformat site |}.

Definition vehicles : CategoryRef :=
  {| version := script; category := py "1"; class_or_function := py "10";
     name := py "Vehicles"; category_name := None |}.

Definition wheels : CategoryRef :=
  {| version := script; category := py "1"; class_or_function := py "11";
     name := py "Wheels"; category_name := Some (py "Vehicles") |}.

Definition motor : CategoryRef :=
  {| version := script; category := py "1"; class_or_function := py "12";
     name := py "Motor"; category_name := Some (py "Vehicles") |}.

Definition tools : CategoryRef :=
  {| version := script; category := py "2"; class_or_function := py "20";
     name := py "Tools"; category_name := None |}.



(** The names of Wheels under other identifiers. *)
Definition wheels_renumbered : CategoryRef :=
  {| version := script; category := py "7"; class_or_function := py "70";
     name := py "Wheels"; category_name := Some (py "Vehicles") |}.



(** A working directory in which an earlier run has saved Wheels. *)
Definition after_first_run : gmap path fnode :=
  {[ [py "output"] := Dir;
     [py "output"; py "script"] := Dir;
     [py "output"; py "script"; py "Vehicles"] := Dir;
     [py "output"; py "script"; py "Vehicles"; py "Wheels.md"] :=
       File (Text (py "# Wheels")) ]}.

(** ** Notions the properties are stated with *)

(** The path of the document of a leaf, as [scrape_page] computes it on
    lines 317-322. *)
Definition document_path (E : env) (category_info : CategoryRef) : path :=
  path_join
    (path_join (path_join (output_dir E) (version_str (version category_info)))
               (safe_name (unicode E) (display_category category_info)))
    (safe_name (unicode E) (name category_info) ++ py ".md").






(** No whitespace at the head of a string. *)
Definition tight (U : unicode_db) (s : pystr) : Prop :=
  match s with
  | [] => True
  | c :: _ => isspace U c = false
  end.

(** The number of items a dictionary of lists holds. *)
Definition total {V} (size : V -> N) (d : list (pystr * V)) : N :=
  fold_right (fun kv acc => size (snd kv) + acc) 0 d.

Definition items_in (categories : list (pystr * list item)) : N :=
  total (fun items : list item => N.of_nat (length items)) categories.

(** The sum, over all versions and categories, of the lengths of the item
    lists. *)
Definition listed (m : manifest_t) : N := total items_in (versions m).

Definition manifest_ok (m : manifest_t) : Prop := total_files m = listed m.

(** [manifest['versions'][v]['categories'][c]['items']], empty when a key is
    missing. *)
Definition items_of (v c : pystr) (m : manifest_t) : list item :=
  match dict_get v (versions m) with
  | None => []
  | Some categories =>
      match dict_get c categories with
      | None => []
      | Some items => items
      end
  end.

(** Counting in a trace. *)
Definition is_get (e : event) : bool :=
  match e with
  | EvGet _ _ _ => true
  | _ => false
  end.

(** A document has been written. *)
Definition is_document (e : event) : bool :=
  match e with
  | EvWrite _ (Text _) => true
  | _ => false
  end.

Definition is_skipped (e : event) : bool :=
  match e with
  | EvPrint (MsgAlreadyExists _) => true
  | _ => false
  end.

Definition is_write (e : event) : bool :=
  match e with
  | EvWrite _ _ => true
  | _ => false
  end.

Definition is_summary (e : event) : bool :=
  match e with
  | EvPrint (MsgScraped _) => true
  | EvPrint (MsgFailed _) => true
  | _ => false
  end.

Definition count (p : event -> bool) (t : list event) : N :=
  N.of_nat (length (List.filter p t)).

(** Documents written, leaves skipped and requests sent so far. *)
Definition documents (w : world) : N := count is_document (trace w).

Definition skips (w : world) : N := count is_skipped (trace w).

Definition gets (w : world) : N := count is_get (trace w).

(** An operation that leaves the manifest and the files alone, writes no
    document and skips no leaf. *)
Definition quiet (w w' : world) : Prop :=
  manifest w' = manifest w /\ fs w' = fs w /\
  documents w' = documents w /\ skips w' = skips w /\
  count is_write (trace w') = count is_write (trace w) /\
  count is_summary (trace w') = count is_summary (trace w).

(** Between [w] and [w'], [dd] documents were written and listed in the
    manifest and [dk] leaves were skipped; no summary was printed, and a
    consistent manifest stayed consistent. *)
Definition moved (dd dk : N) (w w' : world) : Prop :=
  documents w' = documents w + dd /\
  skips w' = skips w + dk /\
  total_files (manifest w') = total_files (manifest w) + dd /\
  count is_summary (trace w') = count is_summary (trace w) /\
  (manifest_ok (manifest w) -> manifest_ok (manifest w')).

(** A loop over leaves that started from the total [from] has added what it
    wrote and what it skipped. *)
Definition tallied (from : N) (w : world) (r : result (N * N)) : Prop :=
  match r with
  | Ok totals' w' =>
      exists dd dk, moved dd dk w w' /\ fst totals' = from + (dd + dk)
  | Raised _ w' => exists dd dk, moved dd dk w w'
  end.

(** A consistent manifest stays consistent. *)
Definition keeps_ok (w w' : world) : Prop :=
  manifest_ok (manifest w) -> manifest_ok (manifest w').

(** The six lines that close the output of a run. *)
Definition summary (E : env) (scraped failed : N) : list event :=
  [EvPrint MsgRule; EvPrint MsgComplete; EvPrint (MsgScraped scraped);
   EvPrint (MsgFailed failed); EvPrint (MsgOutputDir (output_dir E));
   EvPrint MsgRule].

(** The manifest, or the index, has been written. *)
Definition is_manifest_write (e : event) : bool :=
  match e with
  | EvWrite _ (JsonDump _) => true
  | _ => false
  end.

Definition is_index_write (e : event) : bool :=
  match e with
  | EvWrite _ (IndexMd _) => true
  | _ => false
  end.

(** Neither the manifest nor the index was written between [w] and [w']. *)
Definition uncatalogued (w w' : world) : Prop :=
  count is_manifest_write (trace w') = count is_manifest_write (trace w) /\
  count is_index_write (trace w') = count is_index_write (trace w).

(** No three newlines in a row, [k] newlines having just been read. *)
Fixpoint no_triple_from (k : nat) (s : pystr) : bool :=
  match s with
  | [] => true
  | c :: s' =>
      if c =? newline then (S k <? 3)%nat && no_triple_from (S k) s'
      else no_triple_from 0 s'
  end.


(** A network that is down. *)
Definition offline : env :=
  {| base_url := base_url site;
     output_dir := output_dir site;
     unicode := unicode site;
     session_get := fun _ _ _ => inr (py "Connection refused");
     BeautifulSoup := BeautifulSoup site;
     parse_qs_query := parse_qs_query site;
     h2t_handle := h2t_handle site;
     now_isoformat := now_isoformat site |}.

(** Two names that differ and sanitize to the same file name. *)
Definition wheels_spaced : CategoryRef :=
  {| version := script; category := py "1"; class_or_function := py "14";
     name := py "Wheel Sets"; category_name := Some (py "Vehicles") |}.

Definition wheels_underscored : CategoryRef :=
  {| version := script; category := py "1"; class_or_function := py "15";
     name := py "Wheel_Sets!"; category_name := Some (py "Vehicles") |}.

(** Every dictionary of the manifest has each key once, as a Python
    dictionary does. *)
Definition unique_keys (m : manifest_t) : Prop :=
  NoDup (dict_keys (versions m)) /\
  Forall (fun kv => NoDup (dict_keys (snd kv))) (versions m).

Definition is_sleep (e : event) : bool :=
  match e with
  | EvSleep _ => true
  | _ => false
  end.

(** A trace in which every request comes right after the half-second delay
    and no other delay is taken. *)
Inductive paced : list event -> Prop :=
| paced_nil : paced []
| paced_other e t :
    is_get e = false -> is_sleep e = false -> paced t -> paced (t ++ [e])
| paced_request url params t :
    paced t -> paced (t ++ [EvSleep 500; EvGet url params 30]).

(** Between [w] and [w'] the trace has grown by events of the shape [P]. *)
Definition grows (P : list event -> Prop) (w w' : world) : Prop :=
  exists t, trace w' = trace w ++ t /\ P t.

(** The versions the table of contents of an index names, and the items its
    links point to. *)
Definition toc_entries (lines : list index_line) : list pystr :=
  omap (fun l => match l with
                 | IxTocEntry v => Some v
                 | _ => None
                 end) lines.

Definition item_lines (lines : list index_line) : list item :=
  omap (fun l => match l with
                 | IxItem nm p => Some {| item_name := nm; item_path := p |}
                 | _ => None
                 end) lines.

(** Every item of a manifest, bucket after bucket. *)
Definition all_items (m : manifest_t) : list item :=
  flat_map (fun kv => flat_map snd (snd kv)) (versions m).

Definition alphabetical (l : list pystr) : Prop :=
  Sorted (fun a b => pystr_leb a b = true) l.

(** A file tree in which every entry lies below directories, as on disk. *)
Definition tree (f : gmap path fnode) : Prop :=
  forall p x, f !! p = Some x -> lookup_dirs f [] (parent p) p = None.

(** Nothing that was there has been removed or changed. *)
Definition conserved (w w' : world) : Prop :=
  tree (fs w) -> tree (fs w') /\ fs w ⊆ fs w'.

(** The same, some paths apart. *)
Definition conserved_but (others : list path) (w w' : world) : Prop :=
  tree (fs w) ->
  tree (fs w') /\
  forall p, ~ In p others ->
    forall x, fs w !! p = Some x -> fs w' !! p = Some x.

(** A property of the manifest that is kept. *)
Definition keeps (I : manifest_t -> Prop) (w w' : world) : Prop :=
  I (manifest w) -> I (manifest w').

(** The lines that announce a category or a leaf. *)
Definition is_progress (m : message) : bool :=
  match m with
  | MsgProcessing _ _ _ | MsgAlreadyExists _ | MsgScraping _ => true
  | _ => false
  end.

(** What a trace says, for a choice [sel] of printed lines. *)
Definition said {X} (sel : message -> option X) (t : list event) : list X :=
  omap (fun e => match e with
                 | EvPrint m => sel m
                 | _ => None
                 end) t.


(** The category a line announces, with its number and the total. *)
Definition category_line (m : message) : option (nat * nat * pystr) :=
  match m with
  | MsgProcessing i n nm => Some (i, n, nm)
  | _ => None
  end.

(** The first line [scrape_page] prints for a leaf. *)
Definition first_line (E : env) (category_info : CategoryRef) (w : world)
    : message :=
  if path_exists (fs w) (document_path E category_info)
  then MsgAlreadyExists (name category_info)
  else MsgScraping (name category_info).

Definition hushed {X} (sel : message -> option X) (w w' : world) : Prop :=
  said sel (trace w') = said sel (trace w).






(** Reading an index back: the links that come right after a heading, *)
Fixpoint links (lines : list index_line) : list item :=
  match lines with
  | IxItem nm p :: rest => {| item_name := nm; item_path := p |} :: links rest
  | _ => []
  end.

(** and the category headings, each with the count it shows and the links
    below it. *)
Fixpoint headings (lines : list index_line)
    : list (pystr * nat * list item) :=
  match lines with
  | [] => []
  | IxCategory c n :: rest => (c, n, links rest) :: headings rest
  | _ :: rest => headings rest
  end.

(** Lines after which a reader starts afresh. *)
Definition closed (a : list index_line) : Prop :=
  forall b, headings (a ++ b) = headings a ++ headings b.

(** Items in the order of their names. *)
Definition by_name (l : list item) : Prop :=
  Sorted (fun a b => pystr_leb (item_name a) (item_name b) = true) l.

(** * Properties *)

(** ** Characters and trimming *)

Section CharFacts.
Variable U : unicode_db.

Lemma isspace_space : isspace U 32 = true.
Proof. reflexivity. Qed.

Lemma unspaced_not_space c :
  isspace U c = false -> space_to_underscore c = c.
Proof.
  unfold space_to_underscore. destruct (N.eqb_spec c 32) as [->|]; [|done].
  rewrite isspace_space. discriminate.
Qed.

Lemma unspaced_idem c :
  space_to_underscore (space_to_underscore c) = space_to_underscore c.
Proof.
  unfold space_to_underscore.
  destruct (N.eqb_spec c 32) as [->|Hc]; [reflexivity|].
  destruct (N.eqb_spec c 32); congruence.
Qed.

Lemma kept_unspaced c : kept U c = true -> kept U (space_to_underscore c) = true.
Proof. unfold space_to_underscore. destruct (c =? 32); [reflexivity|done]. Qed.


Lemma lstrip_tight s : tight U (lstrip U s).
Proof.
  induction s as [|c s IH]; simpl; [done|].
  destruct (isspace U c) eqn:Hc; [done|]. simpl. done.
Qed.

Lemma lstrip_id s : tight U s -> lstrip U s = s.
Proof. destruct s as [|c s]; simpl; [done|]. by intros ->. Qed.

(** [lstrip] drops a run of whitespace and nothing else. *)
Lemma lstrip_split s :
  exists p, s = p ++ lstrip U s /\ Forall (fun c => isspace U c = true) p.
Proof.
  induction s as [|c s (p & Hs & Hp)]; simpl.
  - by exists [].
  - destruct (isspace U c) eqn:Hc.
    + exists (c :: p). split; [simpl; congruence | by constructor].
    + by exists [].
Qed.

Lemma rstrip_split s :
  exists q, s = rstrip U s ++ q /\ Forall (fun c => isspace U c = true) q.
Proof.
  destruct (lstrip_split (rev s)) as (p & Hs & Hp).
  exists (rev p). split; [|by apply Forall_rev].
  unfold rstrip. rewrite <- rev_app_distr, <- Hs. symmetry. apply rev_involutive.
Qed.

Lemma tight_app_l a b : tight U (a ++ b) -> tight U a.
Proof. destruct a; simpl; done. Qed.

Lemma strip_tight s : tight U (strip U s) /\ tight U (rev (strip U s)).
Proof.
  unfold strip, rstrip. rewrite rev_involutive. split; [|apply lstrip_tight].
  destruct (lstrip_split (rev (lstrip U s))) as (p & Hs & _).
  apply (f_equal (@rev N)) in Hs. rewrite rev_involutive, rev_app_distr in Hs.
  apply tight_app_l with (rev p). rewrite <- Hs. apply lstrip_tight.
Qed.

Lemma strip_id s : tight U s -> tight U (rev s) -> strip U s = s.
Proof.
  intros Hs Hr. unfold strip, rstrip.
  rewrite (lstrip_id s Hs), (lstrip_id _ Hr). apply rev_involutive.
Qed.

Lemma tight_map s : tight U s -> tight U (map space_to_underscore s).
Proof.
  destruct s; simpl; [done|]. intros H. by rewrite unspaced_not_space.
Qed.

Lemma Forall_lstrip (P : N -> Prop) s : Forall P s -> Forall P (lstrip U s).
Proof.
  induction 1 as [|c s Hc Hs IH]; simpl; [constructor|].
  destruct (isspace U c); [done| by constructor].
Qed.

Lemma Forall_strip (P : N -> Prop) s : Forall P s -> Forall P (strip U s).
Proof.
  intros H. unfold strip, rstrip.
  apply Forall_rev, Forall_lstrip, Forall_rev, Forall_lstrip, H.
Qed.

Lemma filter_all {A} (f : A -> bool) l :
  Forall (fun x => f x = true) l -> List.filter f l = l.
Proof. induction 1 as [|x l Hx _ IH]; simpl; [done|]. by rewrite Hx, IH. Qed.

Lemma Forall_filter_kept s :
  Forall (fun c => kept U c = true) (List.filter (kept U) s).
Proof.
  apply List.Forall_forall. intros c Hc. by apply filter_In in Hc as [_ ?].
Qed.

Lemma safe_name_kept s : Forall (fun c => kept U c = true) (safe_name U s).
Proof.
  unfold safe_name, replace_space. apply Forall_map.
  eapply Forall_impl; [apply Forall_strip, Forall_filter_kept|].
  intros c. apply kept_unspaced.
Qed.


Lemma safe_name_tight s :
  tight U (safe_name U s) /\ tight U (rev (safe_name U s)).
Proof.
  unfold safe_name, replace_space. rewrite <- map_rev.
  destruct (strip_tight (List.filter (kept U) s)). split; by apply tight_map.
Qed.

Lemma safe_name_idempotent s : safe_name U (safe_name U s) = safe_name U s.
Proof.
  unfold safe_name at 1.
  rewrite (filter_all _ _ (safe_name_kept s)).
  destruct (safe_name_tight s) as [H1 H2]. rewrite (strip_id _ H1 H2).
  unfold safe_name, replace_space. rewrite List.map_map.
  apply map_ext. intros c. apply unspaced_idem.
Qed.

End CharFacts.

(** ** Paths and the monad *)

Lemma pystr_eqb_refl s : pystr_eqb s s = true.
Proof. unfold pystr_eqb. by apply bool_decide_eq_true. Qed.

Lemma pystr_eqb_eq a b : pystr_eqb a b = true <-> a = b.
Proof. unfold pystr_eqb. apply bool_decide_eq_true. Qed.

Lemma path_join_app p s :
  path_join p s = p ++ match s with [] => [] | _ => [s] end.
Proof. destruct s; simpl; [by rewrite app_nil_r | done]. Qed.

Lemma path_join_cons p s : s <> [] -> path_join p s = p ++ [s].
Proof. by destruct s. Qed.

Lemma relative_to_app base rest : relative_to (base ++ rest) base = Some rest.
Proof.
  induction base as [|b base IH]; simpl; [by destruct rest|].
  by rewrite pystr_eqb_refl.
Qed.

Lemma version_str_nonempty v : version_str v <> [].
Proof. by destruct v. Qed.

Lemma md_nonempty s : s ++ py ".md" <> [].
Proof. by destruct s. Qed.

(** The document of a leaf lies below the output directory. *)
Lemma document_path_layout E category_info :
  document_path E category_info =
  output_dir E ++
  [version_str (version category_info)] ++
  match safe_name (unicode E) (display_category category_info) with
  | [] => []
  | _ => [safe_name (unicode E) (display_category category_info)]
  end ++
  [safe_name (unicode E) (name category_info) ++ py ".md"].
Proof.
  unfold document_path.
  rewrite (path_join_cons _ _ (md_nonempty _)), path_join_app.
  rewrite (path_join_cons _ _ (version_str_nonempty _)).
  rewrite <- !List.app_assoc.
  by destruct (safe_name (unicode E) (display_category category_info)).
Qed.

Lemma bind_ok {A B} (m : M A) (k : A -> M B) w b w' :
  bind m k w = Ok b w' -> exists a w1, m w = Ok a w1 /\ k a w1 = Ok b w'.
Proof. unfold bind. destruct (m w) as [a w1|e w1]; [eauto | discriminate]. Qed.

Lemma mkdir_parents_ok p w u w' :
  mkdir_parents p w = Ok u w' ->
  manifest w' = manifest w /\ sent w' = sent w /\
  trace w' = trace w ++ [EvMkdir p].
Proof.
  unfold mkdir_parents. destruct (mkdirs _ _ _ _); [discriminate|].
  by intros [= <- <-].
Qed.

Lemma write_file_ok p d w u w' :
  write_file p d w = Ok u w' ->
  manifest w' = manifest w /\ sent w' = sent w /\
  fs w' = <[p := File d]> (fs w) /\
  trace w' = trace w ++ [EvWrite p d].
Proof.
  unfold write_file. destruct (lookup_dirs _ _ _ _); [discriminate|].
  destruct (fs w !! p) as [[|?]|]; [discriminate| |]; by intros [= <- <-].
Qed.

Lemma add_to_manifest_under E v c i rest w :
  exists w',
    _add_to_manifest E v c i (output_dir E ++ rest) w = Ok tt w' /\
    fs w' = fs w /\ sent w' = sent w /\ trace w' = trace w /\
    total_files (manifest w') = total_files (manifest w) + 1.
Proof.
  unfold _add_to_manifest. rewrite relative_to_app. eauto 10.
Qed.

(** What a successful [save_content] has done. *)
Lemma save_content_ok E content category_info w p w' :
  save_content E content category_info w = Ok p w' ->
  let output_path :=
    path_join (path_join (output_dir E) (version_str (version category_info)))
              (safe_name (unicode E) (display_category category_info)) in
  let text :=
    Text (document_text (name category_info) (display_category category_info)
                        (version_str (version category_info)) content) in
  p = document_path E category_info /\
  fs w' !! p = Some (File text) /\
  sent w' = sent w /\
  trace w' = trace w ++ [EvMkdir output_path; EvWrite p text] /\
  total_files (manifest w') = total_files (manifest w) + 1.
Proof.
  unfold save_content. intros H.
  apply bind_ok in H as (u1 & w1 & H1 & H).
  apply bind_ok in H as (u2 & w2 & H2 & H).
  apply bind_ok in H as (u3 & w3 & H3 & H).
  injection H as <- <-.
  apply mkdir_parents_ok in H1 as (Hm1 & Hs1 & Ht1).
  apply write_file_ok in H2 as (Hm2 & Hs2 & Hf2 & Ht2).
  fold (document_path E category_info) in *.
  rewrite (document_path_layout E category_info) in H3.
  destruct (add_to_manifest_under E
              (version_str (version category_info))
              (display_category category_info) (name category_info)
              ([version_str (version category_info)] ++
               match safe_name (unicode E) (display_category category_info) with
               | [] => []
               | _ => [safe_name (unicode E) (display_category category_info)]
               end ++
               [safe_name (unicode E) (name category_info) ++ py ".md"]) w2)
    as (w3' & H3' & Hf3 & Hs3 & Ht3 & Hn3).
  rewrite H3' in H3. injection H3 as _ <-.
  simpl. repeat split.
  - by rewrite Hf3, Hf2, lookup_insert_eq.
  - congruence.
  - rewrite Ht3, Ht2, Ht1, <- List.app_assoc. done.
  - rewrite Hn3. congruence.
Qed.

(** ** Counting in traces *)

Lemma count_app p a b : count p (a ++ b) = count p a + count p b.
Proof. unfold count. rewrite List.filter_app, length_app. lia. Qed.

Lemma count_snoc p t e : count p (t ++ [e]) = count p t + (if p e then 1 else 0).
Proof. rewrite count_app. unfold count. simpl. by destruct (p e). Qed.

Lemma quiet_refl w : quiet w w.
Proof. by repeat split. Qed.

Lemma quiet_trans w1 w2 w3 : quiet w1 w2 -> quiet w2 w3 -> quiet w1 w3.
Proof.
  unfold quiet. intros (?&?&?&?&?&?) (?&?&?&?&?&?). repeat split; congruence.
Qed.

Lemma quiet_log e w :
  is_document e = false -> is_skipped e = false -> is_write e = false ->
  is_summary e = false -> quiet w (log e w).
Proof.
  intros H1 H2 H3 H4. unfold quiet, documents, skips. simpl.
  rewrite !count_snoc, H1, H2, H3, H4, !N.add_0_r. done.
Qed.

Lemma quiet_count_request w : quiet w (count_request w).
Proof. by repeat split. Qed.

(** A property of the world that every step of [m] and then of [k] carries
    along is carried along by [bind m k], whether it returns or raises. *)
Lemma final_bind {A B} (R : world -> world -> Prop) (m : M A) (k : A -> M B) w :
  (forall w1 w2 w3, R w1 w2 -> R w2 w3 -> R w1 w3) ->
  R w (final (m w)) ->
  (forall a w1, m w = Ok a w1 -> R w1 (final (k a w1))) ->
  R w (final (bind m k w)).
Proof.
  intros Htrans Hm Hk. unfold bind.
  destruct (m w) as [a w1|e w1] eqn:Hmw; simpl in *; [|done].
  eapply Htrans; [exact Hm | by apply Hk].
Qed.

Lemma quiet_bind {A B} (m : M A) (k : A -> M B) w :
  quiet w (final (m w)) ->
  (forall a w1, quiet w1 (final (k a w1))) ->
  quiet w (final (bind m k w)).
Proof. intros Hm Hk. apply final_bind; eauto using quiet_trans. Qed.

Lemma quiet_ret {A} (a : A) w : quiet w (final (ret a w)).
Proof. apply quiet_refl. Qed.

Lemma quiet_get_page E url params w :
  quiet w (final (get_page E url params w)).
Proof.
  unfold get_page.
  assert (H : quiet w (count_request
                         (log (EvGet url params 30) (log (EvSleep 500) w)))).
  { eapply quiet_trans; [by apply (quiet_log (EvSleep 500))|].
    eapply quiet_trans;
      [by apply (quiet_log (EvGet url params 30)) | apply quiet_count_request]. }
  destruct (session_get E (sent w) url params); simpl; [done|].
  eapply quiet_trans; [exact H | by apply quiet_log].
Qed.

Lemma quiet_parse_main_page E w : quiet w (final (parse_main_page E w)).
Proof.
  unfold parse_main_page.
  apply quiet_bind; [by apply quiet_log|]. intros _ w1.
  apply quiet_bind; [apply quiet_get_page|]. intros html w2.
  destruct (not_html html); [apply quiet_ret|].
  destruct (find is_sidebar (soup_of E html)).
  - apply quiet_bind; [by apply quiet_log | intros; apply quiet_ret].
  - apply quiet_bind; [by apply quiet_log | intros; apply quiet_ret].
Qed.

Lemma quiet_get_subcategories E category_info w :
  quiet w (final (get_subcategories E category_info w)).
Proof.
  unfold get_subcategories.
  apply quiet_bind; [by apply quiet_log|]. intros _ w1.
  apply quiet_bind; [apply quiet_get_page|]. intros html w2.
  destruct (not_html html); apply quiet_ret.
Qed.

(** [get_page] returns, whatever the network does. *)
Lemma get_page_returns E url params w :
  exists w',
    get_page E url params w =
      Ok (match session_get E (sent w) url params with
          | inl body => Some body
          | inr _ => None
          end) w'.
Proof.
  unfold get_page. destruct (session_get E (sent w) url params); by eexists.
Qed.

(** ** The page fetcher *)

(** C7: [get_page] sleeps for the fixed delay, sends one request with the
    30 second timeout, and returns the body, or [None] after logging the
    error; it never raises and does not ask again. *)
Theorem get_page_contract E url params w :
  exists w',
    get_page E url params w =
      Ok (match session_get E (sent w) url params with
          | inl body => Some body
          | inr _ => None
          end) w' /\
    trace w' =
      trace w ++ [EvSleep 500; EvGet url params 30] ++
      match session_get E (sent w) url params with
      | inl _ => []
      | inr e => [EvPrint (MsgErrorFetching url e)]
      end /\
    gets w' = gets w + 1 /\
    sent w' = S (sent w) /\
    manifest w' = manifest w /\
    fs w' = fs w.
Proof.
  unfold get_page, gets.
  destruct (session_get E (sent w) url params) as [body|e];
    eexists; (split; [reflexivity|]); simpl;
    (split; [by rewrite <- ?List.app_assoc|]);
    rewrite ?count_snoc; simpl; repeat split; lia.
Qed.

(** ** Dictionaries and the manifest *)

Section Dicts.
Context {V : Type}.
Implicit Types (d : list (pystr * V)) (k : pystr).

Lemma dict_get_app k d d' :
  dict_get k (d ++ d') =
  match dict_get k d with
  | Some v => Some v
  | None => dict_get k d'
  end.
Proof.
  induction d as [|[k' v] d IH]; simpl; [done|].
  by destruct (pystr_eqb k' k).
Qed.

Lemma dict_get_init k v d :
  dict_get k (dict_init k v d) =
  Some (match dict_get k d with
        | Some x => x
        | None => v
        end).
Proof.
  unfold dict_init, dict_mem.
  destruct (dict_get k d) eqn:H; [done|].
  rewrite dict_get_app, H. simpl. by rewrite pystr_eqb_refl.
Qed.

Lemma dict_get_alter (f : V -> V) k d :
  dict_get k (dict_alter f k d) = option_map f (dict_get k d).
Proof.
  induction d as [|[k' v] d IH]; simpl; [done|].
  destruct (pystr_eqb k' k) eqn:Hk; simpl; by rewrite Hk.
Qed.

Lemma total_app (size : V -> N) d d' :
  total size (d ++ d') = total size d + total size d'.
Proof. induction d as [|[k v] d IH]; simpl; [done|]. rewrite IH. lia. Qed.

Lemma total_dict_init (size : V -> N) k v d :
  size v = 0 -> total size (dict_init k v d) = total size d.
Proof.
  intros Hv. unfold dict_init. destruct (dict_mem k d); [done|].
  rewrite total_app. simpl. lia.
Qed.

(** Altering the value under a key moves the total by what the value
    gains. *)
Lemma total_dict_alter (size : V -> N) (f : V -> V) k d v delta :
  dict_get k d = Some v -> size (f v) = size v + delta ->
  total size (dict_alter f k d) = total size d + delta.
Proof.
  intros Hget Hf.
  induction d as [|[k' v'] d IH]; simpl in *; [discriminate|].
  destruct (pystr_eqb k' k); simpl.
  - injection Hget as ->. lia.
  - rewrite (IH Hget). lia.
Qed.
End Dicts.

Lemma items_in_init c categories :
  items_in (dict_init c [] categories) = items_in categories.
Proof. by apply total_dict_init. Qed.

(** The dictionary entries [_add_to_manifest] initialises hold no item. *)
Lemma listed_init v c vs :
  total items_in (dict_alter (dict_init c []) v (dict_init v [] vs)) =
  total items_in vs.
Proof.
  pose proof (dict_get_init v [] vs) as Hget.
  rewrite (total_dict_alter items_in _ v _ _ 0 Hget).
  - rewrite N.add_0_r. by apply total_dict_init.
  - rewrite items_in_init. lia.
Qed.

Lemma listed_append v c entry vs :
  let vs2 := dict_alter (dict_init c []) v (dict_init v [] vs) in
  total items_in
    (dict_alter (dict_alter (fun items => items ++ [entry]) c) v vs2) =
  total items_in vs + 1.
Proof.
  intros vs2.
  assert (Hget : dict_get v vs2 =
                 Some (dict_init c [] match dict_get v vs with
                                      | Some x => x
                                      | None => []
                                      end)).
  { unfold vs2. by rewrite dict_get_alter, dict_get_init. }
  rewrite (total_dict_alter items_in _ v _ _ 1 Hget).
  - unfold vs2. by rewrite listed_init.
  - fold (items_in (dict_alter (fun items : list item => items ++ [entry]) c
                      (dict_init c [] match dict_get v vs with
                                      | Some x => x
                                      | None => []
                                      end))).
    unfold items_in at 1.
    rewrite (total_dict_alter _ _ c _ _ 1 (dict_get_init c [] _)).
    + done.
    + rewrite length_app. simpl. lia.
Qed.

Lemma items_of_append v c entry m m' :
  versions m' =
    dict_alter (dict_alter (fun items => items ++ [entry]) c) v
      (dict_alter (dict_init c []) v (dict_init v [] (versions m))) ->
  items_of v c m' = items_of v c m ++ [entry].
Proof.
  intros Hv. unfold items_of. rewrite Hv.
  rewrite !dict_get_alter, dict_get_init. simpl.
  rewrite dict_get_alter, dict_get_init. simpl.
  destruct (dict_get v (versions m)) as [categories|]; simpl; [|done].
  by destruct (dict_get c categories).
Qed.

(** What [_add_to_manifest] does to the manifest, in either outcome. *)
Lemma add_to_manifest_spec E v c i p w :
  match _add_to_manifest E v c i p w with
  | Ok _ w' =>
      exists rel,
        relative_to p (output_dir E) = Some rel /\
        total_files (manifest w') = total_files (manifest w) + 1 /\
        listed (manifest w') = listed (manifest w) + 1 /\
        items_of v c (manifest w') =
          items_of v c (manifest w) ++
          [{| item_name := i; item_path := as_posix rel |}] /\
        fs w' = fs w /\ trace w' = trace w /\ sent w' = sent w
  | Raised _ w' =>
      total_files (manifest w') = total_files (manifest w) /\
      listed (manifest w') = listed (manifest w) /\
      fs w' = fs w /\ trace w' = trace w /\ sent w' = sent w
  end.
Proof.
  unfold _add_to_manifest.
  destruct (relative_to p (output_dir E)) as [rel|].
  - exists rel. unfold listed. simpl. repeat split.
    + apply listed_append.
    + by apply items_of_append.
  - unfold listed. simpl. repeat split. apply listed_init.
Qed.

Lemma add_to_manifest_ok E v c i p w :
  manifest_ok (manifest w) ->
  manifest_ok (manifest (final (_add_to_manifest E v c i p w))).
Proof.
  unfold manifest_ok. intros H.
  pose proof (add_to_manifest_spec E v c i p w) as Hs.
  destruct (_add_to_manifest E v c i p w); simpl.
  - destruct Hs as (rel & _ & Ht & Hl & _). congruence.
  - destruct Hs as (Ht & Hl & _). congruence.
Qed.

(** ** Accounting *)

Lemma quiet_moved w w' : quiet w w' -> moved 0 0 w w'.
Proof.
  intros (Hm & _ & Hd & Hk & _ & Hs). unfold moved.
  rewrite Hm, Hd, Hk, Hs, !N.add_0_r. done.
Qed.

Lemma moved_refl w : moved 0 0 w w.
Proof. apply quiet_moved, quiet_refl. Qed.

Lemma moved_trans a b c d w1 w2 w3 :
  moved a b w1 w2 -> moved c d w2 w3 -> moved (a + c) (b + d) w1 w3.
Proof.
  unfold moved. intros (?&?&?&?&?) (?&?&?&?&?).
  repeat split; try lia; try congruence. auto.
Qed.

Lemma moved_quiet_l a b w1 w2 w3 :
  quiet w1 w2 -> moved a b w2 w3 -> moved a b w1 w3.
Proof.
  intros H1 H2. apply quiet_moved in H1.
  exact (moved_trans 0 0 a b _ _ _ H1 H2).
Qed.

Lemma moved_quiet_r a b w1 w2 w3 :
  moved a b w1 w2 -> quiet w2 w3 -> moved a b w1 w3.
Proof.
  intros H1 H2. apply quiet_moved in H2.
  pose proof (moved_trans a b 0 0 _ _ _ H1 H2) as H.
  by rewrite !N.add_0_r in H.
Qed.

Lemma mkdir_parents_raised p w e w' :
  mkdir_parents p w = Raised e w' -> w' = w.
Proof.
  unfold mkdir_parents. destruct (mkdirs _ _ _ _); [|discriminate].
  by intros [= _ <-].
Qed.

Lemma write_file_raised p d w e w' : write_file p d w = Raised e w' -> w' = w.
Proof.
  unfold write_file. destruct (lookup_dirs _ _ _ _); [by intros [= _ <-]|].
  destruct (fs w !! p) as [[|?]|]; [by intros [= _ <-] | |]; discriminate.
Qed.

(** [save_content] either writes and lists one document, or raises before
    it has written any. *)
Lemma save_content_moved E content category_info w :
  match save_content E content category_info w with
  | Ok _ w' => moved 1 0 w w'
  | Raised _ w' => moved 0 0 w w'
  end.
Proof.
  destruct (save_content E content category_info w) as [p w'|e w'] eqn:H.
  - pose proof (save_content_ok _ _ _ _ _ _ H) as (_ & _ & _ & Ht & Hn).
    simpl in Ht. unfold moved, documents, skips. rewrite Ht, !count_app.
    repeat split; try (unfold count; simpl; lia).
    revert H. unfold save_content. intros H.
    apply bind_ok in H as (u1 & w1 & H1 & H).
    apply bind_ok in H as (u2 & w2 & H2 & H).
    apply bind_ok in H as (u3 & w3 & H3 & H). injection H as _ <-.
    apply mkdir_parents_ok in H1 as (Hm1 & _).
    apply write_file_ok in H2 as (Hm2 & _).
    intros Hok. rewrite <- Hm1, <- Hm2 in Hok.
    match type of H3 with
    | ?t = _ =>
        assert (Hok' : manifest_ok (manifest (final t)))
          by (by apply add_to_manifest_ok)
    end.
    by rewrite H3 in Hok'.
  - revert H. unfold save_content, bind.
    destruct (mkdir_parents _ w) as [u1 w1|e1 w1] eqn:H1.
    2:{ intros [= _ <-]. apply mkdir_parents_raised in H1 as ->.
        apply moved_refl. }
    assert (Hq1 : moved 0 0 w w1).
    { apply mkdir_parents_ok in H1 as (Hm & _ & Ht).
      unfold moved, documents, skips. rewrite Hm, Ht, !count_snoc. simpl.
      rewrite !N.add_0_r. done. }
    destruct (write_file _ _ w1) as [u2 w2|e2 w2] eqn:H2.
    2:{ intros [= _ <-]. by apply write_file_raised in H2 as ->. }
    fold (document_path E category_info).
    rewrite (document_path_layout E category_info).
    edestruct add_to_manifest_under as (w3 & -> & _). discriminate.
Qed.

(** ** The file system *)

Lemma mkdirs_keeps f acc rest whole f' q :
  mkdirs f acc rest whole = inr f' -> f !! q = Some Dir -> f' !! q = Some Dir.
Proof.
  revert f acc. induction rest as [|c rest IH]; simpl; intros f acc H Hq.
  - by injection H as <-.
  - destruct (f !! (acc ++ [c])) as [[|d]|] eqn:Hc; [eauto|discriminate|].
    apply (IH _ _ H). rewrite lookup_insert. by case_decide.
Qed.

(** After [mkdir], every component of the path is a directory. *)
Lemma mkdirs_dirs f acc rest whole f' x :
  mkdirs f acc rest whole = inr f' -> lookup_dirs f' acc rest x = None.
Proof.
  revert f acc. induction rest as [|c rest IH]; simpl; intros f acc H; [done|].
  destruct (f !! (acc ++ [c])) as [[|d]|] eqn:Hc; [|discriminate|].
  - rewrite (mkdirs_keeps _ _ _ _ _ _ H Hc). eauto.
  - erewrite (mkdirs_keeps _ _ _ _ _ _ H); [eauto|]. apply lookup_insert_eq.
Qed.

(** Writing a file does not disturb the directories above it. *)
Lemma lookup_dirs_insert f acc rest x p v :
  lookup_dirs f acc rest x = None ->
  (length acc + length rest < length p)%nat ->
  lookup_dirs (<[p := v]> f) acc rest x = None.
Proof.
  revert acc. induction rest as [|c rest IH]; simpl; intros acc H Hlen; [done|].
  assert (Hne : p <> acc ++ [c]).
  { intros ->. rewrite length_app in Hlen. simpl in Hlen. lia. }
  rewrite (lookup_insert_ne _ _ _ _ Hne).
  destruct (f !! (acc ++ [c])) as [[|d]|]; [|discriminate..].
  apply IH; [done|]. rewrite length_app. simpl. lia.
Qed.

Lemma mkdir_parents_fs p w u w' :
  mkdir_parents p w = Ok u w' -> mkdirs (fs w) [] p p = inr (fs w').
Proof.
  unfold mkdir_parents. destruct (mkdirs _ _ _ _); [discriminate|].
  by intros [= _ <-].
Qed.

(** A document that has been saved exists. *)
Lemma save_content_exists E content category_info w p w' :
  save_content E content category_info w = Ok p w' ->
  path_exists (fs w') p = true.
Proof.
  unfold save_content. intros H.
  apply bind_ok in H as (u1 & w1 & H1 & H).
  apply bind_ok in H as (u2 & w2 & H2 & H).
  apply bind_ok in H as (u3 & w3 & H3 & H). injection H as <- <-.
  apply mkdir_parents_fs in H1.
  apply write_file_ok in H2 as (_ & _ & Hf2 & _).
  match type of H3 with
  | _add_to_manifest _ ?v ?c ?i ?q _ = _ =>
      pose proof (add_to_manifest_spec E v c i q w2) as Hs
  end.
  rewrite H3 in Hs. destruct Hs as (rel & _ & _ & _ & _ & Hf3 & _).
  rewrite (path_join_cons _ _ (md_nonempty _)) in *.
  unfold path_exists, parent. rewrite removelast_last, Hf3, Hf2.
  rewrite lookup_insert_eq.
  erewrite lookup_dirs_insert.
  - by destruct (path_join _ _ ++ _).
  - eapply mkdirs_dirs, H1.
  - rewrite length_app. simpl. lia.
Qed.

(** ** One leaf *)

Lemma scrape_page_skip E category_info w :
  path_exists (fs w) (document_path E category_info) = true ->
  scrape_page E category_info w =
  Ok true (log (EvPrint (MsgAlreadyExists (name category_info))) w).
Proof.
  intros H. unfold scrape_page. fold (document_path E category_info).
  by rewrite H.
Qed.

Lemma scrape_page_fresh E category_info w :
  path_exists (fs w) (document_path E category_info) = false ->
  scrape_page E category_info w =
  (do print (MsgScraping (name category_info)) then
   let* html := get_page E (base_url E) (Some (build_params category_info)) in
   if not_html html then ret false
   else
     match extract_content (soup_of E html) with
     | None => do print (MsgNoContent (name category_info)) then ret false
     | Some content_div =>
         let* saved_path :=
           save_content E (html_to_markdown E (Some content_div))
                        category_info in
         do print (MsgSaved saved_path) then
         ret true
     end) w.
Proof.
  intros H. unfold scrape_page. fold (document_path E category_info).
  by rewrite H.
Qed.

(** A leaf that is not skipped: one document when it succeeds, none when it
    fails or raises, and no leaf counted as skipped. *)
Lemma scrape_page_fresh_moved E category_info w :
  path_exists (fs w) (document_path E category_info) = false ->
  match scrape_page E category_info w with
  | Ok true w' => moved 1 0 w w'
  | Ok false w' => moved 0 0 w w'
  | Raised _ w' => moved 0 0 w w'
  end.
Proof.
  intros H. rewrite (scrape_page_fresh _ _ _ H).
  unfold bind at 1. unfold print at 1.
  assert (Hq1 : quiet w (log (EvPrint (MsgScraping (name category_info))) w))
    by (by apply quiet_log).
  set (w1 := log (EvPrint (MsgScraping (name category_info))) w) in *.
  unfold bind at 1.
  pose proof (quiet_get_page E (base_url E)
                (Some (build_params category_info)) w1) as Hq2.
  destruct (get_page_returns E (base_url E)
              (Some (build_params category_info)) w1) as (w2 & Hg).
  rewrite Hg in Hq2 |- *.
  simpl in Hq2. pose proof (quiet_trans _ _ _ Hq1 Hq2) as Hq.
  destruct (not_html _); [simpl; by apply quiet_moved|].
  destruct (extract_content _) as [content_div|].
  - unfold bind at 1.
    pose proof (save_content_moved E (html_to_markdown E (Some content_div))
                  category_info w2) as Hs.
    destruct (save_content _ _ _ w2) as [p w3|e w3].
    + simpl. eapply moved_quiet_l; [exact Hq|].
      eapply moved_quiet_r; [exact Hs | by apply quiet_log].
    + eapply moved_quiet_l; [exact Hq | exact Hs].
  - simpl. apply quiet_moved.
    eapply quiet_trans; [exact Hq | by apply quiet_log].
Qed.

Lemma scrape_page_skip_moved (category_info : CategoryRef) w :
  moved 0 1 w (log (EvPrint (MsgAlreadyExists (name category_info))) w).
Proof.
  unfold moved, documents, skips. simpl. rewrite !count_snoc. simpl.
  rewrite !N.add_0_r. done.
Qed.

(** Any leaf: what was written and what was skipped adds up to one when
    [scrape_page] returns [True] and to nothing when it returns [False]. *)
Lemma scrape_page_moved E category_info w :
  exists dd dk,
    moved dd dk w (final (scrape_page E category_info w)) /\
    match scrape_page E category_info w with
    | Ok true _ => dd + dk = 1
    | Ok false _ => dd + dk = 0
    | Raised _ _ => True
    end.
Proof.
  destruct (path_exists (fs w) (document_path E category_info)) eqn:H.
  - rewrite (scrape_page_skip _ _ _ H). exists 0, 1. split; [|done].
    apply scrape_page_skip_moved.
  - pose proof (scrape_page_fresh_moved _ _ _ H) as Hm.
    destruct (scrape_page E category_info w) as [[|] w'|e w']; simpl.
    + by exists 1, 0.
    + by exists 0, 0.
    + by exists 0, 0.
Qed.

(** ** Resuming *)

(** C1: when the document of a leaf exists, [scrape_page] reports it as
    already present and returns [True] without sending a request and
    without touching the manifest, its count or the files. *)
Theorem scrape_page_existing E category_info w :
  path_exists (fs w) (document_path E category_info) = true ->
  exists w',
    scrape_page E category_info w = Ok true w' /\
    trace w' = trace w ++ [EvPrint (MsgAlreadyExists (name category_info))] /\
    gets w' = gets w /\
    sent w' = sent w /\
    documents w' = documents w /\
    manifest w' = manifest w /\
    total_files (manifest w') = total_files (manifest w) /\
    fs w' = fs w.
Proof.
  intros H. rewrite (scrape_page_skip _ _ _ H). eexists. split; [reflexivity|].
  unfold gets, documents. simpl. rewrite !count_snoc. simpl.
  rewrite !N.add_0_r. done.
Qed.

Lemma scrape_page_existing_witness :
  path_exists (fs (fresh site after_first_run)) (document_path site wheels)
    = true /\
  exists w',
    scrape_page site wheels (fresh site after_first_run) = Ok true w' /\
    trace w' =
      trace (fresh site after_first_run) ++
      [EvPrint (MsgAlreadyExists (name wheels))] /\
    gets w' = gets (fresh site after_first_run) /\
    sent w' = sent (fresh site after_first_run) /\
    documents w' = documents (fresh site after_first_run) /\
    manifest w' = manifest (fresh site after_first_run) /\
    total_files (manifest w') =
      total_files (manifest (fresh site after_first_run)) /\
    fs w' = fs (fresh site after_first_run).
Proof.
  assert (H : path_exists (fs (fresh site after_first_run))
                (document_path site wheels) = true)
    by (vm_compute; reflexivity).
  split; [exact H|].
  exact (scrape_page_existing site wheels (fresh site after_first_run) H).
Defined.

(** ** File names *)




(** C4: sanitizing is idempotent; [save_content] writes to the path
    [scrape_page] probes, a path that depends on the version and the two
    names only, so a leaf that has been saved is found again under the same
    names. *)
Theorem sanitization_deterministic E content category_info again w p w' :
  save_content E content category_info w = Ok p w' ->
  version again = version category_info ->
  display_category again = display_category category_info ->
  name again = name category_info ->
  (forall nm,
     safe_name (unicode E) (safe_name (unicode E) nm) =
     safe_name (unicode E) nm) /\
  p = document_path E category_info /\
  document_path E again = document_path E category_info /\
  (forall w0,
     path_exists (fs w0) (document_path E category_info) = true <->
     scrape_page E category_info w0 =
       Ok true (log (EvPrint (MsgAlreadyExists (name category_info))) w0)) /\
  scrape_page E again w' =
    Ok true (log (EvPrint (MsgAlreadyExists (name again))) w').
Proof.
  intros H Hv Hc Hn.
  pose proof (save_content_ok _ _ _ _ _ _ H) as (Hp & _).
  assert (Hd : document_path E again = document_path E category_info).
  { unfold document_path. by rewrite Hv, Hc, Hn. }
  split; [apply safe_name_idempotent|].
  split; [exact Hp|]. split; [exact Hd|]. split.
  - intros w0. split; [apply scrape_page_skip|].
    intros Hs.
    destruct (path_exists (fs w0) (document_path E category_info)) eqn:He;
      [done|].
    pose proof (scrape_page_fresh_moved _ _ _ He) as Hm.
    rewrite Hs in Hm. destruct Hm as (_ & Hk & _).
    unfold skips in Hk. simpl in Hk. rewrite count_snoc in Hk. simpl in Hk. lia.
  - apply scrape_page_skip. rewrite Hd, <- Hp.
    eapply save_content_exists, H.
Qed.

Lemma sanitization_deterministic_witness :
  let r := save_content site (py "Hello") wheels (fresh site ∅) in
  r = Ok (document_path site wheels) (final r) /\
  document_path site wheels_renumbered = document_path site wheels /\
  scrape_page site wheels_renumbered (final r) =
    Ok true (log (EvPrint (MsgAlreadyExists (name wheels_renumbered)))
                 (final r)).
Proof.
  intros r.
  assert (H : r = Ok (document_path site wheels) (final r))
    by (vm_compute; reflexivity).
  split; [exact H|].
  destruct (sanitization_deterministic site (py "Hello") wheels
              wheels_renumbered (fresh site ∅) _ _ H eq_refl eq_refl eq_refl)
    as (_ & _ & Hd & _ & Hs).
  split; [exact Hd | exact Hs].
Defined.

(** ** The run *)

Lemma moved_steady w1 w2 w3 : moved 0 0 w1 w2 -> moved 0 0 w2 w3 -> moved 0 0 w1 w3.
Proof. apply (moved_trans 0 0 0 0). Qed.

Lemma moved_print m w :
  is_skipped (EvPrint m) = false -> is_summary (EvPrint m) = false ->
  moved 0 0 w (final (print m w)).
Proof. intros. by apply quiet_moved, quiet_log. Qed.

(** Writing the manifest or the index is not writing a document. *)
Lemma write_file_moved p d w :
  is_document (EvWrite p d) = false -> moved 0 0 w (final (write_file p d w)).
Proof.
  intros Hd. destruct (write_file p d w) as [u w'|e w'] eqn:H; simpl.
  - apply write_file_ok in H as (Hm & _ & _ & Ht).
    unfold moved, documents, skips. rewrite Hm, Ht, !count_snoc, Hd. simpl.
    rewrite !N.add_0_r. done.
  - apply write_file_raised in H as ->. apply moved_refl.
Qed.

Lemma create_markdown_index_moved E w :
  moved 0 0 w (final (_create_markdown_index E w)).
Proof.
  unfold _create_markdown_index.
  apply (final_bind (moved 0 0)); [exact moved_steady | by apply write_file_moved |].
  intros _ w1 _. by apply moved_print.
Qed.

Lemma save_manifest_moved E w : moved 0 0 w (final (save_manifest E w)).
Proof.
  unfold save_manifest. eapply moved_steady.
  2:{ apply (final_bind (moved 0 0)); [exact moved_steady | by apply write_file_moved |].
      intros _ w1 _.
      apply (final_bind (moved 0 0)); [exact moved_steady | by apply moved_print |].
      intros _ w2 _. apply create_markdown_index_moved. }
  unfold moved, documents, skips, manifest_ok, listed. simpl.
  rewrite !N.add_0_r. done.
Qed.

(** The running total of scraped leaves grows by what was written plus what
    was skipped. *)
Lemma scrape_each_moved E subcategories totals w :
  tallied (fst totals) w (scrape_each E subcategories totals w).
Proof.
  revert totals w. induction subcategories as [|sub rest IH]; intros totals w.
  - exists 0, 0. split; [apply moved_refl | simpl; lia].
  - simpl. unfold bind.
    destruct (scrape_page_moved E sub w) as (dd1 & dk1 & Hm1 & Hr1).
    destruct (scrape_page E sub w) as [ok w1|e w1]; simpl in *.
    + pose proof (IH (tally ok totals) w1) as H2.
      assert (Hok : fst (tally ok totals) = fst totals + (dd1 + dk1))
        by (unfold tally; destruct ok; simpl; lia).
      destruct (scrape_each E rest (tally ok totals) w1) as [totals' w2|e w2].
      * destruct H2 as (dd2 & dk2 & Hm2 & Hr2).
        exists (dd1 + dd2), (dk1 + dk2). split; [by eapply moved_trans | lia].
      * destruct H2 as (dd2 & dk2 & Hm2).
        exists (dd1 + dd2), (dk1 + dk2). by eapply moved_trans.
    + by exists dd1, dk1.
Qed.

Lemma tallied_quiet from w w1 r : quiet w w1 -> tallied from w1 r -> tallied from w r.
Proof.
  intros Hq. destruct r as [totals' w'|e w']; simpl.
  - intros (dd & dk & Hm & Hr). exists dd, dk. split; [|done].
    by eapply moved_quiet_l.
  - intros (dd & dk & Hm). exists dd, dk. by eapply moved_quiet_l.
Qed.

Lemma process_categories_moved E categories i n totals w :
  tallied (fst totals) w (process_categories E categories i n totals w).
Proof.
  revert i totals w.
  induction categories as [|category rest IH]; intros i totals w.
  - exists 0, 0. split; [apply moved_refl | simpl; lia].
  - simpl. unfold bind at 1. unfold print at 1.
    apply tallied_quiet
      with (log (EvPrint (MsgProcessing i n (name category))) w);
      [by apply quiet_log|].
    generalize (log (EvPrint (MsgProcessing i n (name category))) w).
    intros w1. unfold bind at 1.
    pose proof (quiet_get_subcategories E category w1) as Hq2.
    destruct (get_subcategories E category w1) as [subcategories w2|e w2];
      simpl in Hq2.
    2:{ exists 0, 0. by apply quiet_moved. }
    apply tallied_quiet with w2; [done|]. clear Hq2 w1.
    unfold bind at 1.
    assert (Hstep : tallied (fst totals) w2
      (match subcategories with
       | [] =>
           do print MsgNoSubcategories then
           let* ok := scrape_page E category in
           ret (tally ok totals)
       | _ => scrape_each E subcategories totals
       end w2)).
    { destruct subcategories as [|sub subs]; [|apply scrape_each_moved].
      unfold bind at 1. unfold print.
      apply tallied_quiet with (log (EvPrint MsgNoSubcategories) w2);
        [by apply quiet_log|].
      generalize (log (EvPrint MsgNoSubcategories) w2). intros w3.
      unfold bind.
      destruct (scrape_page_moved E category w3) as (dd & dk & Hm & Hr).
      destruct (scrape_page E category w3) as [ok w4|e w4]; simpl in *.
      - exists dd, dk. split; [done|].
        unfold tally. destruct ok; simpl; lia.
      - by exists dd, dk. }
    revert Hstep.
    match goal with
    | |- tallied _ _ ?r -> _ => destruct r as [totals1 w3|e w3]
    end; simpl; intros Hstep.
    + destruct Hstep as (dd1 & dk1 & Hm1 & Hr1).
      pose proof (IH (S i) totals1 w3) as H2.
      destruct (process_categories E rest (S i) n totals1 w3)
        as [totals2 w4|e w4]; simpl in H2.
      * destruct H2 as (dd2 & dk2 & Hm2 & Hr2).
        exists (dd1 + dd2), (dk1 + dk2). split; [by eapply moved_trans | lia].
      * destruct H2 as (dd2 & dk2 & Hm2).
        exists (dd1 + dd2), (dk1 + dk2). by eapply moved_trans.
    + exact Hstep.
Qed.

Lemma keeps_ok_trans w1 w2 w3 : keeps_ok w1 w2 -> keeps_ok w2 w3 -> keeps_ok w1 w3.
Proof. unfold keeps_ok. auto. Qed.

Lemma moved_keeps_ok dd dk w w' : moved dd dk w w' -> keeps_ok w w'.
Proof. by intros (_ & _ & _ & _ & H). Qed.

Lemma print_keeps_ok m w : keeps_ok w (final (print m w)).
Proof. by intros H. Qed.

Lemma tallied_keeps_ok from w r : tallied from w r -> keeps_ok w (final r).
Proof.
  destruct r; simpl.
  - intros (dd & dk & H & _). by eapply moved_keeps_ok.
  - intros (dd & dk & H). by eapply moved_keeps_ok.
Qed.

Lemma scrape_page_keeps_ok E category_info w :
  keeps_ok w (final (scrape_page E category_info w)).
Proof.
  destruct (scrape_page_moved E category_info w) as (dd & dk & H & _).
  by eapply moved_keeps_ok.
Qed.

Lemma save_content_keeps_ok E content category_info w :
  keeps_ok w (final (save_content E content category_info w)).
Proof.
  pose proof (save_content_moved E content category_info w) as H.
  destruct (save_content E content category_info w); simpl;
    by eapply moved_keeps_ok.
Qed.

Lemma scrape_all_keeps_ok E w : keeps_ok w (final (scrape_all E w)).
Proof.
  unfold scrape_all.
  repeat (apply (final_bind keeps_ok);
          [exact keeps_ok_trans | apply print_keeps_ok | intros _ ? _]).
  apply (final_bind keeps_ok); [exact keeps_ok_trans | |].
  { eapply moved_keeps_ok, quiet_moved, quiet_parse_main_page. }
  intros categories w4 _. destruct categories as [|category rest].
  { apply print_keeps_ok. }
  apply (final_bind keeps_ok); [exact keeps_ok_trans | |].
  { eapply tallied_keeps_ok, process_categories_moved. }
  intros totals w5 _.
  apply (final_bind keeps_ok);
    [exact keeps_ok_trans | apply print_keeps_ok | intros _ ? _].
  apply (final_bind keeps_ok); [exact keeps_ok_trans | |].
  { eapply moved_keeps_ok, save_manifest_moved. }
  intros _ w7 _.
  repeat (apply (final_bind keeps_ok);
          [exact keeps_ok_trans | apply print_keeps_ok | intros _ ? _]).
  apply print_keeps_ok.
Qed.

(** C9: [total_files] is the number of items the manifest lists: on the
    manifest a scraper starts with, after [_add_to_manifest], which appends
    one item and adds one to the count, and after every other operation. *)
Theorem total_files_invariant E w v c i p :
  manifest_ok (manifest w) ->
  manifest_ok (initial_manifest E) /\
  total_files (initial_manifest E) = 0 /\
  match _add_to_manifest E v c i p w with
  | Ok _ w' =>
      exists rel,
        relative_to p (output_dir E) = Some rel /\
        total_files (manifest w') = total_files (manifest w) + 1 /\
        listed (manifest w') = listed (manifest w) + 1 /\
        items_of v c (manifest w') =
          items_of v c (manifest w) ++
          [{| item_name := i; item_path := as_posix rel |}] /\
        manifest_ok (manifest w')
  | Raised _ w' => manifest_ok (manifest w')
  end /\
  (forall content category_info,
     manifest_ok (manifest (final (save_content E content category_info w)))) /\
  manifest_ok (manifest (final (save_manifest E w))) /\
  (forall category_info,
     manifest_ok (manifest (final (scrape_page E category_info w)))) /\
  manifest_ok (manifest (final (scrape_all E w))).
Proof.
  intros Hok. split; [reflexivity|]. split; [reflexivity|]. split.
  { pose proof (add_to_manifest_spec E v c i p w) as Hs.
    pose proof (add_to_manifest_ok E v c i p w Hok) as Hk.
    destruct (_add_to_manifest E v c i p w) as [u w'|e w']; simpl in Hk.
    - destruct Hs as (rel & Hr & Ht & Hl & Hi & _). exists rel. done.
    - exact Hk. }
  split; [intros; by apply save_content_keeps_ok|].
  split; [exact (moved_keeps_ok 0 0 _ _ (save_manifest_moved E w) Hok)|].
  split; [intros; by apply scrape_page_keeps_ok|].
  by apply scrape_all_keeps_ok.
Qed.

Lemma total_files_invariant_witness :
  manifest_ok (manifest (fresh site ∅)) /\
  manifest_ok (manifest (final (scrape_all site (fresh site ∅)))) /\
  total_files (manifest (final (scrape_all site (fresh site ∅)))) = 1.
Proof.
  assert (H : manifest_ok (manifest (fresh site ∅))) by reflexivity.
  split; [exact H|]. split.
  - exact (proj2 (proj2 (proj2 (proj2 (proj2 (proj2
      (total_files_invariant site (fresh site ∅) (py "script")
         (py "Vehicles") (py "Wheels")
         [py "output"; py "script"; py "Vehicles"; py "Wheels.md"] H))))))).
  - vm_compute. reflexivity.
Defined.

Lemma print_eq m w : print m w = Ok tt (log (EvPrint m) w).
Proof. reflexivity. Qed.

Lemma moved_summary E scraped failed dd dk w w7 :
  moved dd dk w w7 ->
  let w' := fold_left (fun x e => log e x) (summary E scraped failed) w7 in
  documents w' = documents w + dd /\
  skips w' = skips w + dk /\
  total_files (manifest w') = total_files (manifest w) + dd /\
  trace w' = trace w7 ++ summary E scraped failed.
Proof.
  intros (Hd & Hk & Ht & _). unfold documents, skips in *. simpl.
  rewrite !count_snoc. simpl. rewrite !N.add_0_r, <- !List.app_assoc. done.
Qed.

(** C10: the count printed as successfully scraped is what the run wrote
    plus what it skipped as already present, the manifest counting the
    former only; so it can exceed [total_files]. *)
Theorem scraped_counts_skipped :
  (forall E w w',
     scrape_all E w = Ok tt w' ->
     (exists t,
        trace w' = t ++ [EvPrint MsgFailedMain] /\
        count is_summary (trace w') = count is_summary (trace w)) \/
     (exists dd dk failed t,
        documents w' = documents w + dd /\
        skips w' = skips w + dk /\
        total_files (manifest w') = total_files (manifest w) + dd /\
        trace w' = t ++ summary E (dd + dk) failed)) /\
  (exists E w w' t,
     scrape_all E w = Ok tt w' /\
     trace w' = t ++ summary E 1 1 /\
     total_files (manifest w') = 0).
Proof.
  split.
  - intros E w w' H. unfold scrape_all in H.
    apply bind_ok in H as (u1 & w1 & H1 & H). injection H1 as _ <-.
    apply bind_ok in H as (u2 & w2 & H2 & H). injection H2 as _ <-.
    apply bind_ok in H as (u3 & w3 & H3 & H). injection H3 as _ <-.
    apply bind_ok in H as (categories & w4 & H4 & H).
    assert (Hq : quiet w w4).
    { eapply quiet_trans; [by apply (quiet_log (EvPrint MsgRule))|].
      eapply quiet_trans; [by apply (quiet_log (EvPrint MsgTitle))|].
      eapply quiet_trans; [by apply (quiet_log (EvPrint MsgRule))|].
      match type of H4 with
      | parse_main_page _ ?x = _ =>
          pose proof (quiet_parse_main_page E x) as Hp
      end.
      by rewrite H4 in Hp. }
    destruct categories as [|category rest].
    + left. injection H as <-. exists (trace w4). split; [done|].
      destruct Hq as (_ & _ & _ & _ & _ & Hs). simpl.
      rewrite count_snoc. simpl. lia.
    + right.
      apply bind_ok in H as (totals & w5 & H5 & H).
      pose proof (process_categories_moved E (category :: rest) 1
                    (length (category :: rest)) (0, 0) w4) as Hm5.
      rewrite H5 in Hm5. destruct Hm5 as (dd & dk & Hm5 & Htot).
      simpl in Htot.
      apply bind_ok in H as (u6 & w6 & H6 & H). injection H6 as _ <-.
      apply bind_ok in H as (u7 & w7 & H7 & H).
      match type of H7 with
      | save_manifest _ ?x = _ => pose proof (save_manifest_moved E x) as Hm7
      end.
      rewrite H7 in Hm7. simpl in Hm7.
      assert (Hm' : moved dd dk w w7).
      { pose proof (moved_trans _ _ _ _ _ _ _
                      (moved_quiet_r _ _ _ _ _
                         (moved_quiet_l _ _ _ _ _ Hq Hm5)
                         (quiet_log (EvPrint MsgGenerating) w5
                            eq_refl eq_refl eq_refl eq_refl))
                      Hm7) as Hx.
        by rewrite !N.add_0_r in Hx. }
      apply bind_ok in H as (? & ? & E1 & H). injection E1 as _ <-.
      apply bind_ok in H as (? & ? & E2 & H). injection E2 as _ <-.
      apply bind_ok in H as (? & ? & E3 & H). injection E3 as _ <-.
      apply bind_ok in H as (? & ? & E4 & H). injection E4 as _ <-.
      apply bind_ok in H as (? & ? & E5 & H). injection E5 as _ <-.
      injection H as <-.
      destruct (moved_summary E (fst totals) (snd totals) dd dk w w7 Hm')
        as (Hd & Hk & Ht & Htr).
      exists dd, dk, (snd totals), (trace w7).
      rewrite N.add_0_l in Htot. rewrite Htot in *.
      simpl in Hd, Hk, Ht, Htr. done.
  - exists site, (fresh site after_first_run),
      (final (scrape_all site (fresh site after_first_run))),
      (take 21 (trace (final (scrape_all site (fresh site after_first_run))))).
    split; [vm_compute; reflexivity|]. split; vm_compute; reflexivity.
Qed.

Lemma scraped_counts_skipped_witness :
  let r := scrape_all site (fresh site after_first_run) in
  r = Ok tt (final r) /\
  exists dd dk failed t,
    documents (final r) = documents (fresh site after_first_run) + dd /\
    skips (final r) = skips (fresh site after_first_run) + dk /\
    total_files (manifest (final r)) = dd /\
    trace (final r) = t ++ summary site (dd + dk) failed.
Proof.
  intros r.
  assert (H : r = Ok tt (final r)) by (vm_compute; reflexivity).
  split; [exact H|].
  destruct (proj1 scraped_counts_skipped site (fresh site after_first_run)
              (final r) H) as [(t & Ht & _)|Hs].
  - exfalso. revert Ht. vm_compute. intros Ht.
    apply (f_equal (@rev event)) in Ht. rewrite rev_app_distr in Ht.
    simpl in Ht. discriminate.
  - exact Hs.
Defined.

(** ** Pages without content *)

Lemma extract_content_absent soup :
  (find is_box5 soup = None \/
   (exists box5, find is_box5 soup = Some box5 /\ find is_entry box5 = None) \/
   (exists box5 entry,
      find is_box5 soup = Some box5 /\ find is_entry box5 = Some entry /\
      (length (content_divs entry) < 2)%nat)) ->
  extract_content soup = None.
Proof.
  unfold extract_content.
  intros [-> | [(box5 & -> & ->) | (box5 & entry & -> & -> & Hlen)]];
    [done..|].
  destruct (content_divs entry) as [|d1 [|d2 ds]]; [done..|].
  simpl in Hlen. lia.
Qed.

(** C8: when the content container, its entry region or the second child
    division of the entry is missing, [extract_content] returns [None];
    [scrape_page] logs it and returns [False], leaving manifest and files as
    they were, and the loop counts the leaf as failed and goes on with the
    remaining leaves. *)
Theorem missing_content_is_a_failure E category_info rest totals w html :
  path_exists (fs w) (document_path E category_info) = false ->
  session_get E (sent w) (base_url E) (Some (build_params category_info))
    = inl html ->
  truthy html = true ->
  (find is_box5 (document (BeautifulSoup E html)) = None \/
   (exists box5,
      find is_box5 (document (BeautifulSoup E html)) = Some box5 /\
      find is_entry box5 = None) \/
   (exists box5 entry,
      find is_box5 (document (BeautifulSoup E html)) = Some box5 /\
      find is_entry box5 = Some entry /\
      (length (content_divs entry) < 2)%nat)) ->
  extract_content (document (BeautifulSoup E html)) = None /\
  exists w',
    scrape_page E category_info w = Ok false w' /\
    trace w' =
      trace w ++
      [EvPrint (MsgScraping (name category_info)); EvSleep 500;
       EvGet (base_url E) (Some (build_params category_info)) 30;
       EvPrint (MsgNoContent (name category_info))] /\
    manifest w' = manifest w /\
    fs w' = fs w /\
    scrape_each E (category_info :: rest) totals w =
      scrape_each E rest (fst totals, snd totals + 1) w'.
Proof.
  intros Hfresh Hget Hhtml Habsent.
  pose proof (extract_content_absent _ Habsent) as Hnone.
  split; [exact Hnone|].
  assert (Hpage : scrape_page E category_info w =
    Ok false
      (log (EvPrint (MsgNoContent (name category_info)))
         (count_request
            (log (EvGet (base_url E) (Some (build_params category_info)) 30)
               (log (EvSleep 500)
                  (log (EvPrint (MsgScraping (name category_info))) w)))))).
  { rewrite (scrape_page_fresh _ _ _ Hfresh).
    unfold bind, print, get_page. simpl. rewrite Hget.
    unfold not_html. rewrite Hhtml. simpl. by rewrite Hnone. }
  eexists. split; [exact Hpage|]. simpl.
  split; [by rewrite <- !List.app_assoc|]. split; [done|]. split; [done|].
  unfold bind. by rewrite Hpage.
Qed.

Lemma missing_content_is_a_failure_witness :
  path_exists (fs (fresh site ∅)) (document_path site motor) = false /\
  extract_content (document (BeautifulSoup site motor_html)) = None /\
  exists w',
    scrape_page site motor (fresh site ∅) = Ok false w' /\
    scrape_each site [motor; wheels] (0, 0) (fresh site ∅) =
      scrape_each site [wheels] (0, 1) w'.
Proof.
  assert (H1 : path_exists (fs (fresh site ∅)) (document_path site motor)
               = false) by (vm_compute; reflexivity).
  assert (H2 : session_get site (sent (fresh site ∅)) (base_url site)
                 (Some (build_params motor)) = inl motor_html)
    by (vm_compute; reflexivity).
  assert (H3 : truthy motor_html = true) by (vm_compute; reflexivity).
  assert (H4 : find is_box5 (document (BeautifulSoup site motor_html)) = None)
    by (vm_compute; reflexivity).
  destruct (missing_content_is_a_failure site motor [wheels] (0, 0)
              (fresh site ∅) motor_html H1 H2 H3 (or_introl H4))
    as (He & w' & Hs & _ & _ & _ & Hl).
  split; [exact H1|]. split; [exact He|]. exists w'. split; [exact Hs|exact Hl].
Defined.

(** ** Writing the manifest *)

(** C2 fails on a first run in which no leaf could be saved: nothing has
    created the output directory, so opening [manifest.json] raises
    [FileNotFoundError]; neither file is written and no summary is
    printed. *)
Theorem manifest_not_written_when_no_leaf_saved :
  scrape_all cut_off (fresh cut_off ∅) =
    Raised (FileNotFoundError [py "output"; py "manifest.json"])
           (final (scrape_all cut_off (fresh cut_off ∅))) /\
  fs (final (scrape_all cut_off (fresh cut_off ∅))) = ∅ /\
  count is_write (trace (final (scrape_all cut_off (fresh cut_off ∅)))) = 0 /\
  count is_summary (trace (final (scrape_all cut_off (fresh cut_off ∅)))) = 0 /\
  count is_get (trace (final (scrape_all cut_off (fresh cut_off ∅)))) = 4.
Proof.
  split; [vm_compute; reflexivity|].
  split; [vm_compute; reflexivity|].
  split; [vm_compute; reflexivity|].
  split; vm_compute; reflexivity.
Qed.

(** ** Blank lines *)

Lemma squeezed_cases k :
  squeezed k = [] \/ squeezed k = [newline] \/ squeezed k = [newline; newline].
Proof. destruct k as [|[|[|k]]]; simpl; auto. Qed.





Lemma no_triple_squeezed k c t :
  c <> newline ->
  no_triple_from 0 (squeezed k ++ c :: t) = no_triple_from 0 t.
Proof.
  intros Hc. apply N.eqb_neq in Hc.
  destruct (squeezed_cases k) as [-> | [-> | ->]]; simpl; by rewrite Hc.
Qed.

Lemma no_triple_collapse k s : no_triple_from 0 (collapse_from k s) = true.
Proof.
  revert k. induction s as [|c s IH]; intros k; simpl.
  - by destruct (squeezed_cases k) as [-> | [-> | ->]].
  - destruct (N.eqb_spec c newline) as [->|Hc]; [apply IH|].
    rewrite no_triple_squeezed; [apply IH|done].
Qed.

Lemma no_triple_mono k k' s :
  (k' <= k)%nat -> no_triple_from k s = true -> no_triple_from k' s = true.
Proof.
  revert k k'. induction s as [|c s IH]; intros k k' Hk; simpl; [done|].
  destruct (c =? newline); [|done].
  intros [H1 H2]%andb_prop. apply Nat.ltb_lt in H1.
  apply andb_true_intro. split; [apply Nat.ltb_lt; lia|].
  apply (IH (S k)); [lia | done].
Qed.

Lemma no_triple_suffix k p s :
  no_triple_from k (p ++ s) = true -> no_triple_from 0 s = true.
Proof.
  revert k. induction p as [|c p IH]; intros k; simpl.
  - apply no_triple_mono. lia.
  - destruct (c =? newline); [intros [_ H]%andb_prop|]; eauto.
Qed.

Lemma no_triple_prefix k s q :
  no_triple_from k (s ++ q) = true -> no_triple_from k s = true.
Proof.
  revert k. induction s as [|c s IH]; intros k; simpl; [done|].
  destruct (c =? newline); [|apply IH].
  intros [H1 H2]%andb_prop. apply andb_true_intro. split; [done|]. by apply IH.
Qed.

Section Trimming.
Variable U : unicode_db.



Lemma no_triple_strip s :
  no_triple_from 0 s = true -> no_triple_from 0 (strip U s) = true.
Proof.
  intros H. unfold strip.
  destruct (lstrip_split U s) as (p & Hs & _).
  destruct (rstrip_split U (lstrip U s)) as (q & Hq & _).
  rewrite Hs in H. apply no_triple_suffix in H.
  rewrite Hq in H. by apply no_triple_prefix in H.
Qed.






End Trimming.





(** ** Subcategories *)








(** ** When the manifest is written *)

Lemma uncatalogued_refl w : uncatalogued w w.
Proof. by split. Qed.

Lemma uncatalogued_trans w1 w2 w3 :
  uncatalogued w1 w2 -> uncatalogued w2 w3 -> uncatalogued w1 w3.
Proof. unfold uncatalogued. intros [? ?] [? ?]. split; congruence. Qed.

Lemma uncatalogued_log e w :
  is_manifest_write e = false -> is_index_write e = false ->
  uncatalogued w (log e w).
Proof.
  intros H1 H2. unfold uncatalogued. simpl.
  rewrite !count_snoc, H1, H2, !N.add_0_r. done.
Qed.

Lemma uncatalogued_print m w : uncatalogued w (final (print m w)).
Proof. by apply uncatalogued_log. Qed.

Lemma uncatalogued_ret {A} (a : A) w : uncatalogued w (final (ret a w)).
Proof. apply uncatalogued_refl. Qed.

Ltac uncatalogued_bind :=
  apply (final_bind uncatalogued); [exact uncatalogued_trans | |].

Lemma uncatalogued_get_page E url params w :
  uncatalogued w (final (get_page E url params w)).
Proof.
  unfold get_page, uncatalogued.
  destruct (session_get E (sent w) url params); simpl;
    rewrite !count_snoc; simpl; rewrite !N.add_0_r; done.
Qed.

Lemma uncatalogued_parse_main_page E w :
  uncatalogued w (final (parse_main_page E w)).
Proof.
  unfold parse_main_page.
  uncatalogued_bind; [apply uncatalogued_print|]. intros _ w1 _.
  uncatalogued_bind; [apply uncatalogued_get_page|]. intros html w2 _.
  destruct (not_html html); [apply uncatalogued_ret|].
  destruct (find is_sidebar (soup_of E html));
    (uncatalogued_bind; [apply uncatalogued_print|]); intros;
    apply uncatalogued_ret.
Qed.

Lemma uncatalogued_get_subcategories E category_info w :
  uncatalogued w (final (get_subcategories E category_info w)).
Proof.
  unfold get_subcategories.
  uncatalogued_bind; [apply uncatalogued_print|]. intros _ w1 _.
  uncatalogued_bind; [apply uncatalogued_get_page|]. intros html w2 _.
  destruct (not_html html); apply uncatalogued_ret.
Qed.

Lemma uncatalogued_save_content E content category_info w :
  uncatalogued w (final (save_content E content category_info w)).
Proof.
  unfold save_content.
  uncatalogued_bind.
  { destruct (mkdir_parents _ w) as [u w1|e w1] eqn:H; simpl.
    - apply mkdir_parents_ok in H as (_ & _ & Ht). unfold uncatalogued.
      rewrite Ht, !count_snoc. simpl. by rewrite !N.add_0_r.
    - apply mkdir_parents_raised in H as ->. apply uncatalogued_refl. }
  intros _ w1 _. uncatalogued_bind.
  { destruct (write_file _ _ w1) as [u w2|e w2] eqn:H; simpl.
    - apply write_file_ok in H as (_ & _ & _ & Ht). unfold uncatalogued.
      rewrite Ht, !count_snoc. simpl. by rewrite !N.add_0_r.
    - apply write_file_raised in H as ->. apply uncatalogued_refl. }
  intros _ w2 _. uncatalogued_bind; [|intros; apply uncatalogued_ret].
  match goal with
  | |- uncatalogued _ (final (_add_to_manifest _ ?v ?c ?i ?q _)) =>
      pose proof (add_to_manifest_spec E v c i q w2) as Hs;
      destruct (_add_to_manifest E v c i q w2); simpl
  end.
  - destruct Hs as (rel & _ & _ & _ & _ & _ & Ht & _).
    unfold uncatalogued. by rewrite Ht.
  - destruct Hs as (_ & _ & _ & Ht & _). unfold uncatalogued. by rewrite Ht.
Qed.

Lemma uncatalogued_scrape_page E category_info w :
  uncatalogued w (final (scrape_page E category_info w)).
Proof.
  destruct (path_exists (fs w) (document_path E category_info)) eqn:H.
  - rewrite (scrape_page_skip _ _ _ H). by apply uncatalogued_log.
  - rewrite (scrape_page_fresh _ _ _ H).
    uncatalogued_bind; [apply uncatalogued_print|]. intros _ w1 _.
    uncatalogued_bind; [apply uncatalogued_get_page|]. intros html w2 _.
    destruct (not_html html); [apply uncatalogued_ret|].
    destruct (extract_content _).
    + uncatalogued_bind; [apply uncatalogued_save_content|]. intros p w3 _.
      uncatalogued_bind; [apply uncatalogued_print|]. intros.
      apply uncatalogued_ret.
    + uncatalogued_bind; [apply uncatalogued_print|]. intros.
      apply uncatalogued_ret.
Qed.

Lemma uncatalogued_scrape_each E subcategories totals w :
  uncatalogued w (final (scrape_each E subcategories totals w)).
Proof.
  revert totals w. induction subcategories as [|sub rest IH]; intros totals w.
  - apply uncatalogued_refl.
  - simpl. uncatalogued_bind; [apply uncatalogued_scrape_page|].
    intros ok w1 _. apply IH.
Qed.

Lemma uncatalogued_process_categories E categories i n totals w :
  uncatalogued w (final (process_categories E categories i n totals w)).
Proof.
  revert i totals w.
  induction categories as [|category rest IH]; intros i totals w.
  - apply uncatalogued_refl.
  - simpl. uncatalogued_bind; [apply uncatalogued_print|]. intros _ w1 _.
    uncatalogued_bind; [apply uncatalogued_get_subcategories|].
    intros subcategories w2 _.
    uncatalogued_bind; [|intros; apply IH].
    destruct subcategories; [|apply uncatalogued_scrape_each].
    uncatalogued_bind; [apply uncatalogued_print|]. intros _ w3 _.
    uncatalogued_bind; [apply uncatalogued_scrape_page|]. intros.
    apply uncatalogued_ret.
Qed.

(** A [save_manifest] that returns has written the manifest once and then
    the index once. *)
Lemma save_manifest_ok E w u w' :
  save_manifest E w = Ok u w' ->
  count is_manifest_write (trace w') = count is_manifest_write (trace w) + 1 /\
  count is_index_write (trace w') = count is_index_write (trace w) + 1 /\
  is_Some (fs w' !! path_join (output_dir E) (py "manifest.json")) /\
  is_Some (fs w' !! path_join (output_dir E) (py "INDEX.md")).
Proof.
  unfold save_manifest, _create_markdown_index. intros H.
  apply bind_ok in H as (u1 & w1 & H1 & H).
  apply bind_ok in H as (u2 & w2 & H2 & H). injection H2 as _ <-.
  apply bind_ok in H as (u3 & w3 & H3 & H). injection H as _ <-.
  apply write_file_ok in H1 as (_ & _ & Hf1 & Ht1).
  apply write_file_ok in H3 as (_ & _ & Hf3 & Ht3).
  simpl in *. rewrite !count_snoc, Ht3, !count_snoc, Ht1, !count_snoc. simpl.
  rewrite !N.add_0_r. repeat split.
  - rewrite Hf3, lookup_insert. case_decide; [by eexists|].
    rewrite Hf1, lookup_insert_eq. by eexists.
  - rewrite Hf3, lookup_insert_eq. by eexists.
Qed.

(** What holds of C2: a run that returns has either failed on the root page,
    and then written no manifest, no index and no summary, or has written
    the manifest once, the index once and the summary, however many leaves
    failed. *)
Lemma scrape_all_completed_writes_once E w w' :
  scrape_all E w = Ok tt w' ->
  (count is_manifest_write (trace w') = count is_manifest_write (trace w) /\
   count is_index_write (trace w') = count is_index_write (trace w) /\
   count is_summary (trace w') = count is_summary (trace w) /\
   exists t, trace w' = t ++ [EvPrint MsgFailedMain]) \/
  (count is_manifest_write (trace w') = count is_manifest_write (trace w) + 1 /\
   count is_index_write (trace w') = count is_index_write (trace w) + 1 /\
   count is_summary (trace w') = count is_summary (trace w) + 2 /\
   exists scraped failed t, trace w' = t ++ summary E scraped failed).
Proof.
  intros H. unfold scrape_all in H.
  apply bind_ok in H as (u1 & w1 & H1 & H). injection H1 as _ <-.
  apply bind_ok in H as (u2 & w2 & H2 & H). injection H2 as _ <-.
  apply bind_ok in H as (u3 & w3 & H3 & H). injection H3 as _ <-.
  apply bind_ok in H as (categories & w4 & H4 & H).
  match type of H4 with
  | parse_main_page _ ?x = _ =>
      pose proof (uncatalogued_parse_main_page E x) as [Hu1 Hu2];
      pose proof (quiet_parse_main_page E x) as (_ & _ & _ & _ & _ & Hs)
  end.
  rewrite H4 in Hu1, Hu2, Hs. simpl in Hu1, Hu2, Hs.
  rewrite !count_snoc in Hu1, Hu2, Hs. simpl in Hu1, Hu2, Hs.
  rewrite !N.add_0_r in Hu1, Hu2, Hs.
  destruct categories as [|category rest].
  - left. injection H as <-. simpl. rewrite !count_snoc. simpl.
    rewrite !N.add_0_r. repeat split; try done. by exists (trace w4).
  - right.
    apply bind_ok in H as (totals & w5 & H5 & H).
    pose proof (uncatalogued_process_categories E (category :: rest) 1
                  (length (category :: rest)) (0, 0) w4) as [Hp1 Hp2].
    pose proof (process_categories_moved E (category :: rest) 1
                  (length (category :: rest)) (0, 0) w4) as Hm5.
    rewrite H5 in Hp1, Hp2, Hm5. simpl in Hp1, Hp2.
    destruct Hm5 as (dd & dk & (_ & _ & _ & Hs5 & _) & _).
    apply bind_ok in H as (u6 & w6 & H6 & H). injection H6 as _ <-.
    apply bind_ok in H as (u7 & w7 & H7 & H).
    pose proof (save_manifest_ok _ _ _ _ H7) as (Hm1 & Hm2 & _).
    match type of H7 with
    | save_manifest _ ?x = _ =>
        pose proof (save_manifest_moved E x) as (_ & _ & _ & Hs7 & _)
    end.
    rewrite H7 in Hs7. simpl in Hm1, Hm2, Hs7.
    rewrite !count_snoc in Hm1, Hm2, Hs7. simpl in Hm1, Hm2, Hs7.
    rewrite !N.add_0_r in Hm1, Hm2, Hs7.
    apply bind_ok in H as (? & ? & E1 & H). injection E1 as _ <-.
    apply bind_ok in H as (? & ? & E2 & H). injection E2 as _ <-.
    apply bind_ok in H as (? & ? & E3 & H). injection E3 as _ <-.
    apply bind_ok in H as (? & ? & E4 & H). injection E4 as _ <-.
    apply bind_ok in H as (? & ? & E5 & H). injection E5 as _ <-.
    injection H as <-. simpl. rewrite !count_snoc. simpl.
    rewrite !N.add_0_r. repeat split; try lia.
    exists (fst totals), (snd totals), (trace w7).
    by rewrite <- !List.app_assoc.
Qed.

(** * Further properties of the code *)

(** ** The root page *)

(** X1: when the root page cannot be fetched, is empty or has no sidebar,
    [scrape_all] returns after that single request: it writes nothing,
    leaves the manifest alone and ends with "Failed to parse main page"
    instead of a summary. *)
Theorem root_page_failure_aborts E w :
  match session_get E (sent w) (base_url E) None with
  | inr _ => True
  | inl html =>
      truthy html = false \/
      find is_sidebar (document (BeautifulSoup E html)) = None
  end ->
  exists w',
    scrape_all E w = Ok tt w' /\
    gets w' = gets w + 1 /\
    fs w' = fs w /\
    manifest w' = manifest w /\
    count is_write (trace w') = count is_write (trace w) /\
    count is_summary (trace w') = count is_summary (trace w) /\
    exists t, trace w' = t ++ [EvPrint MsgFailedMain].
Proof.
  intros H. unfold scrape_all, parse_main_page, bind, print, get_page, gets.
  simpl. destruct (session_get E (sent w) (base_url E) None) as [html|e].
  - unfold not_html, soup_of. destruct (truthy html) eqn:Ht; simpl.
    + destruct H as [H|H]; [discriminate|]. rewrite H. simpl.
      eexists. split; [reflexivity|]. simpl. rewrite !count_snoc. simpl.
      repeat split; try lia. by eexists.
    + eexists. split; [reflexivity|]. simpl. rewrite !count_snoc. simpl.
      repeat split; try lia. by eexists.
  - simpl. eexists. split; [reflexivity|]. simpl. rewrite !count_snoc. simpl.
    repeat split; try lia. by eexists.
Qed.

Lemma root_page_failure_aborts_witness :
  exists w',
    scrape_all offline (fresh offline ∅) = Ok tt w' /\
    gets w' = 1 /\ fs w' = ∅ /\
    count is_write (trace w') = 0 /\ count is_summary (trace w') = 0.
Proof.
  destruct (root_page_failure_aborts offline (fresh offline ∅) I)
    as (w' & H & Hg & Hf & _ & Hw & Hs & _).
  exists w'. split; [exact H|]. split; [exact Hg|]. split; [exact Hf|].
  split; [exact Hw | exact Hs].
Defined.

(** ** Leaves *)




(** X3: a category whose page cannot be fetched is tried once more as a
    leaf of its own; when that request fails too, the category counts as one
    failed item after two requests, and the run goes on with the next
    category. *)
Theorem unreachable_category_fails_once E category rest i n totals w e1 e2 :
  path_exists (fs w) (document_path E category) = false ->
  session_get E (sent w) (base_url E) (Some (build_params category))
    = inr e1 ->
  session_get E (S (sent w)) (base_url E) (Some (build_params category))
    = inr e2 ->
  exists w',
    process_categories E (category :: rest) i n totals w =
      process_categories E rest (S i) n (fst totals, snd totals + 1) w' /\
    gets w' = gets w + 2 /\
    manifest w' = manifest w /\
    fs w' = fs w.
Proof.
  intros Hfresh H1 H2. simpl.
  unfold bind at 1. unfold print at 1. unfold bind at 1.
  unfold get_subcategories, bind at 1, print at 1, bind at 1, get_page at 1.
  simpl. rewrite H1. simpl.
  unfold bind at 1. unfold bind at 1. unfold print at 1. unfold bind at 1.
  rewrite scrape_page_fresh by (simpl; exact Hfresh).
  unfold bind at 1. unfold print at 1. unfold bind at 1.
  unfold get_page at 1. simpl. rewrite H2. simpl.
  eexists. split; [reflexivity|]. unfold gets. simpl.
  rewrite !count_snoc. simpl. repeat split. lia.
Qed.

Lemma unreachable_category_fails_once_witness :
  exists w',
    process_categories offline [vehicles] 1 1 (0, 0) (fresh offline ∅) =
      process_categories offline [] 2 1 (0, 1) w' /\
    gets w' = 2.
Proof.
  assert (H0 : path_exists (fs (fresh offline ∅))
                 (document_path offline vehicles) = false)
    by (vm_compute; reflexivity).
  destruct (unreachable_category_fails_once offline vehicles [] 1 1 (0, 0)
              (fresh offline ∅) (py "Connection refused")
              (py "Connection refused") H0 eq_refl eq_refl)
    as (w' & H & Hg & _).
  exists w'. split; [exact H | exact Hg].
Defined.

(** ** Saving *)

Lemma relative_to_Some p base rel :
  relative_to p base = Some rel -> p = base ++ rel.
Proof.
  revert p. induction base as [|b base IH]; intros [|c p]; simpl;
    try discriminate; try (by intros [= <-]).
  destruct (pystr_eqb b c) eqn:Hb; [|discriminate].
  apply pystr_eqb_eq in Hb as ->. intros H. by rewrite (IH _ H).
Qed.

(** X4: the entry [save_content] appends to the manifest names the file it
    has just written: its path is the written path relative to the output
    directory, with [/] between version, sanitized category and file name,
    and that file exists. *)
Theorem saved_document_is_listed E content category_info w p w' :
  save_content E content category_info w = Ok p w' ->
  exists rel,
    p = output_dir E ++ rel /\
    rel = [version_str (version category_info)] ++
          match safe_name (unicode E) (display_category category_info) with
          | [] => []
          | _ => [safe_name (unicode E) (display_category category_info)]
          end ++
          [safe_name (unicode E) (name category_info) ++ py ".md"] /\
    items_of (version_str (version category_info))
             (display_category category_info) (manifest w') =
      items_of (version_str (version category_info))
               (display_category category_info) (manifest w) ++
      [{| item_name := name category_info;
          item_path := join (py "/") rel |}] /\
    listed (manifest w') = listed (manifest w) + 1 /\
    path_exists (fs w') p = true.
Proof.
  intros H.
  pose proof (save_content_exists _ _ _ _ _ _ H) as Hex.
  pose proof (save_content_ok _ _ _ _ _ _ H) as (Hp & _).
  rewrite document_path_layout in Hp.
  revert H. unfold save_content. intros H.
  apply bind_ok in H as (u1 & w1 & H1 & H).
  apply bind_ok in H as (u2 & w2 & H2 & H).
  apply bind_ok in H as (u3 & w3 & H3 & H). injection H as Hp' <-.
  apply mkdir_parents_ok in H1 as (Hm1 & _).
  apply write_file_ok in H2 as (Hm2 & _).
  match type of H3 with
  | _add_to_manifest _ ?v ?c ?i ?q _ = _ =>
      pose proof (add_to_manifest_spec E v c i q w2) as Hs
  end.
  rewrite H3 in Hs. destruct Hs as (rel & Hrel & _ & Hl & Hi & _).
  rewrite Hp' in Hrel. rewrite Hp, relative_to_app in Hrel.
  injection Hrel as <-.
  eexists. split; [exact Hp|]. split; [reflexivity|].
  rewrite Hm2, Hm1 in Hi, Hl. split; [|split; [exact Hl | exact Hex]].
  rewrite Hi. repeat f_equal.
Qed.

Lemma saved_document_is_listed_witness :
  let r := save_content site (py "Hello") wheels (fresh site ∅) in
  r = Ok (document_path site wheels) (final r) /\
  items_of (py "script") (py "Vehicles") (manifest (final r)) =
    [{| item_name := py "Wheels";
        item_path := py "script/Vehicles/Wheels.md" |}].
Proof.
  intros r.
  assert (H : r = Ok (document_path site wheels) (final r))
    by (vm_compute; reflexivity).
  split; [exact H|].
  destruct (saved_document_is_listed site (py "Hello") wheels (fresh site ∅)
              _ _ H) as (rel & _ & -> & Hi & _).
  exact Hi.
Defined.

(** X5: names that differ but sanitize to the same file name collide, and
    the first one wins: once a leaf is saved, a leaf of the same version
    with the same sanitized names is reported as already present; it is not
    fetched, not written and not listed in the manifest. *)
Theorem colliding_names_are_skipped E content category_info other w p w' :
  save_content E content category_info w = Ok p w' ->
  version other = version category_info ->
  safe_name (unicode E) (display_category other) =
    safe_name (unicode E) (display_category category_info) ->
  safe_name (unicode E) (name other) =
    safe_name (unicode E) (name category_info) ->
  exists w'',
    scrape_page E other w' = Ok true w'' /\
    trace w'' = trace w' ++ [EvPrint (MsgAlreadyExists (name other))] /\
    gets w'' = gets w' /\
    fs w'' = fs w' /\
    manifest w'' = manifest w'.
Proof.
  intros H Hv Hc Hn.
  pose proof (save_content_exists _ _ _ _ _ _ H) as Hex.
  pose proof (save_content_ok _ _ _ _ _ _ H) as (Hp & _).
  assert (Hd : document_path E other = p).
  { rewrite Hp. unfold document_path. by rewrite Hv, Hc, Hn. }
  rewrite <- Hd in Hex. rewrite (scrape_page_skip _ _ _ Hex).
  eexists. split; [reflexivity|]. unfold gets. simpl. rewrite count_snoc.
  simpl. rewrite N.add_0_r. done.
Qed.

Lemma colliding_names_are_skipped_witness :
  let r := save_content site (py "Hello") wheels_spaced (fresh site ∅) in
  r = Ok (document_path site wheels_spaced) (final r) /\
  name wheels_underscored <> name wheels_spaced /\
  exists w'',
    scrape_page site wheels_underscored (final r) = Ok true w'' /\
    manifest w'' = manifest (final r).
Proof.
  intros r.
  assert (H : r = Ok (document_path site wheels_spaced) (final r))
    by (vm_compute; reflexivity).
  split; [exact H|]. split; [discriminate|].
  destruct (colliding_names_are_skipped site (py "Hello") wheels_spaced
              wheels_underscored (fresh site ∅) _ _ H eq_refl eq_refl eq_refl)
    as (w'' & Hs & _ & _ & _ & Hm).
  exists w''. split; [exact Hs | exact Hm].
Defined.

(** X6: a leaf whose page has the content division and whose document is
    missing is fetched with one request, converted and saved: when
    [scrape_page] returns, it returns [True], the file holds the header
    followed by the cleaned conversion of that division, and the manifest
    counts one more file. *)
Theorem scrape_page_saves E category_info w html content_div ok w' :
  path_exists (fs w) (document_path E category_info) = false ->
  session_get E (sent w) (base_url E) (Some (build_params category_info))
    = inl html ->
  truthy html = true ->
  extract_content (document (BeautifulSoup E html)) = Some content_div ->
  scrape_page E category_info w = Ok ok w' ->
  ok = true /\
  fs w' !! document_path E category_info =
    Some (File (Text (document_text (name category_info)
                        (display_category category_info)
                        (version_str (version category_info))
                        (clean_markdown E (h2t_handle E content_div))))) /\
  path_exists (fs w') (document_path E category_info) = true /\
  total_files (manifest w') = total_files (manifest w) + 1 /\
  gets w' = gets w + 1 /\
  exists t, trace w' = t ++ [EvPrint (MsgSaved (document_path E category_info))].
Proof.
  intros Hfresh Hget Hhtml Hcontent H.
  rewrite (scrape_page_fresh _ _ _ Hfresh) in H.
  unfold bind at 1, print at 1, bind at 1, get_page at 1 in H.
  simpl in H. rewrite Hget in H. unfold not_html in H. rewrite Hhtml in H.
  simpl in H. rewrite Hcontent in H.
  apply bind_ok in H as (p & w3 & Hs & H). injection H as <- <-.
  pose proof (save_content_exists _ _ _ _ _ _ Hs) as Hex.
  pose proof (save_content_ok _ _ _ _ _ _ Hs) as (-> & Hf & _ & Ht & Hn).
  simpl in *. split; [done|]. split; [exact Hf|]. split; [exact Hex|].
  split; [exact Hn|]. split; [|by eexists].
  unfold gets. simpl. rewrite count_snoc, Ht, !count_app. unfold count.
  simpl. lia.
Qed.

Lemma scrape_page_saves_witness :
  let r := scrape_page site wheels (fresh site ∅) in
  r = Ok true (final r) /\
  total_files (manifest (final r)) = 1 /\
  gets (final r) = 1 /\
  path_exists (fs (final r)) (document_path site wheels) = true.
Proof.
  intros r.
  assert (H : r = Ok true (final r)) by (vm_compute; reflexivity).
  assert (H0 : path_exists (fs (fresh site ∅)) (document_path site wheels)
               = false) by (vm_compute; reflexivity).
  assert (H1 : session_get site (sent (fresh site ∅)) (base_url site)
                 (Some (build_params wheels)) = inl wheels_html)
    by (vm_compute; reflexivity).
  assert (H2 : truthy wheels_html = true) by (vm_compute; reflexivity).
  assert (H3 : extract_content (document (BeautifulSoup site wheels_html))
               = Some hello_div) by (vm_compute; reflexivity).
  destruct (scrape_page_saves site wheels (fresh site ∅) wheels_html
              hello_div true (final r) H0 H1 H2 H3 H)
    as (_ & _ & Hex & Hn & Hg & _).
  split; [exact H|]. split; [exact Hn|]. split; [exact Hg | exact Hex].
Defined.

(** ** The manifest's other entries *)

Section DictFrame.
Context {V : Type}.
Implicit Types (d : list (pystr * V)) (k : pystr).

Lemma pystr_eqb_ne a b : a <> b -> pystr_eqb a b = false.
Proof. unfold pystr_eqb. apply bool_decide_eq_false_2. Qed.

Lemma dict_get_init_ne k k' v d :
  k <> k' -> dict_get k' (dict_init k v d) = dict_get k' d.
Proof.
  intros Hk. unfold dict_init. destruct (dict_mem k d); [done|].
  rewrite dict_get_app. simpl. rewrite (pystr_eqb_ne _ _ Hk).
  by destruct (dict_get k' d).
Qed.

Lemma dict_get_alter_ne (f : V -> V) k k' d :
  k <> k' -> dict_get k' (dict_alter f k d) = dict_get k' d.
Proof.
  intros Hk. induction d as [|[k0 v] d IH]; simpl; [done|].
  destruct (pystr_eqb k0 k) eqn:H0; simpl.
  - apply pystr_eqb_eq in H0 as ->. by rewrite (pystr_eqb_ne _ _ Hk).
  - by rewrite IH.
Qed.

Lemma dict_keys_alter (f : V -> V) k d :
  dict_keys (dict_alter f k d) = dict_keys d.
Proof.
  unfold dict_keys. induction d as [|[k0 v] d IH]; simpl; [done|].
  destruct (pystr_eqb k0 k); simpl; [done|]. by rewrite IH.
Qed.

Lemma dict_mem_keys k d : dict_mem k d = true <-> In k (dict_keys d).
Proof.
  unfold dict_mem, dict_keys. induction d as [|[k0 v] d IH]; simpl.
  - by split.
  - destruct (pystr_eqb k0 k) eqn:H0.
    + apply pystr_eqb_eq in H0. by split; auto.
    + split.
      * intros H. right. by apply IH.
      * intros [->|H]; [by rewrite pystr_eqb_refl in H0 | by apply IH].
Qed.

Lemma dict_keys_init_nodup k v d :
  NoDup (dict_keys d) -> NoDup (dict_keys (dict_init k v d)).
Proof.
  intros H. unfold dict_init. destruct (dict_mem k d) eqn:Hm; [done|].
  unfold dict_keys. rewrite map_app. simpl.
  apply NoDup_app. split; [done|]. split; [|apply NoDup_singleton].
  intros x Hx [->|[]]%list_elem_of_In. apply list_elem_of_In in Hx.
  apply dict_mem_keys in Hx. congruence.
Qed.

Lemma Forall_dict_alter (P : pystr * V -> Prop) (f : V -> V) k d :
  (forall k0 v, P (k0, v) -> P (k0, f v)) ->
  Forall P d -> Forall P (dict_alter f k d).
Proof.
  intros Hf. induction 1 as [|[k0 v] d Hx Hd IH]; simpl; [constructor|].
  destruct (pystr_eqb k0 k); constructor; auto.
Qed.

Lemma Forall_dict_init (P : pystr * V -> Prop) k v d :
  P (k, v) -> Forall P d -> Forall P (dict_init k v d).
Proof.
  intros Hv Hd. unfold dict_init. destruct (dict_mem k d); [done|].
  apply Forall_app. split; [done|]. by constructor.
Qed.
End DictFrame.

(** X7: [_add_to_manifest] touches one bucket only: the items of every
    other version or category, the timestamp and the source URL stay as they
    were, and no key is entered twice. *)
Theorem add_to_manifest_frame E v c i p w u w' v' c' :
  _add_to_manifest E v c i p w = Ok u w' ->
  (v', c') <> (v, c) ->
  items_of v' c' (manifest w') = items_of v' c' (manifest w) /\
  generated_at (manifest w') = generated_at (manifest w) /\
  source_url (manifest w') = source_url (manifest w) /\
  (unique_keys (manifest w) -> unique_keys (manifest w')).
Proof.
  unfold _add_to_manifest.
  destruct (relative_to p (output_dir E)) as [rel|]; [|discriminate].
  intros [= <- <-] Hne. simpl. split; [|split; [done|split; [done|]]].
  - unfold items_of. simpl.
    destruct (decide (v = v')) as [<-|Hv].
    + assert (Hc : c <> c') by congruence.
      rewrite !dict_get_alter, dict_get_init. simpl.
      rewrite (dict_get_alter_ne _ _ _ _ Hc), (dict_get_init_ne _ _ _ _ Hc).
      by destruct (dict_get v (versions (manifest w))).
    + by rewrite !(dict_get_alter_ne _ _ _ _ Hv), (dict_get_init_ne _ _ _ _ Hv).
  - unfold unique_keys. simpl. intros [Hk Hall]. split.
    + rewrite !dict_keys_alter. by apply dict_keys_init_nodup.
    + apply Forall_dict_alter.
      { intros k0 cats. simpl. by rewrite dict_keys_alter. }
      apply Forall_dict_alter.
      { intros k0 cats. simpl. apply dict_keys_init_nodup. }
      apply Forall_dict_init; [apply NoDup_nil_2 | done].
Qed.

Lemma add_to_manifest_frame_witness :
  let w := final (save_content site (py "Hello") wheels (fresh site ∅)) in
  let p := [py "output"; py "engine"; py "Math"; py "sin.md"] in
  let r := _add_to_manifest site (py "engine") (py "Math") (py "sin") p w in
  r = Ok tt (final r) /\
  items_of (py "script") (py "Vehicles") (manifest (final r)) =
    items_of (py "script") (py "Vehicles") (manifest w) /\
  unique_keys (manifest (final r)).
Proof.
  intros w p r.
  assert (H : r = Ok tt (final r)) by (vm_compute; reflexivity).
  assert (Hne : (py "script", py "Vehicles") <> (py "engine", py "Math"))
    by discriminate.
  destruct (add_to_manifest_frame site (py "engine") (py "Math") (py "sin") p
              w tt (final r) (py "script") (py "Vehicles") H Hne)
    as (Hi & _ & _ & Hu).
  split; [exact H|]. split; [exact Hi|]. apply Hu.
  vm_compute.
  split; [apply NoDup_singleton|].
  constructor; [apply NoDup_singleton | constructor].
Defined.

(** ** Cleaning twice *)

Lemma collapse_no_triple k s :
  (k < 3)%nat -> no_triple_from k s = true ->
  collapse_from k s = repeat newline k ++ s.
Proof.
  revert k. induction s as [|c s IH]; intros k Hk; simpl.
  - intros _. unfold squeezed.
    destruct (Nat.leb_spec 3 k); [lia|]. by rewrite app_nil_r.
  - destruct (N.eqb_spec c newline) as [->|Hc].
    + intros [H1 H2]%andb_prop. apply Nat.ltb_lt in H1.
      rewrite (IH (S k) H1 H2).
      change (repeat newline (S k)) with (newline :: repeat newline k).
      by rewrite repeat_cons, <- List.app_assoc.
    + intros H. rewrite (IH 0%nat) by (done || lia). simpl.
      unfold squeezed. by destruct (Nat.leb_spec 3 k); [lia|].
Qed.

(** X8: the text [html_to_markdown] returns neither starts nor ends with
    whitespace, and cleaning it again changes nothing. *)
Theorem clean_markdown_idempotent E markdown :
  clean_markdown E (clean_markdown E markdown) = clean_markdown E markdown /\
  tight (unicode E) (clean_markdown E markdown) /\
  tight (unicode E) (rev (clean_markdown E markdown)) /\
  (forall tag,
     clean_markdown E (html_to_markdown E (Some tag)) =
     html_to_markdown E (Some tag)).
Proof.
  assert (Hidem : forall s,
            clean_markdown E (clean_markdown E s) = clean_markdown E s).
  { intros s. unfold clean_markdown at 1. unfold collapse_newlines.
    rewrite collapse_no_triple; [|lia|].
    - simpl. apply strip_id; apply strip_tight.
    - apply no_triple_strip, no_triple_collapse. }
  split; [apply Hidem|]. split; [apply strip_tight|].
  split; [apply strip_tight|]. intros tag. apply Hidem.
Qed.

(** ** Every leaf once *)

Lemma scrape_page_one_attempt E category_info w ok w' :
  scrape_page E category_info w = Ok ok w' ->
  gets w' + skips w' = gets w + skips w + 1.
Proof.
  destruct (path_exists (fs w) (document_path E category_info)) eqn:Hex.
  - rewrite (scrape_page_skip _ _ _ Hex). intros [= _ <-].
    unfold gets, skips. simpl. rewrite !count_snoc. simpl. lia.
  - rewrite (scrape_page_fresh _ _ _ Hex).
    unfold bind at 1, print at 1, bind at 1, get_page at 1. simpl.
    assert (Hlog : forall e w0,
              is_get e = false -> is_skipped e = false ->
              gets (log e w0) + skips (log e w0) = gets w0 + skips w0).
    { intros e w0 H1 H2. unfold gets, skips. simpl.
      rewrite !count_snoc, H1, H2. lia. }
    assert (Hreq :
      gets (count_request
             (log (EvGet (base_url E) (Some (build_params category_info)) 30)
                (log (EvSleep 500)
                   (log (EvPrint (MsgScraping (name category_info))) w)))) +
      skips (count_request
             (log (EvGet (base_url E) (Some (build_params category_info)) 30)
                (log (EvSleep 500)
                   (log (EvPrint (MsgScraping (name category_info))) w)))) =
      gets w + skips w + 1).
    { unfold gets, skips. simpl. rewrite !count_snoc. simpl. lia. }
    revert Hreq.
    generalize (count_request
                  (log (EvGet (base_url E)
                          (Some (build_params category_info)) 30)
                     (log (EvSleep 500)
                        (log (EvPrint (MsgScraping (name category_info)))
                           w)))).
    intros w2 Hreq.
    destruct (session_get E (sent w) (base_url E)
                (Some (build_params category_info))) as [html|e]; simpl.
    + destruct (negb (truthy html)); [by intros [= _ <-]|].
      destruct (extract_content _) as [content_div|].
      * intros H. apply bind_ok in H as (p & w3 & Hs & H).
        injection H as _ <-.
        apply save_content_ok in Hs as (_ & _ & _ & Ht & _).
        rewrite Hlog by done. unfold gets, skips in *.
        rewrite Ht, !count_app. unfold count at 2 4. simpl. lia.
      * intros [= _ <-]. by rewrite Hlog.
    + intros [= _ <-]. by rewrite Hlog.
Qed.

(** X9: in a loop over leaves that returns, every leaf is counted exactly
    once, as scraped or as failed, and is either skipped or fetched with
    exactly one request; nothing is asked twice. *)
Theorem every_leaf_counted_once E subcategories totals w totals' w' :
  scrape_each E subcategories totals w = Ok totals' w' ->
  fst totals' + snd totals' =
    fst totals + snd totals + N.of_nat (length subcategories) /\
  gets w' + skips w' = gets w + skips w + N.of_nat (length subcategories).
Proof.
  revert totals w. induction subcategories as [|sub rest IH]; intros totals w.
  - intros [= <- <-]. simpl. lia.
  - simpl. intros H. apply bind_ok in H as (ok & w1 & H1 & H).
    apply scrape_page_one_attempt in H1.
    apply IH in H as [Ht Hg]. rewrite Nat2N.inj_succ.
    split; [|lia]. rewrite Ht. unfold tally. destruct ok; simpl; lia.
Qed.

Lemma every_leaf_counted_once_witness :
  let r := scrape_each site [wheels; motor] (0, 0) (fresh site ∅) in
  r = Ok (1, 1) (final r) /\
  gets (final r) + skips (final r) = 2.
Proof.
  intros r.
  assert (H : r = Ok (1, 1) (final r)) by (vm_compute; reflexivity).
  split; [exact H|].
  exact (proj2 (every_leaf_counted_once site [wheels; motor] (0, 0)
                  (fresh site ∅) (1, 1) (final r) H)).
Defined.

(** ** The manifest and the index on disk *)

Lemma catalogue_paths_differ E :
  path_join (output_dir E) (py "INDEX.md") <>
  path_join (output_dir E) (py "manifest.json").
Proof.
  rewrite !path_join_cons by discriminate.
  intros H. apply app_inv_head in H. discriminate.
Qed.

(** X10: after [save_manifest] has returned, [manifest.json] holds the
    manifest the scraper has in memory, stamped with the time of the call,
    [INDEX.md] is rendered from that same manifest, and no other file has
    changed. *)
Theorem save_manifest_files_agree E w u w' :
  save_manifest E w = Ok u w' ->
  fs w' !! path_join (output_dir E) (py "manifest.json") =
    Some (File (JsonDump (manifest w'))) /\
  fs w' !! path_join (output_dir E) (py "INDEX.md") =
    Some (File (IndexMd (index_lines (manifest w')))) /\
  generated_at (manifest w') = Some (now_isoformat E) /\
  source_url (manifest w') = source_url (manifest w) /\
  total_files (manifest w') = total_files (manifest w) /\
  versions (manifest w') = versions (manifest w) /\
  (forall p,
     p <> path_join (output_dir E) (py "manifest.json") ->
     p <> path_join (output_dir E) (py "INDEX.md") ->
     fs w' !! p = fs w !! p).
Proof.
  unfold save_manifest, _create_markdown_index. intros H.
  apply bind_ok in H as (u1 & w1 & H1 & H).
  apply bind_ok in H as (u2 & w2 & H2 & H). injection H2 as _ <-.
  apply bind_ok in H as (u3 & w3 & H3 & H). injection H as _ <-.
  apply write_file_ok in H1 as (Hm1 & _ & Hf1 & _).
  apply write_file_ok in H3 as (Hm3 & _ & Hf3 & _).
  simpl in *. rewrite Hf3, Hf1, Hm3, !Hm1. simpl. repeat split.
  - rewrite lookup_insert_ne by apply catalogue_paths_differ.
    by rewrite lookup_insert_eq.
  - by rewrite lookup_insert_eq.
  - intros p Hp1 Hp2. by rewrite !lookup_insert_ne.
Qed.

Lemma save_manifest_files_agree_witness :
  let r := save_manifest site (fresh site {[ [py "output"] := Dir ]}) in
  r = Ok tt (final r) /\
  fs (final r) !! [py "output"; py "manifest.json"] =
    Some (File (JsonDump (manifest (final r)))) /\
  generated_at (manifest (final r)) = Some (py "2025-01-01T00:00:00").
Proof.
  intros r.
  assert (H : r = Ok tt (final r)) by (vm_compute; reflexivity).
  destruct (save_manifest_files_agree site _ tt (final r) H)
    as (Hm & _ & Hg & _).
  split; [exact H|]. split; [exact Hm | exact Hg].
Defined.

Lemma lookup_dirs_whole f acc rest x y :
  lookup_dirs f acc rest x = None -> lookup_dirs f acc rest y = None.
Proof.
  revert acc. induction rest as [|c rest IH]; intros acc; simpl; [done|].
  destruct (f !! (acc ++ [c])) as [[|d]|]; [apply IH|discriminate..].
Qed.

Lemma write_file_returns p d w :
  lookup_dirs (fs w) [] (parent p) p = None ->
  fs w !! p <> Some Dir ->
  exists w', write_file p d w = Ok tt w'.
Proof.
  intros H1 H2. unfold write_file. rewrite H1.
  destruct (fs w !! p) as [[|x]|]; [done|by eexists..].
Qed.

Lemma write_file_returned p d w u w' :
  write_file p d w = Ok u w' ->
  lookup_dirs (fs w) [] (parent p) p = None /\ fs w !! p <> Some Dir.
Proof.
  unfold write_file. destruct (lookup_dirs _ _ _ _); [discriminate|].
  destruct (fs w !! p) as [[|x]|]; [discriminate|done..].
Qed.

Lemma parent_path_join p s : s <> [] -> parent (path_join p s) = p.
Proof.
  intros H. rewrite (path_join_cons _ _ H). unfold parent.
  apply removelast_last.
Qed.

(** X11: [save_manifest] returns exactly when every component of the output
    directory is an existing directory and neither [manifest.json] nor
    [INDEX.md] is a directory; it creates no directory itself. *)
Theorem save_manifest_returns_iff E w :
  (exists w', save_manifest E w = Ok tt w') <->
  (lookup_dirs (fs w) [] (output_dir E) (output_dir E) = None /\
   fs w !! path_join (output_dir E) (py "manifest.json") <> Some Dir /\
   fs w !! path_join (output_dir E) (py "INDEX.md") <> Some Dir).
Proof.
  assert (Hpm : parent (path_join (output_dir E) (py "manifest.json"))
                = output_dir E) by (by apply parent_path_join).
  assert (Hpi : parent (path_join (output_dir E) (py "INDEX.md"))
                = output_dir E) by (by apply parent_path_join).
  split.
  - intros (w' & H). unfold save_manifest, _create_markdown_index in H.
    apply bind_ok in H as (u1 & w1 & H1 & H).
    apply bind_ok in H as (u2 & w2 & H2 & H). injection H2 as _ <-.
    apply bind_ok in H as (u3 & w3 & H3 & H).
    pose proof (write_file_returned _ _ _ _ _ H1) as (Hd1 & Hn1).
    pose proof (write_file_returned _ _ _ _ _ H3) as (_ & Hn3).
    apply write_file_ok in H1 as (_ & _ & Hf1 & _).
    simpl in *. rewrite Hpm in Hd1. rewrite Hf1 in Hn3.
    rewrite lookup_insert_ne in Hn3
      by (intros Heq; by apply (catalogue_paths_differ E)).
    split; [by eapply lookup_dirs_whole|]. done.
  - intros (Hd & Hn1 & Hn3). unfold save_manifest, _create_markdown_index.
    unfold bind at 1.
    edestruct (write_file_returns
                 (path_join (output_dir E) (py "manifest.json")))
      as (w1 & H1); [| |rewrite H1].
    { rewrite Hpm. simpl. by eapply lookup_dirs_whole. }
    { exact Hn1. }
    pose proof (write_file_ok _ _ _ _ _ H1) as (_ & _ & Hf1 & _).
    simpl in Hf1. unfold bind at 1, print at 1, bind at 1.
    edestruct (write_file_returns
                 (path_join (output_dir E) (py "INDEX.md")))
      as (w3 & H3); [| |rewrite H3].
    { rewrite Hpi. cbn [fs log]. rewrite Hf1. apply lookup_dirs_insert.
      - by eapply lookup_dirs_whole.
      - rewrite ?path_join_cons by discriminate.
        rewrite length_app. simpl. lia. }
    { cbn [fs log]. rewrite Hf1, lookup_insert_ne; [exact Hn3|].
      intros Heq. by apply (catalogue_paths_differ E). }
    by eexists.
Qed.

Lemma save_manifest_returns_iff_witness :
  (exists w', save_manifest site (fresh site {[ [py "output"] := Dir ]})
              = Ok tt w') /\
  ~ (exists w', save_manifest site (fresh site ∅) = Ok tt w').
Proof.
  split.
  - apply (proj2 (save_manifest_returns_iff site
                    (fresh site {[ [py "output"] := Dir ]}))).
    split; [vm_compute; reflexivity|].
    split; vm_compute; discriminate.
  - intros H.
    apply (proj1 (save_manifest_returns_iff site (fresh site ∅))) in H
      as (Hd & _).
    revert Hd. vm_compute. discriminate.
Defined.

(** ** Runs that abort *)

Lemma bind_raised {A B} (m : M A) (k : A -> M B) w e w' :
  bind m k w = Raised e w' ->
  m w = Raised e w' \/ exists a w1, m w = Ok a w1 /\ k a w1 = Raised e w'.
Proof.
  unfold bind. destruct (m w) as [a w1|e1 w1]; [eauto|].
  intros [= <- <-]. by left.
Qed.

Lemma save_manifest_raised E w e w' :
  save_manifest E w = Raised e w' ->
  count is_index_write (trace w') = count is_index_write (trace w).
Proof.
  unfold save_manifest, _create_markdown_index. intros H.
  apply bind_raised in H as [H|(u1 & w1 & H1 & H)].
  { by apply write_file_raised in H as ->. }
  apply write_file_ok in H1 as (_ & _ & _ & Ht1).
  apply bind_raised in H as [H|(u2 & w2 & H2 & H)]; [discriminate|].
  injection H2 as _ <-.
  apply bind_raised in H as [H|(u3 & w3 & H3 & H)]; [|discriminate].
  apply write_file_raised in H as ->. simpl in *.
  rewrite count_snoc, Ht1, count_snoc. simpl. lia.
Qed.

(** X12: a run that is aborted by a file-system error has printed no summary
    and has written no index. *)
Theorem aborted_run_prints_no_summary E w e w' :
  scrape_all E w = Raised e w' ->
  count is_summary (trace w') = count is_summary (trace w) /\
  count is_index_write (trace w') = count is_index_write (trace w).
Proof.
  intros H. unfold scrape_all in H.
  apply bind_raised in H as [H|(u1 & w1 & H1 & H)]; [discriminate|].
  injection H1 as _ <-.
  apply bind_raised in H as [H|(u2 & w2 & H2 & H)]; [discriminate|].
  injection H2 as _ <-.
  apply bind_raised in H as [H|(u3 & w3 & H3 & H)]; [discriminate|].
  injection H3 as _ <-.
  assert (Hstart : forall x,
    count is_summary (trace x) =
      count is_summary
        (trace (log (EvPrint MsgRule)
                  (log (EvPrint MsgTitle) (log (EvPrint MsgRule) w)))) ->
    count is_index_write (trace x) =
      count is_index_write
        (trace (log (EvPrint MsgRule)
                  (log (EvPrint MsgTitle) (log (EvPrint MsgRule) w)))) ->
    count is_summary (trace x) = count is_summary (trace w) /\
    count is_index_write (trace x) = count is_index_write (trace w)).
  { intros x -> ->. simpl. rewrite !count_snoc. simpl. lia. }
  revert H Hstart.
  generalize (log (EvPrint MsgRule)
                (log (EvPrint MsgTitle) (log (EvPrint MsgRule) w))).
  intros w0 H Hstart. apply Hstart; clear Hstart.
  - apply bind_raised in H as [H|(categories & w4 & H4 & H)].
    { pose proof (quiet_parse_main_page E w0) as Hq. rewrite H in Hq.
      by destruct Hq as (_ & _ & _ & _ & _ & Hs). }
    pose proof (quiet_parse_main_page E w0) as Hq. rewrite H4 in Hq.
    destruct Hq as (_ & _ & _ & _ & _ & Hs4). simpl in Hs4.
    destruct categories as [|category rest]; [discriminate|].
    apply bind_raised in H as [H|(totals & w5 & H5 & H)].
    { pose proof (process_categories_moved E (category :: rest) 1
                    (length (category :: rest)) (0, 0) w4) as Hm.
      rewrite H in Hm. destruct Hm as (dd & dk & (_ & _ & _ & Hs & _)).
      congruence. }
    pose proof (process_categories_moved E (category :: rest) 1
                  (length (category :: rest)) (0, 0) w4) as Hm.
    rewrite H5 in Hm. destruct Hm as (dd & dk & (_ & _ & _ & Hs5 & _) & _).
    apply bind_raised in H as [H|(u6 & w6 & H6 & H)]; [discriminate|].
    injection H6 as _ <-.
    apply bind_raised in H as [H|(u7 & w7 & H7 & H)].
    { pose proof (save_manifest_moved E (log (EvPrint MsgGenerating) w5))
        as Hm.
      rewrite H in Hm. destruct Hm as (_ & _ & _ & Hs & _). simpl in Hs.
      rewrite count_snoc in Hs. simpl in Hs. lia. }
    repeat (apply bind_raised in H as [H|(? & ? & Hp & H)]; [discriminate|];
            injection Hp as _ <-).
    discriminate.
  - apply bind_raised in H as [H|(categories & w4 & H4 & H)].
    { pose proof (uncatalogued_parse_main_page E w0) as Hq. rewrite H in Hq.
      by destruct Hq as [_ Hq]. }
    pose proof (uncatalogued_parse_main_page E w0) as Hq. rewrite H4 in Hq.
    destruct Hq as [_ Hi4]. simpl in Hi4.
    destruct categories as [|category rest]; [discriminate|].
    apply bind_raised in H as [H|(totals & w5 & H5 & H)].
    { pose proof (uncatalogued_process_categories E (category :: rest) 1
                    (length (category :: rest)) (0, 0) w4) as Hm.
      rewrite H in Hm. destruct Hm as [_ Hm]. simpl in Hm. congruence. }
    pose proof (uncatalogued_process_categories E (category :: rest) 1
                  (length (category :: rest)) (0, 0) w4) as Hm.
    rewrite H5 in Hm. destruct Hm as [_ Hi5]. simpl in Hi5.
    apply bind_raised in H as [H|(u6 & w6 & H6 & H)]; [discriminate|].
    injection H6 as _ <-.
    apply bind_raised in H as [H|(u7 & w7 & H7 & H)].
    { apply save_manifest_raised in H. simpl in H.
      rewrite count_snoc in H. simpl in H. lia. }
    repeat (apply bind_raised in H as [H|(? & ? & Hp & H)]; [discriminate|];
            injection Hp as _ <-).
    discriminate.
Qed.

Lemma aborted_run_prints_no_summary_witness :
  let r := scrape_all cut_off (fresh cut_off ∅) in
  r = Raised (FileNotFoundError [py "output"; py "manifest.json"]) (final r) /\
  count is_summary (trace (final r)) = 0 /\
  count is_index_write (trace (final r)) = 0.
Proof.
  intros r.
  assert (H : r = Raised (FileNotFoundError [py "output"; py "manifest.json"])
                    (final r)) by (vm_compute; reflexivity).
  split; [exact H|].
  exact (aborted_run_prints_no_summary cut_off (fresh cut_off ∅) _ _ H).
Defined.

(** ** The shape of a trace *)

Section TraceShape.
Variable P : list event -> Prop.
Hypothesis P_nil : P [].
Hypothesis P_app : forall a b, P a -> P b -> P (a ++ b).
Hypothesis P_event : forall e, is_get e = false -> is_sleep e = false -> P [e].
Hypothesis P_request :
  forall url params, P [EvSleep 500; EvGet url params 30].

Lemma grows_refl w : grows P w w.
Proof. exists []. by rewrite app_nil_r. Qed.

Lemma grows_trans w1 w2 w3 : grows P w1 w2 -> grows P w2 w3 -> grows P w1 w3.
Proof.
  intros (a & Ha & Pa) (b & Hb & Pb). exists (a ++ b).
  split; [by rewrite Hb, Ha, <- List.app_assoc | by apply P_app].
Qed.

Lemma grows_same w w' : trace w' = trace w -> grows P w w'.
Proof. intros H. exists []. by rewrite app_nil_r. Qed.

Lemma grows_log e w :
  is_get e = false -> is_sleep e = false -> grows P w (log e w).
Proof. intros H1 H2. exists [e]. split; [done | by apply P_event]. Qed.

Lemma grows_print m w : grows P w (final (print m w)).
Proof. by apply grows_log. Qed.

Lemma grows_ret {A} (a : A) w : grows P w (final (ret a w)).
Proof. apply grows_refl. Qed.

Ltac grows_bind :=
  apply (final_bind (grows P)); [exact grows_trans | |].

Lemma grows_get_page E url params w :
  grows P w (final (get_page E url params w)).
Proof.
  unfold get_page.
  assert (H : grows P w (count_request
                           (log (EvGet url params 30) (log (EvSleep 500) w)))).
  { exists [EvSleep 500; EvGet url params 30]. simpl.
    split; [by rewrite <- List.app_assoc | apply P_request]. }
  destruct (session_get E (sent w) url params); simpl; [done|].
  eapply grows_trans; [exact H | by apply grows_log].
Qed.

Lemma grows_parse_main_page E w : grows P w (final (parse_main_page E w)).
Proof.
  unfold parse_main_page.
  grows_bind; [apply grows_print|]. intros _ w1 _.
  grows_bind; [apply grows_get_page|]. intros html w2 _.
  destruct (not_html html); [apply grows_ret|].
  destruct (find is_sidebar (soup_of E html));
    (grows_bind; [apply grows_print|]); intros; apply grows_ret.
Qed.

Lemma grows_get_subcategories E category_info w :
  grows P w (final (get_subcategories E category_info w)).
Proof.
  unfold get_subcategories.
  grows_bind; [apply grows_print|]. intros _ w1 _.
  grows_bind; [apply grows_get_page|]. intros html w2 _.
  destruct (not_html html); apply grows_ret.
Qed.

Lemma grows_mkdir_parents p w : grows P w (final (mkdir_parents p w)).
Proof.
  destruct (mkdir_parents p w) as [u w1|e w1] eqn:H; simpl.
  - apply mkdir_parents_ok in H as (_ & _ & Ht).
    exists [EvMkdir p]. split; [done | by apply P_event].
  - apply mkdir_parents_raised in H as ->. apply grows_refl.
Qed.

Lemma grows_write_file p d w : grows P w (final (write_file p d w)).
Proof.
  destruct (write_file p d w) as [u w1|e w1] eqn:H; simpl.
  - apply write_file_ok in H as (_ & _ & _ & Ht).
    exists [EvWrite p d]. split; [done | by apply P_event].
  - apply write_file_raised in H as ->. apply grows_refl.
Qed.

Lemma grows_add_to_manifest E v c i p w :
  grows P w (final (_add_to_manifest E v c i p w)).
Proof.
  pose proof (add_to_manifest_spec E v c i p w) as Hs.
  destruct (_add_to_manifest E v c i p w); simpl; apply grows_same.
  - by destruct Hs as (rel & _ & _ & _ & _ & _ & Ht & _).
  - by destruct Hs as (_ & _ & _ & Ht & _).
Qed.

Lemma grows_save_content E content category_info w :
  grows P w (final (save_content E content category_info w)).
Proof.
  unfold save_content.
  grows_bind; [apply grows_mkdir_parents|]. intros _ w1 _.
  grows_bind; [apply grows_write_file|]. intros _ w2 _.
  grows_bind; [apply grows_add_to_manifest|]. intros. apply grows_ret.
Qed.

Lemma grows_save_manifest E w : grows P w (final (save_manifest E w)).
Proof.
  unfold save_manifest, _create_markdown_index.
  match goal with
  | |- grows _ _ (final (_ ?x)) =>
      apply grows_trans with x; [by apply grows_same|]
  end.
  grows_bind; [apply grows_write_file|]. intros _ w1 _.
  grows_bind; [apply grows_print|]. intros _ w2 _.
  grows_bind; [apply grows_write_file|]. intros. apply grows_print.
Qed.

Lemma grows_scrape_page E category_info w :
  grows P w (final (scrape_page E category_info w)).
Proof.
  destruct (path_exists (fs w) (document_path E category_info)) eqn:H.
  - rewrite (scrape_page_skip _ _ _ H). by apply grows_log.
  - rewrite (scrape_page_fresh _ _ _ H).
    grows_bind; [apply grows_print|]. intros _ w1 _.
    grows_bind; [apply grows_get_page|]. intros html w2 _.
    destruct (not_html html); [apply grows_ret|].
    destruct (extract_content _).
    + grows_bind; [apply grows_save_content|]. intros p w3 _.
      grows_bind; [apply grows_print|]. intros. apply grows_ret.
    + grows_bind; [apply grows_print|]. intros. apply grows_ret.
Qed.

Lemma grows_scrape_each E subcategories totals w :
  grows P w (final (scrape_each E subcategories totals w)).
Proof.
  revert totals w. induction subcategories as [|sub rest IH]; intros totals w.
  - apply grows_refl.
  - simpl. grows_bind; [apply grows_scrape_page|]. intros ok w1 _. apply IH.
Qed.

Lemma grows_process_categories E categories i n totals w :
  grows P w (final (process_categories E categories i n totals w)).
Proof.
  revert i totals w.
  induction categories as [|category rest IH]; intros i totals w.
  - apply grows_refl.
  - simpl. grows_bind; [apply grows_print|]. intros _ w1 _.
    grows_bind; [apply grows_get_subcategories|]. intros subcategories w2 _.
    grows_bind; [|intros; apply IH].
    destruct subcategories; [|apply grows_scrape_each].
    grows_bind; [apply grows_print|]. intros _ w3 _.
    grows_bind; [apply grows_scrape_page|]. intros. apply grows_ret.
Qed.

Lemma grows_scrape_all E w : grows P w (final (scrape_all E w)).
Proof.
  unfold scrape_all.
  do 3 (grows_bind; [apply grows_print|]; intros _ ? _).
  grows_bind; [apply grows_parse_main_page|]. intros categories w4 _.
  destruct categories as [|category rest]; [apply grows_print|].
  grows_bind; [apply grows_process_categories|]. intros totals w5 _.
  grows_bind; [apply grows_print|]. intros _ w6 _.
  grows_bind; [apply grows_save_manifest|]. intros _ w7 _.
  do 5 (grows_bind; [apply grows_print|]; intros _ ? _).
  apply grows_print.
Qed.
End TraceShape.

Lemma paced_app a b : paced a -> paced b -> paced (a ++ b).
Proof.
  intros Ha. induction 1 as [|e t H1 H2 Ht IH|url params t Ht IH].
  - by rewrite app_nil_r.
  - rewrite List.app_assoc. by apply paced_other.
  - rewrite List.app_assoc. by apply paced_request.
Qed.

Lemma paced_counts t : paced t -> count is_sleep t = count is_get t.
Proof.
  induction 1 as [|e t H1 H2 Ht IH|url params t Ht IH]; [done| |].
  - rewrite !count_snoc, H1, H2, IH. done.
  - rewrite !count_app, IH. done.
Qed.

(** X13: the rate limit holds for the whole run, however it ends: every
    request the run sends comes directly after a delay of half a second, no
    other delay is taken, and so there are as many delays as requests. *)
Theorem requests_are_paced E w :
  exists t,
    trace (final (scrape_all E w)) = trace w ++ t /\
    paced t /\
    count is_sleep t = count is_get t.
Proof.
  destruct (grows_scrape_all paced paced_nil paced_app) with (E := E) (w := w)
    as (t & Ht & Hp).
  - intros e H1 H2. by apply (paced_other e []), paced_nil.
  - intros url params. apply (paced_request url params []), paced_nil.
  - exists t. split; [exact Ht|]. split; [exact Hp | by apply paced_counts].
Qed.

(** ** Categories of the root page *)


(** ** The index *)

Lemma pystr_leb_total a b : pystr_leb a b = false -> pystr_leb b a = true.
Proof.
  revert b. induction a as [|x a IH]; intros [|y b]; simpl; try done.
  destruct (N.ltb_spec x y) as [Hxy|Hxy]; [done|].
  destruct (N.ltb_spec y x) as [Hyx|Hyx]; [done|]. apply IH.
Qed.

Section Sorting.
Context {A : Type} (key : A -> pystr).

Lemma insert_by_perm x l : insert_by key x l ≡ₚ x :: l.
Proof.
  induction l as [|y l IH]; simpl; [done|].
  destruct (pystr_leb (key x) (key y)); [done|].
  rewrite IH. apply perm_swap.
Qed.

Lemma sorted_by_perm l : sorted_by key l ≡ₚ l.
Proof.
  unfold sorted_by. induction l as [|x l IH]; simpl; [done|].
  by rewrite insert_by_perm, IH.
Qed.

Lemma insert_by_hd y x l :
  pystr_leb (key y) (key x) = true ->
  HdRel (fun a b => pystr_leb (key a) (key b) = true) y l ->
  HdRel (fun a b => pystr_leb (key a) (key b) = true) y (insert_by key x l).
Proof.
  intros Hyx Hl. destruct l as [|z l]; simpl; [by constructor|].
  destruct (pystr_leb (key x) (key z)); constructor; [done|].
  by inversion Hl.
Qed.

Lemma insert_by_sorted x l :
  Sorted (fun a b => pystr_leb (key a) (key b) = true) l ->
  Sorted (fun a b => pystr_leb (key a) (key b) = true) (insert_by key x l).
Proof.
  induction 1 as [|y l Hl IH Hy]; simpl; [by repeat constructor|].
  destruct (pystr_leb (key x) (key y)) eqn:Hxy.
  - constructor; [by constructor | by constructor].
  - constructor; [exact IH|].
    apply insert_by_hd; [by apply pystr_leb_total | exact Hy].
Qed.

Lemma sorted_by_sorted l :
  Sorted (fun a b => pystr_leb (key a) (key b) = true) (sorted_by key l).
Proof.
  unfold sorted_by. induction l as [|x l IH]; simpl; [constructor|].
  by apply insert_by_sorted.
Qed.
End Sorting.

Lemma omap_flat_map {A B C} (f : B -> option C) (g : A -> list B) l :
  omap f (flat_map g l) = flat_map (fun x => omap f (g x)) l.
Proof.
  induction l as [|x l IH]; simpl; [done|]. by rewrite omap_app, IH.
Qed.

Lemma flat_map_nil {A B} (g : A -> list B) l :
  (forall x, g x = []) -> flat_map g l = [].
Proof. intros H. induction l as [|x l IH]; simpl; [done|]. by rewrite H. Qed.

(** X15: the table of contents of the index names every version of the
    manifest exactly once, in alphabetical order. *)
Theorem index_table_of_contents m :
  toc_entries (index_lines m) ≡ₚ dict_keys (versions m) /\
  alphabetical (toc_entries (index_lines m)).
Proof.
  assert (H : toc_entries (index_lines m) =
              sorted_by id (dict_keys (versions m))).
  { unfold toc_entries, index_lines. rewrite !omap_app. simpl.
    rewrite omap_flat_map, flat_map_nil.
    - rewrite app_nil_r.
      induction (sorted_by id (dict_keys (versions m))) as [|v l IH];
        simpl; [done|]. f_equal. exact IH.
    - intros v. destruct (dict_get v (versions m)) as [categories|]; [|done].
      simpl. rewrite omap_app. simpl.
      rewrite app_nil_r, omap_flat_map, flat_map_nil; [done|].
      intros c. destruct (dict_get c categories) as [items|]; [|done].
      simpl. rewrite omap_app. simpl. rewrite app_nil_r.
      by induction (sorted_by item_name items) as [|i l IH]. }
  rewrite H. split; [apply sorted_by_perm|].
  apply (sorted_by_sorted (@id pystr)).
Qed.

Lemma flat_map_perm_Forall {A B} (f g : A -> list B) l :
  Forall (fun x => f x ≡ₚ g x) l -> flat_map f l ≡ₚ flat_map g l.
Proof.
  induction 1 as [|x l Hx _ IH]; simpl; [done|]. by rewrite Hx, IH.
Qed.

(** Going through the keys of a dictionary reaches every value once. *)
Lemma flat_map_keys {V B} (g : V -> list B) (d : list (pystr * V)) ks :
  NoDup (dict_keys d) -> ks ≡ₚ dict_keys d ->
  flat_map (fun k => match dict_get k d with
                     | None => []
                     | Some v => g v
                     end) ks ≡ₚ
  flat_map (fun kv => g (snd kv)) d.
Proof.
  intros Hd Hks. rewrite Hks. clear ks Hks.
  induction d as [|[k v] d IH]; simpl; [done|].
  rewrite pystr_eqb_refl. apply Permutation_app_head.
  unfold dict_keys in Hd. simpl in Hd. apply NoDup_cons in Hd as [Hk Hd].
  rewrite <- (IH Hd). apply flat_map_perm_Forall.
  apply List.Forall_forall. intros k' Hk'.
  rewrite pystr_eqb_ne; [done|]. intros ->.
  by apply Hk, list_elem_of_In.
Qed.

Lemma item_lines_index m :
  item_lines (index_lines m) =
  flat_map (fun v =>
    match dict_get v (versions m) with
    | None => []
    | Some categories =>
        flat_map (fun c =>
          match dict_get c categories with
          | None => []
          | Some items => sorted_by item_name items
          end) (sorted_by id (dict_keys categories))
    end) (sorted_by id (dict_keys (versions m))).
Proof.
  unfold item_lines, index_lines. rewrite !omap_app. simpl.
  assert (Htoc : forall l,
            omap (fun l0 => match l0 with
                            | IxItem nm p =>
                                Some {| item_name := nm; item_path := p |}
                            | _ => None
                            end) (map IxTocEntry l) = []).
  { intros l. by induction l as [|v l IH]. }
  rewrite Htoc. simpl. rewrite omap_flat_map. apply flat_map_ext. intros v.
  destruct (dict_get v (versions m)) as [categories|]; [|done].
  simpl. rewrite omap_app. simpl. rewrite app_nil_r, omap_flat_map.
  apply flat_map_ext. intros c.
  destruct (dict_get c categories) as [items|]; [|done].
  simpl. rewrite omap_app. simpl. rewrite app_nil_r.
  induction (sorted_by item_name items) as [|[nm p] l IH]; simpl; [done|].
  f_equal. exact IH.
Qed.

Lemma listed_all_items m : listed m = N.of_nat (length (all_items m)).
Proof.
  unfold listed, all_items.
  induction (versions m) as [|[v categories] vs IH]; simpl; [done|].
  rewrite length_app, Nat2N.inj_add, <- IH. f_equal.
  unfold items_in. clear IH.
  induction categories as [|[c items] cs IH]; simpl; [done|].
  rewrite length_app, Nat2N.inj_add, <- IH. done.
Qed.

(** X16: the links of the index are the items of the manifest, each one
    once; so on a consistent manifest the "Total Files" line of the index
    shows the number of links below it. *)
Theorem index_lists_every_item m :
  unique_keys m ->
  item_lines (index_lines m) ≡ₚ all_items m /\
  N.of_nat (length (item_lines (index_lines m))) = listed m /\
  (manifest_ok m ->
   In (IxTotal (N.of_nat (length (item_lines (index_lines m)))))
      (index_lines m)).
Proof.
  intros [Hv Hc].
  assert (Hperm : item_lines (index_lines m) ≡ₚ all_items m).
  { rewrite item_lines_index. unfold all_items.
    rewrite (flat_map_keys
               (fun categories =>
                  flat_map (fun c =>
                    match dict_get c categories with
                    | None => []
                    | Some items => sorted_by item_name items
                    end) (sorted_by id (dict_keys categories)))
               (versions m) _ Hv (sorted_by_perm id _)).
    apply flat_map_perm_Forall.
    eapply Forall_impl; [exact Hc|]. intros [v categories] Hk. simpl in *.
    rewrite (flat_map_keys (sorted_by item_name) categories _ Hk
               (sorted_by_perm id _)).
    apply flat_map_perm_Forall, List.Forall_forall. intros [c items] _.
    apply sorted_by_perm. }
  assert (Hlen : N.of_nat (length (item_lines (index_lines m))) = listed m).
  { by rewrite listed_all_items, Hperm. }
  split; [exact Hperm|]. split; [exact Hlen|].
  intros Hok. rewrite Hlen, <- Hok. unfold index_lines. simpl. auto.
Qed.

Lemma index_lists_every_item_witness :
  let m := manifest (final (scrape_all site (fresh site ∅))) in
  unique_keys m /\
  item_lines (index_lines m) =
    [{| item_name := py "Wheels";
        item_path := py "script/Vehicles/Wheels.md" |}] /\
  In (IxTotal 1) (index_lines m).
Proof.
  intros m.
  assert (Hu : unique_keys m).
  { vm_compute. split; [apply NoDup_singleton|].
    constructor; [apply NoDup_singleton | constructor]. }
  assert (Hok : manifest_ok m) by (vm_compute; reflexivity).
  destruct (index_lists_every_item m Hu) as (_ & _ & Hin).
  split; [exact Hu|]. split; [vm_compute; reflexivity|].
  exact (Hin Hok).
Defined.

Lemma lookup_dirs_mono f f' acc rest x y :
  f ⊆ f' -> lookup_dirs f acc rest x = None -> lookup_dirs f' acc rest y = None.
Proof.
  intros Hsub. revert acc. induction rest as [|c rest IH]; simpl; intros acc H.
  - done.
  - destruct (f !! (acc ++ [c])) as [[|d]|] eqn:Hc; [|discriminate..].
    rewrite (lookup_weaken _ _ _ _ Hc Hsub). eauto.
Qed.

Lemma lookup_dirs_put f acc rest x p v :
  lookup_dirs f acc rest x = None -> f !! p <> Some Dir ->
  lookup_dirs (<[p := v]> f) acc rest x = None.
Proof.
  intros H Hp. revert acc H.
  induction rest as [|c rest IH]; simpl; intros acc H; [done|].
  destruct (f !! (acc ++ [c])) as [[|d]|] eqn:Hc; [|discriminate..].
  rewrite lookup_insert_ne by congruence. rewrite Hc. eauto.
Qed.

Lemma lookup_dirs_snoc f acc rest c x :
  lookup_dirs f acc rest x = None -> f !! (acc ++ rest ++ [c]) = Some Dir ->
  lookup_dirs f acc (rest ++ [c]) x = None.
Proof.
  revert acc. induction rest as [|d rest IH]; simpl; intros acc H Hc.
  - by rewrite Hc.
  - destruct (f !! (acc ++ [d])) as [[|?]|]; [|discriminate..].
    apply IH; [done|]. by rewrite <- List.app_assoc.
Qed.

Lemma tree_insert f p v :
  tree f -> lookup_dirs f [] (parent p) p = None -> f !! p <> Some Dir ->
  tree (<[p := v]> f).
Proof.
  intros Ht Hp Hn q x H. destruct (decide (q = p)) as [->|Hne].
  - by apply lookup_dirs_put.
  - rewrite lookup_insert_ne in H by done.
    apply lookup_dirs_put; [|done]. eapply Ht, H.
Qed.

Lemma mkdirs_tree f acc rest whole f' :
  tree f -> lookup_dirs f [] acc whole = None ->
  mkdirs f acc rest whole = inr f' ->
  tree f' /\ f ⊆ f' /\
  forall p, (length acc + length rest < length p)%nat -> f' !! p = f !! p.
Proof.
  revert f acc. induction rest as [|c rest IH]; simpl; intros f acc Ht Ha H.
  - injection H as <-. done.
  - destruct (f !! (acc ++ [c])) as [[|d]|] eqn:Hc; [|discriminate|].
    + destruct (IH f (acc ++ [c]) Ht) with (2 := H) as (H1 & H2 & H3).
      { apply (lookup_dirs_snoc f [] acc c); done. }
      repeat split; [done..|]. intros p Hp. apply H3.
      rewrite length_app. simpl. lia.
    + assert (Hn : f !! (acc ++ [c]) <> Some Dir) by congruence.
      destruct (IH (<[acc ++ [c] := Dir]> f) (acc ++ [c])) with (3 := H)
        as (H1 & H2 & H3).
      { apply tree_insert; [done| |done].
        unfold parent. rewrite removelast_last.
        eapply lookup_dirs_whole, Ha. }
      { apply (lookup_dirs_snoc _ [] acc c).
        - by apply lookup_dirs_put.
        - apply lookup_insert_eq. }
      repeat split; [done| |].
      * etrans; [|exact H2]. by apply insert_subseteq.
      * intros p Hp. rewrite H3 by (rewrite length_app; simpl; lia).
        apply lookup_insert_ne. intros <-.
        rewrite length_app in Hp. simpl in Hp. lia.
Qed.

Lemma tree_absent f p :
  tree f -> p <> [] -> path_exists f p = false -> f !! p = None.
Proof.
  intros Ht Hp H. destruct (f !! p) as [x|] eqn:Hx; [|done].
  unfold path_exists in H. rewrite (Ht _ _ Hx), Hx in H. by destruct p.
Qed.

Lemma path_exists_mono f f' p :
  f ⊆ f' -> path_exists f p = true -> path_exists f' p = true.
Proof.
  intros Hsub. unfold path_exists. destruct p as [|c p]; [done|].
  destruct (lookup_dirs f _ _ _) eqn:Hd; [done|].
  destruct (f !! (c :: p)) as [x|] eqn:Hx; [|done]. intros _.
  rewrite (lookup_dirs_mono _ _ _ _ _ (c :: p) Hsub Hd).
  by rewrite (lookup_weaken _ _ _ _ Hx Hsub).
Qed.

Lemma conserved_refl w : conserved w w.
Proof. by intros H. Qed.

Lemma conserved_trans w1 w2 w3 :
  conserved w1 w2 -> conserved w2 w3 -> conserved w1 w3.
Proof.
  intros H1 H2 Ht. destruct (H1 Ht) as [Ht2 Hs2].
  destruct (H2 Ht2) as [Ht3 Hs3]. split; [done|]. by etrans.
Qed.

Lemma conserved_same w w' : fs w' = fs w -> conserved w w'.
Proof. intros H Ht. by rewrite H. Qed.

Lemma conserved_from w0 w w' : fs w = fs w0 -> conserved w w' -> conserved w0 w'.
Proof. unfold conserved. by intros ->. Qed.

Lemma quiet_conserved w w' : quiet w w' -> conserved w w'.
Proof. intros (_ & H & _). by apply conserved_same. Qed.

Lemma document_path_below E category_info :
  exists dir file,
    document_path E category_info = dir ++ [file] /\
    dir = path_join (path_join (output_dir E)
                               (version_str (version category_info)))
                    (safe_name (unicode E) (display_category category_info)).
Proof.
  unfold document_path. rewrite (path_join_cons _ _ (md_nonempty _)). eauto.
Qed.

(** Saving a document that does not exist yet adds to the tree and changes
    nothing in it. *)
Lemma conserved_save_content E content category_info w :
  path_exists (fs w) (document_path E category_info) = false ->
  conserved w (final (save_content E content category_info w)).
Proof.
  intros Hn Ht. unfold save_content.
  fold (document_path E category_info).
  destruct (document_path_below E category_info) as (dir & file & Hp & Hdir).
  rewrite <- Hdir. unfold bind.
  destruct (mkdir_parents dir w) as [u1 w1|e w1] eqn:H1; simpl.
  2: { by apply mkdir_parents_raised in H1 as ->. }
  apply mkdir_parents_fs in H1.
  apply mkdirs_tree in H1 as (Ht1 & Hs1 & Hk1); [|done..].
  destruct (write_file _ _ w1) as [u2 w2|e w2] eqn:H2; simpl.
  2: { by apply write_file_raised in H2 as ->. }
  pose proof (write_file_returned _ _ _ _ _ H2) as [Hd2 Hn2].
  apply write_file_ok in H2 as (_ & _ & Hf2 & _).
  assert (H : tree (fs w2) /\ fs w ⊆ fs w2).
  { rewrite Hf2. split; [by apply tree_insert|].
    etrans; [exact Hs1|]. apply insert_subseteq.
    rewrite Hk1 by (rewrite Hp, length_app; simpl; lia).
    apply tree_absent; [done| |done]. rewrite Hp. by destruct dir. }
  match goal with
  | |- context [_add_to_manifest _ ?v ?c ?i ?q w2] =>
      pose proof (add_to_manifest_spec E v c i q w2) as Hs;
      destruct (_add_to_manifest E v c i q w2); simpl
  end.
  - destruct Hs as (rel & _ & _ & _ & _ & -> & _). done.
  - destruct Hs as (_ & _ & -> & _). done.
Qed.

Lemma conserved_scrape_page E category_info w :
  conserved w (final (scrape_page E category_info w)).
Proof.
  destruct (path_exists (fs w) (document_path E category_info)) eqn:H.
  - rewrite (scrape_page_skip _ _ _ H). by apply conserved_same.
  - rewrite (scrape_page_fresh _ _ _ H).
    unfold bind at 1. unfold print at 1.
    set (w1 := log (EvPrint (MsgScraping (name category_info))) w).
    unfold bind at 1.
    pose proof (quiet_get_page E (base_url E)
                  (Some (build_params category_info)) w1) as Hq.
    destruct (get_page_returns E (base_url E)
                (Some (build_params category_info)) w1) as (w2 & Hg).
    rewrite Hg in Hq |- *. simpl in Hq. destruct Hq as (_ & Hf & _).
    change (fs w1) with (fs w) in Hf.
    destruct (not_html _); [by apply conserved_same|].
    destruct (extract_content _) as [content_div|];
      [|by apply conserved_same].
    apply (conserved_from w w2); [done|].
    apply (final_bind conserved); [exact conserved_trans | |].
    + apply conserved_save_content. by rewrite Hf.
    + intros p w3 _. by apply conserved_same.
Qed.

Lemma conserved_scrape_each E subcategories totals w :
  conserved w (final (scrape_each E subcategories totals w)).
Proof.
  revert totals w. induction subcategories as [|sub rest IH]; intros totals w.
  - apply conserved_refl.
  - simpl. apply (final_bind conserved); [exact conserved_trans | |].
    + apply conserved_scrape_page.
    + intros ok w1 _. apply IH.
Qed.

Lemma conserved_process_categories E categories i n totals w :
  conserved w (final (process_categories E categories i n totals w)).
Proof.
  revert i totals w.
  induction categories as [|category rest IH]; intros i totals w.
  - apply conserved_refl.
  - simpl. apply (final_bind conserved); [exact conserved_trans | |].
    { by apply conserved_same. }
    intros _ w1 _. apply (final_bind conserved); [exact conserved_trans | |].
    { apply quiet_conserved, quiet_get_subcategories. }
    intros subcategories w2 _.
    apply (final_bind conserved); [exact conserved_trans | |];
      [|intros; apply IH].
    destruct subcategories; [|apply conserved_scrape_each].
    apply (final_bind conserved); [exact conserved_trans | |].
    { by apply conserved_same. }
    intros _ w3 _. apply (final_bind conserved); [exact conserved_trans | |].
    { apply conserved_scrape_page. }
    intros. apply conserved_refl.
Qed.

Lemma conserved_but_trans others w1 w2 w3 :
  conserved_but others w1 w2 -> conserved_but others w2 w3 ->
  conserved_but others w1 w3.
Proof.
  intros H1 H2 Ht. destruct (H1 Ht) as [Ht2 Hs2].
  destruct (H2 Ht2) as [Ht3 Hs3]. split; [done|]. eauto.
Qed.

Lemma conserved_but_same others w w' :
  fs w' = fs w -> conserved_but others w w'.
Proof. intros H Ht. by rewrite H. Qed.

Lemma conserved_conserved_but others w w' :
  conserved w w' -> conserved_but others w w'.
Proof.
  intros H Ht. destruct (H Ht) as [Ht' Hs]. split; [done|].
  intros p _ x Hx. by eapply lookup_weaken.
Qed.

Lemma conserved_but_write others p d w :
  In p others -> conserved_but others w (final (write_file p d w)).
Proof.
  intros Hin Ht. destruct (write_file p d w) as [u w'|e w'] eqn:H; simpl.
  - pose proof (write_file_returned _ _ _ _ _ H) as [Hd Hn].
    apply write_file_ok in H as (_ & _ & -> & _).
    split; [by apply tree_insert|]. intros q Hq x Hx.
    rewrite lookup_insert_ne; [done|]. by intros <-.
  - by apply write_file_raised in H as ->.
Qed.

Lemma conserved_but_save_manifest E w :
  conserved_but [path_join (output_dir E) (py "manifest.json");
                 path_join (output_dir E) (py "INDEX.md")]
                w (final (save_manifest E w)).
Proof.
  unfold save_manifest, _create_markdown_index.
  match goal with
  | |- conserved_but ?o w (final (?m ?x)) =>
      change (conserved_but o x (final (m x)))
  end.
  apply (final_bind (conserved_but _)); [apply conserved_but_trans | |].
  { apply conserved_but_write. by left. }
  intros _ w1 _.
  apply (final_bind (conserved_but _)); [apply conserved_but_trans | |].
  { by apply conserved_but_same. }
  intros _ w2 _.
  apply (final_bind (conserved_but _)); [apply conserved_but_trans | |].
  { apply conserved_but_write. right. by left. }
  intros _ w3 _. by apply conserved_but_same.
Qed.

Lemma conserved_but_scrape_all E w :
  conserved_but [path_join (output_dir E) (py "manifest.json");
                 path_join (output_dir E) (py "INDEX.md")]
                w (final (scrape_all E w)).
Proof.
  unfold scrape_all.
  apply (final_bind (conserved_but _)); [apply conserved_but_trans | |].
  { by apply conserved_but_same. }
  intros _ w1 _.
  apply (final_bind (conserved_but _)); [apply conserved_but_trans | |].
  { by apply conserved_but_same. }
  intros _ w2 _.
  apply (final_bind (conserved_but _)); [apply conserved_but_trans | |].
  { by apply conserved_but_same. }
  intros _ w3 _.
  apply (final_bind (conserved_but _)); [apply conserved_but_trans | |].
  { apply conserved_conserved_but, quiet_conserved, quiet_parse_main_page. }
  intros categories w4 _.
  destruct categories as [|category rest]; [by apply conserved_but_same|].
  apply (final_bind (conserved_but _)); [apply conserved_but_trans | |].
  { apply conserved_conserved_but, conserved_process_categories. }
  intros totals w5 _.
  apply (final_bind (conserved_but _)); [apply conserved_but_trans | |].
  { by apply conserved_but_same. }
  intros _ w6 _.
  apply (final_bind (conserved_but _)); [apply conserved_but_trans | |].
  { apply conserved_but_save_manifest. }
  intros _ w7 _.
  repeat (apply (final_bind (conserved_but _));
          [apply conserved_but_trans | by apply conserved_but_same |];
          intros).
  by apply conserved_but_same.
Qed.

(** X17: a run never removes, overwrites or changes what is already in the
    output tree: whatever the network answers and however the run ends,
    every file and directory that was there before is there afterwards
    with the same content, [manifest.json] and [INDEX.md] apart, and the
    tree is still a tree. *)
Theorem existing_files_are_kept E w :
  tree (fs w) ->
  tree (fs (final (scrape_all E w))) /\
  forall p x,
    fs w !! p = Some x ->
    p <> path_join (output_dir E) (py "manifest.json") ->
    p <> path_join (output_dir E) (py "INDEX.md") ->
    fs (final (scrape_all E w)) !! p = Some x.
Proof.
  intros Ht. destruct (conserved_but_scrape_all E w Ht) as [Ht' Hk].
  split; [done|]. intros p x Hx Hm Hi. apply Hk; [|done].
  intros [<-|[<-|[]]]; done.
Qed.

Lemma tree_after_first_run : tree after_first_run.
Proof.
  intros p x H. unfold after_first_run in H.
  repeat (apply lookup_insert_Some in H as [[<- _]|[_ H]];
          [vm_compute; reflexivity|]).
  apply lookup_singleton_Some in H as [<- _]. vm_compute. reflexivity.
Qed.

Lemma existing_files_are_kept_witness :
  tree (fs (fresh site after_first_run)) /\
  fs (final (scrape_all site (fresh site after_first_run)))
    !! [py "output"; py "script"; py "Vehicles"; py "Wheels.md"] =
  Some (File (Text (py "# Wheels"))).
Proof.
  split; [exact tree_after_first_run|].
  apply (existing_files_are_kept site (fresh site after_first_run)
           tree_after_first_run).
  - vm_compute. reflexivity.
  - vm_compute. discriminate.
  - vm_compute. discriminate.
Defined.

(** What [scrape_page] returns is whether the document is there. *)
Lemma scrape_page_result E category_info w ok w' :
  scrape_page E category_info w = Ok ok w' ->
  ok = path_exists (fs w') (document_path E category_info).
Proof.
  destruct (path_exists (fs w) (document_path E category_info)) eqn:H.
  - rewrite (scrape_page_skip _ _ _ H). intros [= <- <-]. by simpl.
  - rewrite (scrape_page_fresh _ _ _ H). intros Hr.
    apply bind_ok in Hr as (u1 & w1 & H1 & Hr). injection H1 as _ <-.
    apply bind_ok in Hr as (html & w2 & H2 & Hr).
    match type of H2 with
    | get_page _ ?u ?p ?x = _ =>
        pose proof (quiet_get_page E u p x) as (_ & Hf & _)
    end.
    rewrite H2 in Hf. simpl in Hf.
    destruct (not_html html).
    { injection Hr as <- <-. by rewrite Hf. }
    destruct (extract_content _) as [content_div|].
    + apply bind_ok in Hr as (p & w3 & H3 & Hr).
      apply bind_ok in Hr as (u4 & w4 & H4 & Hr). injection H4 as _ <-.
      injection Hr as <- <-. simpl.
      pose proof (save_content_ok _ _ _ _ _ _ H3) as (-> & _).
      symmetry. by eapply save_content_exists.
    + apply bind_ok in Hr as (u3 & w3 & H3 & Hr). injection H3 as _ <-.
      injection Hr as <- <-. simpl. by rewrite Hf.
Qed.

(** X18: the boolean [scrape_page] returns tells whether the document of
    the leaf is on disk afterwards: [True] when it was already there or has
    just been written, [False] when it is still missing, and then neither
    the files nor the manifest have changed. *)
Theorem scrape_page_reports_existence E category_info w ok w' :
  scrape_page E category_info w = Ok ok w' ->
  ok = path_exists (fs w') (document_path E category_info) /\
  (ok = false -> fs w' = fs w /\ manifest w' = manifest w).
Proof.
  intros Hr. split; [by eapply scrape_page_result|]. intros ->.
  destruct (path_exists (fs w) (document_path E category_info)) eqn:H.
  { rewrite (scrape_page_skip _ _ _ H) in Hr. discriminate. }
  rewrite (scrape_page_fresh _ _ _ H) in Hr.
  apply bind_ok in Hr as (u1 & w1 & H1 & Hr). injection H1 as _ <-.
  apply bind_ok in Hr as (html & w2 & H2 & Hr).
  match type of H2 with
  | get_page _ ?u ?p ?x = _ =>
      pose proof (quiet_get_page E u p x) as (Hm & Hf & _)
  end.
  rewrite H2 in Hm, Hf. simpl in Hm, Hf.
  destruct (not_html html); [by injection Hr as <-|].
  destruct (extract_content _) as [content_div|].
  - apply bind_ok in Hr as (p & w3 & H3 & Hr).
    apply bind_ok in Hr as (u4 & w4 & H4 & Hr). discriminate.
  - apply bind_ok in Hr as (u3 & w3 & H3 & Hr). injection H3 as _ <-.
    by injection Hr as <-.
Qed.

Lemma scrape_page_reports_existence_witness :
  let r := scrape_page site motor (fresh site after_first_run) in
  r = Ok false (final r) /\
  path_exists (fs (final r)) (document_path site motor) = false.
Proof.
  assert (H : scrape_page site motor (fresh site after_first_run) =
              Ok false (final (scrape_page site motor
                                 (fresh site after_first_run))))
    by (vm_compute; reflexivity).
  split; [exact H|].
  symmetry. exact (proj1 (scrape_page_reports_existence _ _ _ _ _ H)).
Defined.

Lemma scrape_each_failures E subcategories totals w totals' w' :
  tree (fs w) ->
  scrape_each E subcategories totals w = Ok totals' w' ->
  snd totals <= snd totals' /\
  (snd totals' = snd totals ->
   Forall (fun c => path_exists (fs w') (document_path E c) = true)
          subcategories).
Proof.
  revert totals w.
  induction subcategories as [|sub rest IH]; simpl; intros totals w Ht H.
  - injection H as <- <-. split; [lia|]. by constructor.
  - apply bind_ok in H as (ok & w1 & H1 & H).
    pose proof (conserved_scrape_page E sub w Ht) as [Ht1 _].
    rewrite H1 in Ht1. simpl in Ht1.
    pose proof (conserved_scrape_each E rest (tally ok totals) w1 Ht1)
      as [_ Hs].
    rewrite H in Hs. simpl in Hs.
    destruct (IH _ _ Ht1 H) as [Hle Hall].
    apply scrape_page_result in H1.
    destruct ok; simpl in Hle, Hall.
    + split; [done|]. intros Heq. constructor; [|by apply Hall].
      eapply path_exists_mono; [exact Hs | done].
    + split; [lia|]. intros Heq. lia.
Qed.

(** X19: a loop over leaves that reports no failure has left a document on
    disk for every one of its leaves. *)
Theorem no_failure_means_every_document E subcategories totals w totals' w' :
  tree (fs w) ->
  scrape_each E subcategories totals w = Ok totals' w' ->
  snd totals' = snd totals ->
  Forall (fun c => path_exists (fs w') (document_path E c) = true)
         subcategories.
Proof.
  intros Ht H. by apply (scrape_each_failures _ _ _ _ _ _ Ht H).
Qed.

Lemma no_failure_means_every_document_witness :
  let r := scrape_each site [wheels; wheels] (0, 0) (fresh site ∅) in
  tree (fs (fresh site ∅)) /\
  r = Ok (2, 0) (final r) /\
  Forall (fun c => path_exists (fs (final r)) (document_path site c) = true)
         [wheels; wheels].
Proof.
  assert (Ht : tree (fs (fresh site ∅))) by (intros p x H; done).
  assert (H : scrape_each site [wheels; wheels] (0, 0) (fresh site ∅) =
              Ok (2, 0) (final (scrape_each site [wheels; wheels] (0, 0)
                                  (fresh site ∅))))
    by (vm_compute; reflexivity).
  split; [exact Ht|]. split; [exact H|].
  exact (no_failure_means_every_document _ _ _ _ _ _ Ht H eq_refl).
Defined.

Section ManifestInvariant.
Variable I : manifest_t -> Prop.
Hypothesis I_add :
  forall E v c i p w, keeps I w (final (_add_to_manifest E v c i p w)).
Hypothesis I_stamp :
  forall m t,
    I m ->
    I {| generated_at := t; source_url := source_url m;
         total_files := total_files m; versions := versions m |}.

Lemma keeps_trans w1 w2 w3 : keeps I w1 w2 -> keeps I w2 w3 -> keeps I w1 w3.
Proof. unfold keeps. auto. Qed.

Lemma keeps_same w w' : manifest w' = manifest w -> keeps I w w'.
Proof. unfold keeps. by intros ->. Qed.

Lemma keeps_quiet w w' : quiet w w' -> keeps I w w'.
Proof. intros (H & _). by apply keeps_same. Qed.

Ltac keeps_bind := apply (final_bind (keeps I)); [exact keeps_trans | |].

Lemma keeps_mkdir_parents p w : keeps I w (final (mkdir_parents p w)).
Proof.
  destruct (mkdir_parents p w) as [u w'|e w'] eqn:H; simpl.
  - apply mkdir_parents_ok in H as (H & _). by apply keeps_same.
  - apply mkdir_parents_raised in H as ->. by apply keeps_same.
Qed.

Lemma keeps_write_file p d w : keeps I w (final (write_file p d w)).
Proof.
  destruct (write_file p d w) as [u w'|e w'] eqn:H; simpl.
  - apply write_file_ok in H as (H & _). by apply keeps_same.
  - apply write_file_raised in H as ->. by apply keeps_same.
Qed.

Lemma keeps_save_content E content category_info w :
  keeps I w (final (save_content E content category_info w)).
Proof.
  unfold save_content.
  keeps_bind; [apply keeps_mkdir_parents|]. intros _ w1 _.
  keeps_bind; [apply keeps_write_file|]. intros _ w2 _.
  keeps_bind; [apply I_add|]. intros. by apply keeps_same.
Qed.

Lemma keeps_scrape_page E category_info w :
  keeps I w (final (scrape_page E category_info w)).
Proof.
  destruct (path_exists (fs w) (document_path E category_info)) eqn:H.
  - rewrite (scrape_page_skip _ _ _ H). by apply keeps_same.
  - rewrite (scrape_page_fresh _ _ _ H).
    keeps_bind; [by apply keeps_same|]. intros _ w1 _.
    keeps_bind; [apply keeps_quiet, quiet_get_page|]. intros html w2 _.
    destruct (not_html html); [by apply keeps_same|].
    destruct (extract_content _).
    + keeps_bind; [apply keeps_save_content|]. intros p w3 _.
      by apply keeps_same.
    + by apply keeps_same.
Qed.

Lemma keeps_scrape_each E subcategories totals w :
  keeps I w (final (scrape_each E subcategories totals w)).
Proof.
  revert totals w. induction subcategories as [|sub rest IH]; intros totals w.
  - by apply keeps_same.
  - simpl. keeps_bind; [apply keeps_scrape_page|]. intros ok w1 _. apply IH.
Qed.

Lemma keeps_process_categories E categories i n totals w :
  keeps I w (final (process_categories E categories i n totals w)).
Proof.
  revert i totals w.
  induction categories as [|category rest IH]; intros i totals w.
  - by apply keeps_same.
  - simpl. keeps_bind; [by apply keeps_same|]. intros _ w1 _.
    keeps_bind; [apply keeps_quiet, quiet_get_subcategories|].
    intros subcategories w2 _.
    keeps_bind; [|intros; apply IH].
    destruct subcategories; [|apply keeps_scrape_each].
    keeps_bind; [by apply keeps_same|]. intros _ w3 _.
    keeps_bind; [apply keeps_scrape_page|]. intros. by apply keeps_same.
Qed.

Lemma keeps_save_manifest E w : keeps I w (final (save_manifest E w)).
Proof.
  unfold save_manifest, _create_markdown_index.
  match goal with
  | |- keeps I w (final (?m ?x)) =>
      apply keeps_trans with x; [intros H; by apply I_stamp|]
  end.
  keeps_bind; [apply keeps_write_file|]. intros _ w1 _.
  keeps_bind; [by apply keeps_same|]. intros _ w2 _.
  keeps_bind; [apply keeps_write_file|]. intros. by apply keeps_same.
Qed.

Lemma keeps_scrape_all E w : keeps I w (final (scrape_all E w)).
Proof.
  unfold scrape_all.
  keeps_bind; [by apply keeps_same|]. intros _ w1 _.
  keeps_bind; [by apply keeps_same|]. intros _ w2 _.
  keeps_bind; [by apply keeps_same|]. intros _ w3 _.
  keeps_bind; [apply keeps_quiet, quiet_parse_main_page|].
  intros categories w4 _.
  destruct categories as [|category rest]; [by apply keeps_same|].
  keeps_bind; [apply keeps_process_categories|]. intros totals w5 _.
  keeps_bind; [by apply keeps_same|]. intros _ w6 _.
  keeps_bind; [apply keeps_save_manifest|]. intros _ w7 _.
  repeat (keeps_bind; [by apply keeps_same|]; intros).
  by apply keeps_same.
Qed.
End ManifestInvariant.

Lemma add_to_manifest_unique E v c i p w :
  keeps unique_keys w (final (_add_to_manifest E v c i p w)).
Proof.
  unfold keeps, unique_keys, _add_to_manifest. intros [Hk Hall].
  assert (H2 : NoDup (dict_keys
                (dict_alter (dict_init c []) v
                   (dict_init v [] (versions (manifest w))))) /\
               Forall (fun kv => NoDup (dict_keys (snd kv)))
                (dict_alter (dict_init c ([] : list item)) v
                   (dict_init v [] (versions (manifest w))))).
  { split.
    - rewrite dict_keys_alter. by apply dict_keys_init_nodup.
    - apply Forall_dict_alter.
      { intros k0 cats. simpl. apply dict_keys_init_nodup. }
      apply Forall_dict_init; [apply NoDup_nil_2 | done]. }
  destruct H2 as [Hk2 Hall2].
  destruct (relative_to p (output_dir E)) as [rel|]; simpl; [|done].
  split.
  - by rewrite dict_keys_alter.
  - apply Forall_dict_alter; [|done].
    intros k0 cats. simpl. by rewrite dict_keys_alter.
Qed.

Lemma stamp_unique m t :
  unique_keys m ->
  unique_keys {| generated_at := t; source_url := source_url m;
                 total_files := total_files m; versions := versions m |}.
Proof. done. Qed.

Lemma item_lines_all_items m :
  unique_keys m -> item_lines (index_lines m) ≡ₚ all_items m.
Proof.
  intros [Hv Hc]. rewrite item_lines_index. unfold all_items.
  rewrite (flat_map_keys
             (fun categories =>
                flat_map (fun c =>
                  match dict_get c categories with
                  | None => []
                  | Some items => sorted_by item_name items
                  end) (sorted_by id (dict_keys categories)))
             (versions m) _ Hv (sorted_by_perm id _)).
  apply flat_map_perm_Forall.
  eapply Forall_impl; [exact Hc|]. intros [v categories] Hk. simpl in *.
  rewrite (flat_map_keys (sorted_by item_name) categories _ Hk
             (sorted_by_perm id _)).
  apply flat_map_perm_Forall, List.Forall_forall. intros [c items] _.
  apply sorted_by_perm.
Qed.

Lemma save_manifest_written E w u w' :
  save_manifest E w = Ok u w' ->
  fs w' !! path_join (output_dir E) (py "manifest.json") =
    Some (File (JsonDump (manifest w'))) /\
  fs w' !! path_join (output_dir E) (py "INDEX.md") =
    Some (File (IndexMd (index_lines (manifest w')))).
Proof.
  unfold save_manifest, _create_markdown_index. intros H.
  apply bind_ok in H as (u1 & w1 & H1 & H).
  apply bind_ok in H as (u2 & w2 & H2 & H). injection H2 as _ <-.
  apply bind_ok in H as (u3 & w3 & H3 & H). injection H as _ <-.
  apply write_file_ok in H1 as (Hm1 & _ & Hf1 & _).
  apply write_file_ok in H3 as (Hm3 & _ & Hf3 & _).
  simpl in *. rewrite Hf3, Hf1, Hm3, !Hm1. simpl. split.
  - rewrite lookup_insert_ne by apply catalogue_paths_differ.
    by rewrite lookup_insert_eq.
  - by rewrite lookup_insert_eq.
Qed.

(** X20: a run of a fresh scraper that gets past the root page and returns
    leaves a catalogue that agrees with what it wrote: [manifest.json] and
    [INDEX.md] on disk both describe the final manifest, [total_files] is
    the number of documents written in this run, and the index links to
    exactly that many items, the items of the manifest. *)
Theorem fresh_run_catalogue E f w' :
  scrape_all E (fresh E f) = Ok tt w' ->
  (exists t, trace w' = t ++ [EvPrint MsgFailedMain]) \/
  (fs w' !! path_join (output_dir E) (py "manifest.json") =
     Some (File (JsonDump (manifest w'))) /\
   fs w' !! path_join (output_dir E) (py "INDEX.md") =
     Some (File (IndexMd (index_lines (manifest w')))) /\
   total_files (manifest w') = documents w' /\
   N.of_nat (length (item_lines (index_lines (manifest w')))) =
     documents w' /\
   item_lines (index_lines (manifest w')) ≡ₚ all_items (manifest w')).
Proof.
  intros H.
  assert (Hu : unique_keys (manifest w')).
  { pose proof (keeps_scrape_all unique_keys add_to_manifest_unique
                  stamp_unique E (fresh E f)) as Hk.
    rewrite H in Hk. apply Hk. split; [apply NoDup_nil_2 | constructor]. }
  assert (Hok : manifest_ok (manifest w')).
  { pose proof (scrape_all_keeps_ok E (fresh E f)) as Hk.
    rewrite H in Hk. by apply Hk. }
  unfold scrape_all in H.
  apply bind_ok in H as (u1 & w1 & H1 & H). injection H1 as _ <-.
  apply bind_ok in H as (u2 & w2 & H2 & H). injection H2 as _ <-.
  apply bind_ok in H as (u3 & w3 & H3 & H). injection H3 as _ <-.
  apply bind_ok in H as (categories & w4 & H4 & H).
  assert (Hq : quiet (fresh E f) w4).
  { eapply quiet_trans; [by apply (quiet_log (EvPrint MsgRule))|].
    eapply quiet_trans; [by apply (quiet_log (EvPrint MsgTitle))|].
    eapply quiet_trans; [by apply (quiet_log (EvPrint MsgRule))|].
    match type of H4 with
    | parse_main_page _ ?x = _ => pose proof (quiet_parse_main_page E x) as Hp
    end.
    by rewrite H4 in Hp. }
  destruct categories as [|category rest].
  { left. injection H as <-. by exists (trace w4). }
  right.
  apply bind_ok in H as (totals & w5 & H5 & H).
  pose proof (process_categories_moved E (category :: rest) 1
                (length (category :: rest)) (0, 0) w4) as Hm5.
  rewrite H5 in Hm5. destruct Hm5 as (dd & dk & Hm5 & _).
  apply bind_ok in H as (u6 & w6 & H6 & H). injection H6 as _ <-.
  apply bind_ok in H as (u7 & w7 & H7 & H).
  match type of H7 with
  | save_manifest _ ?x = _ => pose proof (save_manifest_moved E x) as Hm7
  end.
  rewrite H7 in Hm7. simpl in Hm7.
  assert (Hm' : moved dd dk (fresh E f) w7).
  { pose proof (moved_trans _ _ _ _ _ _ _
                  (moved_quiet_r _ _ _ _ _
                     (moved_quiet_l _ _ _ _ _ Hq Hm5)
                     (quiet_log (EvPrint MsgGenerating) w5
                        eq_refl eq_refl eq_refl eq_refl))
                  Hm7) as Hx.
    by rewrite !N.add_0_r in Hx. }
  apply save_manifest_written in H7 as [Hf1 Hf2].
  apply bind_ok in H as (? & ? & E1 & H). injection E1 as _ <-.
  apply bind_ok in H as (? & ? & E2 & H). injection E2 as _ <-.
  apply bind_ok in H as (? & ? & E3 & H). injection E3 as _ <-.
  apply bind_ok in H as (? & ? & E4 & H). injection E4 as _ <-.
  apply bind_ok in H as (? & ? & E5 & H). injection E5 as _ <-.
  injection H as <-.
  destruct (moved_summary E (fst totals) (snd totals) dd dk (fresh E f) w7 Hm')
    as (Hd & _ & Ht & _).
  simpl in Hd, Ht, Hu, Hok |- *.
  assert (Heq : total_files (manifest w7) = documents
            (log (EvPrint MsgRule)
               (log (EvPrint (MsgOutputDir (output_dir E)))
                  (log (EvPrint (MsgFailed (snd totals)))
                     (log (EvPrint (MsgScraped (fst totals)))
                        (log (EvPrint MsgComplete)
                           (log (EvPrint MsgRule) w7))))))).
  { rewrite Hd, Ht. done. }
  split; [done|]. split; [done|]. split; [exact Heq|].
  split; [|by apply item_lines_all_items].
  rewrite <- Heq, Hok, listed_all_items.
  by rewrite (item_lines_all_items _ Hu).
Qed.

Lemma fresh_run_catalogue_witness :
  let w' := final (scrape_all site (fresh site ∅)) in
  scrape_all site (fresh site ∅) = Ok tt w' /\
  total_files (manifest w') = 1 /\
  length (item_lines (index_lines (manifest w'))) = 1%nat.
Proof.
  intros w'.
  assert (H : scrape_all site (fresh site ∅) = Ok tt w')
    by (vm_compute; reflexivity).
  assert (Hd : documents w' = 1) by (vm_compute; reflexivity).
  split; [exact H|].
  destruct (fresh_run_catalogue site ∅ w' H) as [(t & Ht)|(_ & _ & Hn & Hl & _)].
  - exfalso. apply (f_equal (fun l => List.last l (EvPrint MsgTitle))) in Ht.
    rewrite List.last_last in Ht. vm_compute in Ht. discriminate.
  - split; [by rewrite Hn|]. apply Nat2N.inj. by rewrite Hl.
Defined.

Section Progress.
Context {X : Type} (sel : message -> option X).
Hypothesis sel_progress : forall m, is_progress m = false -> sel m = None.

Lemma said_app a b : said sel (a ++ b) = said sel a ++ said sel b.
Proof. apply omap_app. Qed.

Lemma hushed_refl w : hushed sel w w.
Proof. done. Qed.

Lemma hushed_trans w1 w2 w3 :
  hushed sel w1 w2 -> hushed sel w2 w3 -> hushed sel w1 w3.
Proof. unfold hushed. congruence. Qed.

Lemma hushed_same w w' : trace w' = trace w -> hushed sel w w'.
Proof. unfold hushed. by intros ->. Qed.

Lemma hushed_adds w w' t :
  trace w' = trace w ++ t -> said sel t = [] -> hushed sel w w'.
Proof.
  unfold hushed. intros -> H. by rewrite said_app, H, app_nil_r.
Qed.

Lemma hushed_print m w :
  is_progress m = false -> hushed sel w (final (print m w)).
Proof.
  intros H. apply (hushed_adds _ _ [EvPrint m]); [done|].
  simpl. by rewrite (sel_progress _ H).
Qed.

Ltac hushed_bind :=
  apply (final_bind (hushed sel)); [exact hushed_trans | |].

Lemma hushed_get_page E url params w :
  hushed sel w (final (get_page E url params w)).
Proof.
  unfold get_page.
  destruct (session_get E (sent w) url params) as [html|err]; simpl.
  - apply (hushed_adds _ _ [EvSleep 500; EvGet url params 30]); [|done].
    simpl. by rewrite <- List.app_assoc.
  - apply (hushed_adds _ _ [EvSleep 500; EvGet url params 30;
                            EvPrint (MsgErrorFetching url err)]).
    + simpl. by rewrite <- !List.app_assoc.
    + simpl. by rewrite sel_progress.
Qed.

Lemma hushed_get_subcategories E category_info w :
  hushed sel w (final (get_subcategories E category_info w)).
Proof.
  unfold get_subcategories.
  hushed_bind; [by apply hushed_print|]. intros _ w1 _.
  hushed_bind; [apply hushed_get_page|]. intros html w2 _.
  destruct (not_html html); apply hushed_refl.
Qed.

Lemma hushed_save_content E content category_info w :
  hushed sel w (final (save_content E content category_info w)).
Proof.
  unfold save_content.
  hushed_bind.
  { destruct (mkdir_parents _ w) as [u w1|e w1] eqn:H; simpl.
    - apply mkdir_parents_ok in H as (_ & _ & Ht).
      by eapply hushed_adds.
    - apply mkdir_parents_raised in H as ->. apply hushed_refl. }
  intros _ w1 _. hushed_bind.
  { destruct (write_file _ _ w1) as [u w2|e w2] eqn:H; simpl.
    - apply write_file_ok in H as (_ & _ & _ & Ht).
      by eapply hushed_adds.
    - apply write_file_raised in H as ->. apply hushed_refl. }
  intros _ w2 _. hushed_bind; [|intros; apply hushed_refl].
  match goal with
  | |- hushed _ _ (final (_add_to_manifest _ ?v ?c ?i ?q _)) =>
      pose proof (add_to_manifest_spec E v c i q w2) as Hs;
      destruct (_add_to_manifest E v c i q w2); simpl
  end.
  - destruct Hs as (rel & _ & _ & _ & _ & _ & Ht & _).
    by apply hushed_same.
  - destruct Hs as (_ & _ & _ & Ht & _). by apply hushed_same.
Qed.

(** Of the lines that announce something, [scrape_page] prints its first
    line and no other. *)
Lemma scrape_page_said E category_info w :
  said sel (trace (final (scrape_page E category_info w))) =
  said sel (trace w) ++
  said sel [EvPrint (first_line E category_info w)].
Proof.
  unfold first_line.
  destruct (path_exists (fs w) (document_path E category_info)) eqn:H.
  - rewrite (scrape_page_skip _ _ _ H). simpl. apply said_app.
  - rewrite (scrape_page_fresh _ _ _ H).
    unfold bind at 1. unfold print at 1.
    set (w1 := log (EvPrint (MsgScraping (name category_info))) w).
    rewrite <- said_app. change (trace w ++ _) with (trace w1).
    match goal with
    | |- said sel (trace (final (?m w1))) = _ =>
        change (hushed sel w1 (final (m w1)))
    end.
    hushed_bind; [apply hushed_get_page|]. intros html w2 _.
    destruct (not_html html); [apply hushed_refl|].
    destruct (extract_content _).
    + hushed_bind; [apply hushed_save_content|]. intros p w3 _.
      hushed_bind; [by apply hushed_print|]. intros. apply hushed_refl.
    + hushed_bind; [by apply hushed_print|]. intros. apply hushed_refl.
Qed.
End Progress.


Lemma category_line_progress m :
  is_progress m = false -> category_line m = None.
Proof. by destruct m. Qed.


Lemma first_line_category E category_info w :
  said category_line [EvPrint (first_line E category_info w)] = [].
Proof. unfold first_line. by destruct (path_exists _ _). Qed.


Lemma hushed_scrape_each E subcategories totals w :
  hushed category_line w (final (scrape_each E subcategories totals w)).
Proof.
  revert totals w. induction subcategories as [|sub rest IH]; intros totals w.
  - apply hushed_refl.
  - simpl. apply (final_bind (hushed _)); [apply hushed_trans | |].
    + unfold hushed.
      rewrite (scrape_page_said _ category_line_progress).
      by rewrite first_line_category, app_nil_r.
    + intros ok w1 _. apply IH.
Qed.

(** X22: the categories are processed in the order given, the [k]-th one
    announced as number [k] of [n], whatever happens to their pages and
    leaves. *)
Theorem categories_numbered_in_order E categories i n totals w totals' w' :
  process_categories E categories i n totals w = Ok totals' w' ->
  said category_line (trace w') =
  said category_line (trace w) ++
  imap (fun k c => ((i + k)%nat, n, name c)) categories.
Proof.
  revert i totals w.
  induction categories as [|category rest IH]; simpl; intros i totals w H.
  - injection H as _ <-. by rewrite app_nil_r.
  - apply bind_ok in H as (u1 & w1 & H1 & H). injection H1 as _ <-.
    apply bind_ok in H as (subcategories & w2 & H2 & H).
    apply bind_ok in H as (totals1 & w3 & H3 & H).
    apply IH in H. rewrite H. clear H IH.
    assert (Hq : hushed category_line
                   (log (EvPrint (MsgProcessing i n (name category))) w) w3).
    { eapply hushed_trans.
      - pose proof (hushed_get_subcategories category_line
                      category_line_progress E category
                      (log (EvPrint (MsgProcessing i n (name category))) w))
          as Hg.
        rewrite H2 in Hg. exact Hg.
      - destruct subcategories as [|sub subs].
        + apply bind_ok in H3 as (u3 & w4 & H4 & H3). injection H4 as _ <-.
          apply bind_ok in H3 as (ok & w5 & H5 & H3). injection H3 as _ <-.
          eapply hushed_trans.
          { by apply (hushed_print category_line category_line_progress
                        MsgNoSubcategories w2). }
          unfold hushed.
          match type of H5 with
          | scrape_page _ _ ?x = _ =>
              pose proof (scrape_page_said category_line
                            category_line_progress E category x) as Hs
          end.
          rewrite H5, first_line_category, app_nil_r in Hs. exact Hs.
        + pose proof (hushed_scrape_each E (sub :: subs) totals w2) as Hs.
          rewrite H3 in Hs. exact Hs. }
    unfold hushed in Hq. rewrite Hq. simpl.
    rewrite said_app, <- List.app_assoc. simpl.
    rewrite Nat.add_0_r. do 2 f_equal.
    apply imap_ext. intros k c _. simpl. f_equal. f_equal. lia.
Qed.

Lemma categories_numbered_in_order_witness :
  let r := process_categories site [vehicles; tools] 1 2 (0, 0)
             (fresh site ∅) in
  r = Ok (1, 2) (final r) /\
  said category_line (trace (final r)) =
    [(1%nat, 2%nat, py "Vehicles"); (2%nat, 2%nat, py "Tools")].
Proof.
  intros r.
  assert (H : r = Ok (1, 2) (final r)) by (vm_compute; reflexivity).
  split; [exact H|].
  rewrite (categories_numbered_in_order _ _ _ _ _ _ _ _ H).
  vm_compute. reflexivity.
Defined.






























Lemma links_blank a b : links ((a ++ [IxBlank]) ++ b) = links (a ++ [IxBlank]).
Proof.
  induction a as [|x a IH]; simpl; [done|]. destruct x; try done.
  by rewrite IH.
Qed.

Lemma closed_blank a : closed (a ++ [IxBlank]).
Proof.
  intros b. induction a as [|x a IH]; simpl; [done|].
  destruct x; try done. by rewrite IH, links_blank.
Qed.

Lemma closed_nil : closed [].
Proof. by intros b. Qed.

Lemma closed_app a a' : closed a -> closed a' -> closed (a ++ a').
Proof.
  intros Ha Ha' b. by rewrite <- List.app_assoc, Ha, Ha', Ha, List.app_assoc.
Qed.

Lemma closed_flat_map {A} (f : A -> list index_line) l :
  (forall x, closed (f x)) -> closed (flat_map f l).
Proof.
  intros H. induction l as [|x l IH]; simpl; [apply closed_nil|].
  by apply closed_app.
Qed.

Lemma headings_flat_map {A} (f : A -> list index_line) l :
  (forall x, closed (f x)) ->
  headings (flat_map f l) = flat_map (fun x => headings (f x)) l.
Proof.
  intros H. induction l as [|x l IH]; simpl; [done|]. by rewrite H, IH.
Qed.

Lemma links_items l :
  links (map (fun i => IxItem (item_name i) (item_path i)) l ++ [IxBlank]) = l.
Proof. induction l as [|[nm p] l IH]; simpl; [done|]. by rewrite IH. Qed.

Lemma headings_items l :
  headings (map (fun i => IxItem (item_name i) (item_path i)) l ++ [IxBlank])
  = [].
Proof. by induction l as [|[nm p] l IH]. Qed.

(** What a reader finds in the index of a manifest. *)
Lemma headings_index m :
  headings (index_lines m) =
  flat_map (fun v =>
    match dict_get v (versions m) with
    | None => []
    | Some categories =>
        flat_map (fun c =>
          match dict_get c categories with
          | None => []
          | Some items => [(c, length items, sorted_by item_name items)]
          end) (sorted_by id (dict_keys categories))
    end) (sorted_by id (dict_keys (versions m))).
Proof.
  unfold index_lines. simpl.
  assert (Htoc : forall l rest,
            headings (map IxTocEntry l ++ IxRule :: rest) = headings rest).
  { intros l rest. by induction l as [|v l IH]. }
  rewrite Htoc.
  assert (Hcat : forall (categories : list (pystr * list item)) c,
            closed match dict_get c categories with
                   | None => []
                   | Some items =>
                       [IxCategory c (length items)] ++
                       map (fun i => IxItem (item_name i) (item_path i))
                           (sorted_by item_name items) ++ [IxBlank]
                   end).
  { intros categories c. destruct (dict_get c categories) as [items|];
      [|apply closed_nil].
    apply (closed_blank (_ :: _)). }
  rewrite headings_flat_map.
  - apply flat_map_ext. intros v.
    destruct (dict_get v (versions m)) as [categories|]; [|done].
    simpl. rewrite (closed_flat_map _ _ (Hcat categories)). simpl.
    rewrite app_nil_r, headings_flat_map by apply Hcat.
    apply flat_map_ext. intros c.
    destruct (dict_get c categories) as [items|]; [|done].
    simpl. by rewrite links_items, headings_items.
  - intros v. destruct (dict_get v (versions m)) as [categories|];
      [|apply closed_nil].
    apply (closed_blank (_ :: _)).
Qed.

(** X24: read back, the index shows under every category heading the count
    of the links that follow it, and these links are the items of that
    category in the manifest, sorted by name. *)
Theorem index_headings_count_their_links m c n l :
  In (c, n, l) (headings (index_lines m)) ->
  n = length l /\ by_name l /\
  exists v categories items,
    dict_get v (versions m) = Some categories /\
    dict_get c categories = Some items /\
    l ≡ₚ items.
Proof.
  rewrite headings_index. intros H.
  apply in_flat_map in H as (v & _ & H).
  destruct (dict_get v (versions m)) as [categories|] eqn:Hv; [|done].
  apply in_flat_map in H as (c' & _ & H).
  destruct (dict_get c' categories) as [items|] eqn:Hc; [|done].
  destruct H as [[= <- <- <-]|[]].
  split; [by rewrite (sorted_by_perm item_name items)|].
  split; [apply sorted_by_sorted|].
  exists v, categories, items. repeat split; try done.
  apply sorted_by_perm.
Qed.

Lemma index_headings_count_their_links_witness :
  let m := manifest (final (scrape_all site (fresh site ∅))) in
  let l := [{| item_name := py "Wheels";
               item_path := py "script/Vehicles/Wheels.md" |}] in
  In (py "Vehicles", 1%nat, l) (headings (index_lines m)) /\
  by_name l.
Proof.
  intros m l.
  assert (H : In (py "Vehicles", 1%nat, l) (headings (index_lines m)))
    by (vm_compute; left; reflexivity).
  split; [exact H|].
  by destruct (index_headings_count_their_links m _ _ _ H) as (_ & Hs & _).
Defined.
